(** * Ultrasound bladder measurements: a shallow embedding of
      [ultrasound_validation.py] and the properties of its specification.

    The class [UltrasoundDataEntry] is embedded method by method.  Python
    floats are IEEE-754 binary64 numbers and are modelled by Rocq's primitive
    floats, which are the same format with the same rounding; strings are
    modelled by [string] (ASCII text); the instance attribute [self.entries],
    the console and the file system are threaded through a state-and-exception
    monad.  The pandas and builtin functions the class calls, whose code is
    not part of the repository, are the fields of the class [Runtime]. *)

From Stdlib Require Import ZArith Lia List String Ascii Bool QArith DecimalString.
From Stdlib Require Import Floats.
Import ListNotations.

(** ** Python strings: [str.strip] and [str.lower] on ASCII text *)

Module PyStr.

Local Open Scope nat_scope.

(** The ASCII characters for which [str.isspace] holds: tab, line feed,
    vertical tab, form feed, carriage return, the four separators
    0x1c..0x1f and the space. *)
Definition is_space (c : ascii) : bool :=
  let n := nat_of_ascii c in
  ((9 <=? n) && (n <=? 13)) || ((28 <=? n) && (n <=? 32)).

Definition is_upper (c : ascii) : bool :=
  let n := nat_of_ascii c in (65 <=? n) && (n <=? 90).

Definition lower_char (c : ascii) : ascii :=
  if is_upper c then ascii_of_nat (nat_of_ascii c + 32) else c.

Fixpoint lstrip (s : string) : string :=
  match s with
  | EmptyString => EmptyString
  | String c s' => if is_space c then lstrip s' else s
  end.

Fixpoint rstrip (s : string) : string :=
  match s with
  | EmptyString => EmptyString
  | String c s' =>
      match rstrip s' with
      | EmptyString => if is_space c then EmptyString else String c EmptyString
      | t => String c t
      end
  end.

(** [s.strip()] *)
Definition strip (s : string) : string := rstrip (lstrip s).

(** [s.lower()] *)
Fixpoint lower (s : string) : string :=
  match s with
  | EmptyString => EmptyString
  | String c s' => String (lower_char c) (lower s')
  end.

Fixpoint all_space (s : string) : bool :=
  match s with
  | EmptyString => true
  | String c s' => is_space c && all_space s'
  end.

Fixpoint no_upper (s : string) : bool :=
  match s with
  | EmptyString => true
  | String c s' => negb (is_upper c) && no_upper s'
  end.

Definition first_char (s : string) : option ascii :=
  match s with
  | EmptyString => None
  | String c _ => Some c
  end.

Fixpoint last_char (s : string) : option ascii :=
  match s with
  | EmptyString => None
  | String c EmptyString => Some c
  | String _ s' => last_char s'
  end.

Definition not_space_opt (o : option ascii) : bool :=
  match o with
  | None => true
  | Some c => negb (is_space c)
  end.

(** Decimal rendering of integers, as [str] does for [int]. *)
Definition str_of_nat (n : nat) : string := NilZero.string_of_uint (Nat.to_uint n).
Definition str_of_Z (z : Z) : string := NilZero.string_of_int (Z.to_int z).

End PyStr.

(** ** Python floats *)

Module PyFloat.

Local Open Scope float_scope.

(** [numpy.pi], the binary64 number nearest to pi. *)
Definition np_pi : float := 0x1.921fb54442d18p+1.

(** [float(n)] for a Python [int]: the correctly rounded binary64 value;
    an integer beyond the binary64 range raises [OverflowError]. *)
Definition float_of_Z (z : Z) : option float :=
  let f := SF2Prim (binary_normalize prec emax z 0%Z false) in
  if is_infinity f then None else Some f.

(** The exact rational value of a finite binary64 number. *)
Definition exact_value (f : float) : option Q :=
  match Prim2SF f with
  | S754_zero _ => Some 0%Q
  | S754_finite s m e =>
      let n := if s then Zneg m else Zpos m in
      Some (match e with
            | Z0 => inject_Z n
            | Zpos p => inject_Z (n * Z.pow_pos 2 p)
            | Zneg p => Qmake n (Pos.pow 2 p)
            end)
  | _ => None
  end.

(** [lo <= f < hi], on the exact value of [f]. *)
Definition within (lo hi : Q) (f : float) : bool :=
  match exact_value f with
  | Some q => Qle_bool lo q && negb (Qle_bool hi q)
  | None => false
  end.

End PyFloat.

(** ** The order of non-negative binary64 numbers

    The vocabulary in which the rounding of the products and quotients
    of the estimator is described: the specification of the primitive
    floats, [SpecFloat], rounds an exact value [m * 2^e] by shifting its
    mantissa to the exponent of its binade and rounding the shifted
    mantissa to the nearest integer, ties to even. *)

Module Binary64.

Local Open Scope Z_scope.

(** The nearest integer to [m / 2^k], ties to even. *)
Definition rne (m k : Z) : Z :=
  let q := m / 2 ^ k in
  match 2 * (m mod 2 ^ k) ?= 2 ^ k with
  | Lt => q
  | Eq => if Z.even q then q else q + 1
  | Gt => q + 1
  end.

(** Where [m / 2^k] lies between two consecutive integers. *)
Definition loc_of (m : Z) (k : Z) : location :=
  if m mod 2 ^ k =? 0 then loc_Exact
  else loc_Inexact (2 * (m mod 2 ^ k) ?= 2 ^ k).

(** The binary64 number with mantissa [q] at exponent [f], for a [q] of
    at most 53 bits or the 54-bit number [2^53]. *)
Definition decode (s : bool) (f q : Z) : spec_float :=
  match q with
  | Z0 => S754_zero s
  | Zpos p =>
      if q =? 2 ^ 53 then
        if f + 1 <=? 971 then S754_finite s (2 ^ 52)%positive (f + 1) else S754_infinity s
      else if f <=? 971 then S754_finite s p f else S754_infinity s
  | Zneg _ => S754_nan
  end.

(** The rank of a non-negative binary64 number among the non-negative
    binary64 numbers: zero has rank 0, consecutive numbers consecutive
    ranks, infinity the rank after the largest finite number. *)
Definition ord (x : spec_float) : Z :=
  match x with
  | S754_zero _ => 0
  | S754_finite _ m e => (e + 1074) * 2 ^ 52 + Zpos m
  | S754_infinity _ => 2047 * 2 ^ 52
  | S754_nan => -1
  end.

(** Zero, a positive finite number or plus infinity. *)
Definition nonneg (x : spec_float) : bool :=
  match x with
  | S754_zero s => negb s
  | S754_finite s _ _ => negb s
  | S754_infinity s => negb s
  | S754_nan => false
  end.

(** The rank, before the cut at infinity, of the binary64 number nearest
    to [m * 2^e]. *)
Definition nearest_rank (m e : Z) : Z :=
  let f := fexp prec emax (Zdigits2 m + e) in
  (f + 1074) * 2 ^ 52 + rne m (f - e).


(** Writes the two powers of two of the format as numerals, for [lia]. *)
Ltac numerals :=
  change (2 ^ 52) with 4503599627370496 in *;
  change (2 ^ 53) with 9007199254740992 in *.

(** The number 2, the divisor of the estimator's three halvings. *)
Definition SFtwo : spec_float := S754_finite false 4503599627370496 (-51).

(** The same notions on primitive floats, through their specification. *)
Definition fnonneg (a : float) : bool := nonneg (Prim2SF a).

Definition ford (a : float) : Z := ord (Prim2SF a).

(** [a] is a NaN, or [b] is a NaN, or both are non-negative numbers and [a] is
    not above [b]. *)
Definition not_above (a b : float) : Prop :=
  is_nan a = true \/ is_nan b = true
  \/ (fnonneg a = true /\ fnonneg b = true /\ ford a <= ford b).

(** [a] is a NaN or a non-negative number. *)
Definition nan_or_nonneg (a : float) : Prop := is_nan a = true \/ fnonneg a = true.

End Binary64.

(** ** Python values, exceptions and the pandas table model *)

(** A [pandas.Timestamp]: nanoseconds since the epoch, or [None] for the
    not-a-time marker [NaT]. *)
Definition Timestamp : Type := option Z.

(** The scalar values found in entry dictionaries and table cells. *)
Inductive pyval : Type :=
| PNone
| PFloat (f : float)
| PInt (z : Z)
| PStr (s : string)
| PTime (t : Timestamp).

(** The exceptions the program can meet.  [ValueError] is what the
    validator raises (the specification's [InvalidMeasurement]); it is also
    the class of the conversion failures of [float] and [pd.to_datetime]. *)
Inductive exn : Type :=
| ValueError (msg : string)
| KeyError (key : string)
| TypeError (msg : string)
| NameError (name : string)
| OverflowError
| EOFError
| ParserError
| FileNotFoundError (path : string).

Inductive result (A : Type) : Type :=
| Ok (a : A)
| Raise (e : exn).
Arguments Ok {A} a.
Arguments Raise {A} e.

(** A Python [dict] with string keys, in insertion order; also the view of
    a [pandas.Series] (one table row) as a map from column label to value. *)
Definition dict : Type := list (string * pyval).

Fixpoint dict_get (k : string) (d : dict) : option pyval :=
  match d with
  | [] => None
  | (k', v) :: d' => if String.eqb k k' then Some v else dict_get k d'
  end.

(** [k in d] *)
Definition contains (d : dict) (k : string) : bool :=
  match dict_get k d with
  | Some _ => true
  | None => false
  end.

Definition mem_string (k : string) (l : list string) : bool :=
  existsb (String.eqb k) l.

Module Pandas.

(** The missing-value marker of a table. *)
Definition NaN : pyval := PFloat nan.

(** [pd.notna(v)] *)
Definition notna (v : pyval) : bool :=
  match v with
  | PNone => false
  | PFloat f => negb (is_nan f)
  | PTime None => false
  | _ => true
  end.

(** A rectangular table: its column labels and its rows, each row
    listing one cell per column. *)
Record DataFrame : Type := mkDataFrame {
  columns : list string;
  rows : list (list pyval)
}.

(** [len(df)] *)
Definition len (df : DataFrame) : nat := List.length (rows df).

Definition empty_frame : DataFrame := mkDataFrame [] [].

(** The labels of [ks] not yet in [seen], each once, in order. *)
Fixpoint add_new (seen ks : list string) : list string :=
  match ks with
  | [] => []
  | k :: ks' =>
      if mem_string k seen then add_new seen ks'
      else k :: add_new (seen ++ [k]) ks'
  end.

(** Column labels of a list of dictionaries: every key, in order of
    first appearance. *)
Fixpoint keys_union (seen : list string) (ds : list dict) : list string :=
  match ds with
  | [] => seen
  | d :: ds' => keys_union (seen ++ add_new seen (map fst d)) ds'
  end.

(** The cells of one record under the labels [cols]; a label the record
    lacks gives a missing value. *)
Definition reindex (cols : list string) (d : dict) : list pyval :=
  map (fun c => match dict_get c d with Some v => v | None => NaN end) cols.

(** [pd.DataFrame(list_of_dicts)] *)
Definition DataFrame_of (ds : list dict) : DataFrame :=
  let cols := keys_union [] ds in
  mkDataFrame cols (map (reindex cols) ds).

(** One row as a [Series]: the cells labelled by the columns. *)
Definition series (cols : list string) (row : list pyval) : dict :=
  combine cols row.

(** [df.iterrows()] for the default integer index. *)
Definition iterrows (df : DataFrame) : list (nat * dict) :=
  combine (seq 0 (len df)) (map (series (columns df)) (rows df)).

(** The dtype of a column: 64-bit integers, binary64 floats, or Python
    objects (text, timestamps, mixed values). *)
Inductive dtype : Type := Int64 | Float64 | Object.

Definition is_int64 (v : pyval) : bool :=
  match v with
  | PInt z => ((- 2 ^ 63 <=? z) && (z <? 2 ^ 63))%Z
  | _ => false
  end.

Definition is_float (v : pyval) : bool :=
  match v with
  | PFloat _ => true
  | _ => false
  end.

(** A cell a float column can hold: a number, or the [None] that such a
    column keeps as a missing value. *)
Definition is_number (v : pyval) : bool :=
  match v with
  | PFloat _ | PNone => true
  | _ => is_int64 v
  end.

(** The dtype pandas gives a column with these cells; no cell, no dtype. *)
Definition dtype_of (cells : list pyval) : option dtype :=
  match cells with
  | [] => None
  | _ =>
      if forallb is_int64 cells then Some Int64
      else if forallb is_number cells && existsb is_float cells then Some Float64
      else Some Object
  end.

(** The dtype of a column put together from two parts: a part without
    cells has no say, integers meeting floats become floats, anything
    meeting objects is kept as objects. *)
Definition common_dtype (a b : option dtype) : option dtype :=
  match a, b with
  | None, t => t
  | t, None => t
  | Some Object, _ => Some Object
  | _, Some Object => Some Object
  | Some Int64, Some Int64 => Some Int64
  | _, _ => Some Float64
  end.

(** [astype(float64)] of a 64-bit integer: the nearest binary64 number. *)
Definition float64_of_int (z : Z) : float :=
  SF2Prim (binary_normalize prec emax z 0%Z false).

(** A cell of a part of dtype [own], in a column of dtype [common]. *)
Definition upcast (own common : option dtype) (v : pyval) : pyval :=
  match own, common, v with
  | Some Int64, Some Float64, PInt z => PFloat (float64_of_int z)
  | _, _, _ => v
  end.

(** The cells of the column at position [j]. *)
Definition column_at (j : nat) (rs : list (list pyval)) : list pyval :=
  map (fun r => nth j r NaN) rs.

(** The rows [own] of one part once each column has the dtype it shares
    with the rows [other] of the other part. *)
Definition upcast_rows (own other : list (list pyval)) : list (list pyval) :=
  map (fun r =>
         map (fun jv =>
                let t := dtype_of (column_at (fst jv) own) in
                upcast t (common_dtype t (dtype_of (column_at (fst jv) other))) (snd jv))
             (combine (seq 0 (List.length r)) r))
      own.

(** [pd.concat([a, b], ignore_index=True)]: the union of the columns,
    those of [a] first, and the rows of [a] followed by the rows of [b],
    each realigned to the union by label (a missing value under a label
    the row's table lacks), each column with the dtype common to its two
    parts. *)
Definition concat (a b : DataFrame) : DataFrame :=
  let cols := columns a ++ add_new (columns a) (columns b) in
  let ra := map (fun r => reindex cols (series (columns a) r)) (rows a) in
  let rb := map (fun r => reindex cols (series (columns b) r)) (rows b) in
  mkDataFrame cols (upcast_rows ra rb ++ upcast_rows rb ra).

(** The rows of a table as [pd.read_csv] types them: a column of
    integers that also holds a float or a blank is a column of floats. *)
Definition typed_rows (rs : list (list pyval)) : list (list pyval) :=
  map (fun r =>
         map (fun jv =>
                match dtype_of (column_at (fst jv) rs), snd jv with
                | Some Float64, PInt z => PFloat (float64_of_int z)
                | _, v => v
                end)
             (combine (seq 0 (List.length r)) r))
      rs.

(** A table is well formed when its labels are distinct and every row
    has one cell per label, as any table read from a file is. *)
Definition well_formed (df : DataFrame) : Prop :=
  NoDup (columns df) /\ Forall (fun r => List.length r = List.length (columns df)) (rows df).

Fixpoint distinct (l : list string) : bool :=
  match l with
  | [] => true
  | x :: l' => negb (mem_string x l') && distinct l'
  end.

(** The decision procedure of [well_formed]. *)
Definition well_formedb (df : DataFrame) : bool :=
  distinct (columns df)
  && forallb (fun r => Nat.eqb (List.length r) (List.length (columns df))) (rows df).

End Pandas.

(** The builtin and pandas functions whose code lies outside the
    repository, as the interface the class runs against. *)
Class Runtime : Type := {
  (** [float(s)] for a string [s]; [None] when Python raises [ValueError] *)
  float_of_str : string -> option float;
  (** [str(x)] and the default f-string rendering of a float *)
  str_of_float : float -> string;
  (** [format(x, '.1f')] *)
  format_1f : float -> string;
  (** [pd.to_datetime(s)]; [None] when the text is not a date *)
  to_datetime : string -> option Timestamp;
  (** [str(t)] for a timestamp *)
  str_of_time : Timestamp -> string;
  (** the text [df.to_csv(index=False)] writes *)
  to_csv : Pandas.DataFrame -> string;
  (** the table [pd.read_csv] parses from a file's text; [None] when the
      text is not a table *)
  parse_csv : string -> option Pandas.DataFrame
}.

(** ** The state of a run and the monad of the methods *)

(** One measurement entry: the dictionary the two entry methods build,
    with its ten keys in the order of the dictionary literal. *)
Record entry : Type := mkEntry {
  patient_id : string;
  timestamp : Timestamp;
  length_cm : float;
  width_cm : float;
  depth_cm : float;
  voided_volume_ml : option float;
  context : string;
  notes : string;
  calculated_volume_ml : float;
  source : string
}.

Definition field_names : list string :=
  ["patient_id"; "timestamp"; "length_cm"; "width_cm"; "depth_cm";
   "voided_volume_ml"; "context"; "notes"; "calculated_volume_ml"; "source"]%string.

Definition opt_float (o : option float) : pyval :=
  match o with
  | Some f => PFloat f
  | None => PNone
  end.

(** The entry as the [dict] it is in the program. *)
Definition to_dict (e : entry) : dict :=
  [("patient_id", PStr (patient_id e));
   ("timestamp", PTime (timestamp e));
   ("length_cm", PFloat (length_cm e));
   ("width_cm", PFloat (width_cm e));
   ("depth_cm", PFloat (depth_cm e));
   ("voided_volume_ml", opt_float (voided_volume_ml e));
   ("context", PStr (context e));
   ("notes", PStr (notes e));
   ("calculated_volume_ml", PFloat (calculated_volume_ml e));
   ("source", PStr (source e))]%string.

(** The calls of the two helper methods, recorded in call order. *)
Inductive call : Type :=
| CallValidate (length width depth : float)
| CallCalculate (length width depth : float).

Record state : Type := mkState {
  entries : list entry;              (* self.entries *)
  stdin : list string;               (* the lines the operator will type *)
  stdout : list string;              (* what was printed, oldest first *)
  files : string -> option string;   (* the text of each existing file *)
  calls : list call                  (* helper calls made so far *)
}.

Definition M (A : Type) : Type := state -> result A * state.

Definition ret {A} (a : A) : M A := fun s => (Ok a, s).

Definition raise {A} (e : exn) : M A := fun s => (Raise e, s).

Definition bind {A B} (m : M A) (k : A -> M B) : M B :=
  fun s =>
    match m s with
    | (Ok a, s') => k a s'
    | (Raise e, s') => (Raise e, s')
    end.

Declare Scope py_scope.
Delimit Scope py_scope with py.
Notation "x <- m ;; k" := (bind m (fun x => k))
  (at level 61, m at next level, right associativity) : py_scope.
Notation "m ;; k" := (bind m (fun _ => k))
  (at level 61, right associativity) : py_scope.
Local Open Scope py_scope.

(** [try: body except FileNotFoundError: handler] *)
Definition try_except_FileNotFoundError {A} (body handler : M A) : M A :=
  fun s =>
    match body s with
    | (Raise (FileNotFoundError _), s') => handler s'
    | r => r
    end.

Definition lift {A} (r : result A) : M A := fun s => (r, s).

(** [print(line)] *)
Definition print (line : string) : M unit :=
  fun s => (Ok tt, mkState (entries s) (stdin s) (stdout s ++ [line]) (files s) (calls s)).

(** [input(prompt)] *)
Definition input (prompt : string) : M string :=
  fun s =>
    let out := stdout s ++ [prompt] in
    match stdin s with
    | [] => (Raise EOFError, mkState (entries s) [] out (files s) (calls s))
    | line :: rest => (Ok line, mkState (entries s) rest out (files s) (calls s))
    end.

(** [self.entries.append(e)] *)
Definition append_entry (e : entry) : M unit :=
  fun s => (Ok tt, mkState (entries s ++ [e]) (stdin s) (stdout s) (files s) (calls s)).

(** [self.entries = l] *)
Definition set_entries (l : list entry) : M unit :=
  fun s => (Ok tt, mkState l (stdin s) (stdout s) (files s) (calls s)).

(** [self.entries] *)
Definition self_entries : M (list entry) := fun s => (Ok (entries s), s).

Definition record_call (c : call) : M unit :=
  fun s => (Ok tt, mkState (entries s) (stdin s) (stdout s) (files s) (calls s ++ [c])).

(** [os.path.exists(path)] *)
Definition path_exists (path : string) : M bool :=
  fun s => (Ok (match files s path with Some _ => true | None => false end), s).

Definition write_file (path text : string) : M unit :=
  fun s => (Ok tt, mkState (entries s) (stdin s) (stdout s)
                     (fun p => if String.eqb p path then Some text else files s p)
                     (calls s)).

(** ** The class [UltrasoundDataEntry] *)

Section UltrasoundDataEntry.

Context {rt : Runtime}.
Import PyStr PyFloat Pandas.
Local Open Scope string_scope.

(** [str(v)] *)
Definition py_str (v : pyval) : string :=
  match v with
  | PNone => "None"
  | PFloat f => str_of_float f
  | PInt z => str_of_Z z
  | PStr s => s
  | PTime t => str_of_time t
  end.

(** [float(s)] for a string *)
Definition float_str (s : string) : result float :=
  match float_of_str s with
  | Some f => Ok f
  | None => Raise (ValueError ("could not convert string to float: '" ++ s ++ "'"))
  end.

(** [float(v)] *)
Definition py_float (v : pyval) : result float :=
  match v with
  | PFloat f => Ok f
  | PInt z =>
      match float_of_Z z with
      | Some f => Ok f
      | None => Raise OverflowError
      end
  | PStr s => float_str s
  | PNone | PTime _ =>
      Raise (TypeError "float() argument must be a string or a real number")
  end.

(** [pd.to_datetime(s)] *)
Definition pd_to_datetime (s : string) : result Timestamp :=
  match to_datetime s with
  | Some t => Ok t
  | None => Raise (ValueError ("Unknown datetime string format, unable to parse: " ++ s))
  end.

(** [row[k]] *)
Definition getitem (row : dict) (k : string) : result pyval :=
  match dict_get k row with
  | Some v => Ok v
  | None => Raise (KeyError k)
  end.

(** [pd.read_csv(path)] *)
Definition pd_read_csv (path : string) : M DataFrame :=
  fun s =>
    match files s path with
    | None => (Raise (FileNotFoundError path), s)
    | Some text =>
        match parse_csv text with
        | Some df => (Ok df, s)
        | None => (Raise ParserError, s)
        end
    end.

(** [df.to_csv(path, index=False)] *)
Definition df_to_csv (df : DataFrame) (path : string) : M unit :=
  write_file path (to_csv df).

(** Evaluating a name that no assignment has bound. *)
Definition unbound_name {A} (name : string) : M A := raise (NameError name).

(** Basic sanity checks - accept any positive number *)
Definition _validate_measurements (length width depth : float) : result unit :=
  if (length <=? 0)%float then
    Raise (ValueError ("Length must be positive, got " ++ str_of_float length ++ "cm"))
  else if (width <=? 0)%float then
    Raise (ValueError ("Width must be positive, got " ++ str_of_float width ++ "cm"))
  else if (depth <=? 0)%float then
    Raise (ValueError ("Depth must be positive, got " ++ str_of_float depth ++ "cm"))
  else Ok tt.

(** Ellipsoid formula: V = 4/3 * pi * (L/2) * (W/2) * (D/2), times 1000 *)
Definition _calculate_volume (length width depth : float) : float :=
  ((4/3) * np_pi * (length/2) * (width/2) * (depth/2) * 1000)%float.

(** [self._validate_measurements(length, width, depth)] *)
Definition call_validate_measurements (length width depth : float) : M unit :=
  record_call (CallValidate length width depth);;
  lift (_validate_measurements length width depth).

(** [self._calculate_volume(length, width, depth)] *)
Definition call_calculate_volume (length width depth : float) : M float :=
  record_call (CallCalculate length width depth);;
  ret (_calculate_volume length width depth).

(** The values [manual_entry] has bound when its prompts are over. *)
Record manual_locals : Type := mkLocals {
  l_patient_id : string;
  l_measurement_time : Timestamp;
  l_length : float;
  l_width : float;
  l_depth : float;
  l_voided_volume : option float;
  l_context : string;
  l_notes : string
}.

(** The first part of [manual_entry]: the banner and the eight prompts,
    down to the assignment of [notes]. *)
Definition manual_entry_prompts : M manual_locals :=
  print "=== Ultrasound Measurement Entry ===";;
  line <- input "Patient ID: ";;
  let patient_id := strip line in
  line <- input "Measurement time (YYYY-MM-DD HH:MM): ";;
  let timestamp_str := strip line in
  measurement_time <- lift (pd_to_datetime timestamp_str);;
  line <- input "Length (cm): ";;
  length <- lift (float_str line);;
  line <- input "Width (cm): ";;
  width <- lift (float_str line);;
  line <- input "Depth (cm): ";;
  depth <- lift (float_str line);;
  voided_volume <- input "Voided volume (ml, press Enter if none): ";;
  voided_volume <-
    match voided_volume with
    | EmptyString => ret None
    | _ => f <- lift (float_str voided_volume);; ret (Some f)
    end;;
  line <- input "Context (pre_void/post_void/other): ";;
  let context := strip line in
  line <- input "Notes (optional): ";;
  let notes := strip line in
  ret (mkLocals patient_id measurement_time length width depth voided_volume context notes).

(** Console-based entry for single ultrasound measurements: the prompts,
    the validation, then the dictionary literal, which reads
    [calculated_volume], a name the method never assigns. *)
Definition manual_entry : M entry :=
  v <- manual_entry_prompts;;
  call_validate_measurements (l_length v) (l_width v) (l_depth v);;
  calculated_volume <- unbound_name "calculated_volume";;
  let entry :=
    mkEntry (l_patient_id v) (l_measurement_time v) (l_length v) (l_width v) (l_depth v)
            (l_voided_volume v) (l_context v) (l_notes v) calculated_volume "manual_entry" in
  append_entry entry;;
  print ("✓ Added entry: " ++ format_1f (calculated_volume_ml entry) ++ " ml");;
  ret entry.

(** Convert a single CSV row into a standardized ultrasound entry. *)
Definition _process_csv_row (row : dict) : M entry :=
  v <- lift (getitem row "patient_id");;
  let patient_id := strip (py_str v) in
  v <- lift (getitem row "measurement_time");;
  let timestamp_str := strip (py_str v) in
  measurement_time <- lift (pd_to_datetime timestamp_str);;
  v <- lift (getitem row "length_cm");;
  length <- lift (py_float v);;
  v <- lift (getitem row "width_cm");;
  width <- lift (py_float v);;
  v <- lift (getitem row "depth_cm");;
  depth <- lift (py_float v);;
  call_validate_measurements length width depth;;
  voided_volume <-
    match dict_get "voided_volume_ml" row with
    | Some v => if notna v then f <- lift (py_float v);; ret (Some f) else ret None
    | None => ret None
    end;;
  let context :=
    match dict_get "context" row with
    | Some v => if notna v then lower (strip (py_str v)) else "unknown"
    | None => "unknown"
    end in
  let notes :=
    match dict_get "notes" row with
    | Some v => if notna v then strip (py_str v) else ""
    | None => ""
    end in
  calculated_volume <- call_calculate_volume length width depth;;
  ret (mkEntry patient_id measurement_time length width depth voided_volume
               context notes calculated_volume "csv_import").

(** The body of [for idx, row in df.iterrows()] in [auto_entry]. *)
Fixpoint import_rows (rs : list (nat * dict)) : M unit :=
  match rs with
  | [] => ret tt
  | (idx, row) :: rest =>
      entry <- _process_csv_row row;;
      append_entry entry;;
      print ("  ✓ Added entry " ++ str_of_nat (idx + 1) ++ ": "
             ++ format_1f (calculated_volume_ml entry) ++ " ml");;
      import_rows rest
  end.

(** Import ultrasound measurements from a CSV file. *)
Definition auto_entry (csv_filepath : string) : M (list entry) :=
  try_except_FileNotFoundError
    (df <- pd_read_csv csv_filepath;;
     print ("📁 Loaded " ++ str_of_nat (len df) ++ " entries from " ++ csv_filepath);;
     import_rows (iterrows df);;
     print ("✅ Successfully added " ++ str_of_nat (len df) ++ " entries from CSV");;
     self_entries)
    (print ("❌ File not found: " ++ csv_filepath);;
     ret []).

(** Append to growing CSV file *)
Definition save_to_csv (filename : string) : M unit :=
  es <- self_entries;;
  let df := DataFrame_of (map to_dict es) in
  found <- path_exists filename;;
  df <- (if found : bool then
           existing <- pd_read_csv filename;;
           ret (concat existing df)
         else ret df);;
  df_to_csv df filename;;
  print ("Saved " ++ str_of_nat (len df) ++ " entries to " ++ filename).

Definition default_filename : string := "ultrasound_measurements.csv".

(** Get all current entries as a pandas DataFrame. *)
Definition get_entries : M DataFrame :=
  es <- self_entries;;
  ret (DataFrame_of (map to_dict es)).

(** Clear all stored entries from memory. *)
Definition clear_entries : M unit :=
  set_entries [];;
  print "Cleared all entries from memory".

End UltrasoundDataEntry.

(** ** A small runtime, to run the methods on closed inputs

    It covers what the examples below use: [float] on plain decimal
    literals, fixed-point rendering of floats, the timestamp format the
    prompt asks for, and comma-separated text without quoting. *)

Module SampleRuntime.

Import PyStr PyFloat Pandas.
Local Open Scope Z_scope.

Definition digit_of (c : ascii) : option Z :=
  let n := nat_of_ascii c in
  if ((48 <=? n) && (n <=? 57))%nat then Some (Z.of_nat (n - 48)) else None.

(** Reads a run of digits: its value after [acc], its length, the rest. *)
Fixpoint read_digits (s : string) (acc : Z) (count : nat) : Z * nat * string :=
  match s with
  | EmptyString => (acc, count, s)
  | String c s' =>
      match digit_of c with
      | Some d => read_digits s' (10 * acc + d) (S count)
      | None => (acc, count, s)
      end
  end.

(** The binary64 number nearest to [n / 10^k], by the correctly rounded
    division of the two integers. *)
Definition float_of_ratio (n : Z) (k : nat) : float :=
  match n with
  | Zpos p => SF2Prim (SFdiv prec emax (S754_finite false p 0)
                             (S754_finite false (Pos.pow 10 (Pos.of_nat k)) 0))
  | _ => 0%float
  end.

Definition parse_unsigned (s : string) : option float :=
  let '(n, c, rest) := read_digits s 0 0%nat in
  match c, rest with
  | O, _ => None
  | _, EmptyString => Some (float_of_ratio (10 * n) 1)
  | _, String "." frac =>
      let '(m, k, rest') := read_digits frac n 0%nat in
      match rest' with
      | EmptyString => Some (float_of_ratio (10 * m) (S k))
      | _ => None
      end
  | _, _ => None
  end.

Definition parse_decimal (s : string) : option float :=
  match strip s with
  | String "-" s' => option_map PrimFloat.opp (parse_unsigned s')
  | s' => parse_unsigned s'
  end.

Fixpoint zeros (n : nat) : string :=
  match n with
  | O => EmptyString
  | S n' => String "0" (zeros n')
  end.

Definition pad_left (width : nat) (s : string) : string :=
  (zeros (width - String.length s) ++ s)%string.

(** [format(v, '.kf')] for [k >= 1]: the exact value rounded to [k]
    decimals, ties to even. *)
Definition format_fixed (k : nat) (v : float) : string :=
  match Prim2SF v with
  | S754_nan => "nan"%string
  | S754_infinity s => if s then "-inf"%string else "inf"%string
  | _ =>
      match exact_value v with
      | Some q =>
          let n := Z.abs (Qnum q) * 10 ^ Z.of_nat k in
          let d := Zpos (Qden q) in
          let q0 := n / d in
          let r := n mod d in
          let t := if (d <? 2 * r) || ((d =? 2 * r) && Z.odd q0) then q0 + 1 else q0 in
          let sign := if PrimFloat.get_sign v then "-"%string else EmptyString in
          (sign ++ str_of_Z (t / 10 ^ Z.of_nat k) ++ "."
                ++ pad_left k (str_of_Z (t mod 10 ^ Z.of_nat k)))%string
      | None => EmptyString
      end
  end.

(** The shortest fixed-point rendering that reads back as the same
    float, as [repr] gives for the magnitudes used here. *)
Fixpoint shortest (fuel k : nat) (v : float) : string :=
  match fuel with
  | O => format_fixed k v
  | S fuel' =>
      let s := format_fixed k v in
      match parse_decimal s with
      | Some v' => if PrimFloat.Leibniz.eqb v v' then s else shortest fuel' (S k) v
      | None => shortest fuel' (S k) v
      end
  end.

Definition sample_str_of_float (v : float) : string :=
  if is_nan v then "nan"%string
  else if is_infinity v then format_fixed 1 v
  else shortest 24 1 v.

Definition two_digits (s : string) : option Z :=
  match s with
  | String a (String b EmptyString) =>
      match digit_of a, digit_of b with
      | Some x, Some y => Some (10 * x + y)
      | _, _ => None
      end
  | _ => None
  end.

Definition days_from_civil (y m d : Z) : Z :=
  let y' := if m <=? 2 then y - 1 else y in
  let era := y' / 400 in
  let yoe := y' - era * 400 in
  let doy := (153 * (if 2 <? m then m - 3 else m + 9) + 2) / 5 + d - 1 in
  let doe := yoe * 365 + yoe / 4 - yoe / 100 + doy in
  era * 146097 + doe - 719468.

(** [pd.to_datetime] on the empty text and on [YYYY-MM-DD HH:MM]. *)
Definition sample_to_datetime (s : string) : option Timestamp :=
  match s with
  | EmptyString => Some None
  | _ =>
      let year := substring 0 4 s in
      let '(y, c, _) := read_digits year 0 0%nat in
      match c, substring 4 1 s, two_digits (substring 5 2 s), substring 7 1 s,
            two_digits (substring 8 2 s), substring 10 1 s,
            two_digits (substring 11 2 s), substring 13 1 s,
            two_digits (substring 14 2 s), String.length s with
      | 4%nat, "-"%string, Some mo, "-"%string, Some d, " "%string,
        Some h, ":"%string, Some mi, 16%nat =>
          if (1 <=? mo) && (mo <=? 12) && (1 <=? d) && (d <=? 31)
             && (h <? 24) && (mi <? 60)
          then Some (Some (((days_from_civil y mo d * 24 + h) * 60 + mi) * 60000000000))
          else None
      | _, _, _, _, _, _, _, _, _, _ => None
      end
  end.

Definition civil_from_days (z0 : Z) : Z * Z * Z :=
  let z := z0 + 719468 in
  let era := z / 146097 in
  let doe := z - era * 146097 in
  let yoe := (doe - doe / 1460 + doe / 36524 - doe / 146096) / 365 in
  let doy := doe - (365 * yoe + yoe / 4 - yoe / 100) in
  let mp := (5 * doy + 2) / 153 in
  let d := doy - (153 * mp + 2) / 5 + 1 in
  let m := if mp <? 10 then mp + 3 else mp - 9 in
  ((if m <=? 2 then yoe + era * 400 + 1 else yoe + era * 400), m, d).

Definition sample_str_of_time (t : Timestamp) : string :=
  match t with
  | None => "NaT"%string
  | Some ns =>
      let secs := ns / 1000000000 in
      let '(y, m, d) := civil_from_days (secs / 86400) in
      let r := secs mod 86400 in
      (pad_left 4 (str_of_Z y) ++ "-" ++ pad_left 2 (str_of_Z m) ++ "-"
         ++ pad_left 2 (str_of_Z d) ++ " " ++ pad_left 2 (str_of_Z (r / 3600)) ++ ":"
         ++ pad_left 2 (str_of_Z (r mod 3600 / 60)) ++ ":"
         ++ pad_left 2 (str_of_Z (r mod 60)))%string
  end.

Fixpoint join (sep : string) (l : list string) : string :=
  match l with
  | [] => EmptyString
  | [x] => x
  | x :: l' => (x ++ sep ++ join sep l')%string
  end.

(** Splits at every [sep]: the fields before the last one and the last. *)
Fixpoint split_at (sep : ascii) (s : string) : list string * string :=
  match s with
  | EmptyString => ([], EmptyString)
  | String c s' =>
      let '(fields, last) := split_at sep s' in
      if Ascii.eqb c sep then
        match fields with
        | [] => ([EmptyString], last)
        | f :: fs => (EmptyString :: f :: fs, last)
        end
      else
        match fields with
        | [] => ([], String c last)
        | f :: fs => (String c f :: fs, last)
        end
  end.

Definition split (sep : ascii) (s : string) : list string :=
  let '(fields, last) := split_at sep s in fields ++ [last].

Definition newline : ascii := ascii_of_nat 10.

Definition cell_text (v : pyval) : string :=
  match v with
  | PNone => EmptyString
  | PFloat f => if is_nan f then EmptyString else sample_str_of_float f
  | PInt z => str_of_Z z
  | PStr s => s
  | PTime t => sample_str_of_time t
  end.

Definition sample_to_csv (df : DataFrame) : string :=
  (join (String newline EmptyString)
        (join "," (columns df) :: map (fun r => join "," (map cell_text r)) (rows df))
     ++ String newline EmptyString)%string.

Definition all_digits (s : string) : bool :=
  let '(_, c, rest) := read_digits s 0 0%nat in
  negb (c =? 0)%nat && (String.length rest =? 0)%nat.

Definition read_cell (s : string) : pyval :=
  match s with
  | EmptyString => NaN
  | _ =>
      if all_digits s then PInt (fst (fst (read_digits s 0 0%nat)))
      else match parse_decimal s with
           | Some f => PFloat f
           | None => PStr s
           end
  end.

(** Reads comma-separated text; text without a header line is not a table. *)
Definition sample_parse_csv (text : string) : option DataFrame :=
  match filter (fun l => negb (String.length l =? 0)%nat) (split newline text) with
  | [] => None
  | header :: lines =>
      Some (mkDataFrame (split "," header)
                        (typed_rows (map (fun l => map read_cell (split "," l)) lines)))
  end.

#[export] Instance sample_runtime : Runtime := {
  float_of_str := parse_decimal;
  str_of_float := sample_str_of_float;
  format_1f := format_fixed 1;
  to_datetime := sample_to_datetime;
  str_of_time := sample_str_of_time;
  to_csv := sample_to_csv;
  parse_csv := sample_parse_csv
}.

End SampleRuntime.


(** ** Vocabulary of the statements *)

(** At least one of the three dimensions is zero or negative. *)
Definition non_positive (length width depth : float) : Prop :=
  (length <=? 0)%float = true \/ (width <=? 0)%float = true \/ (depth <=? 0)%float = true.

Definition is_calculate (c : call) : bool :=
  match c with
  | CallCalculate _ _ _ => true
  | CallValidate _ _ _ => false
  end.

(** The calls of the volume estimator among the recorded calls. *)
Definition estimator_calls (cs : list call) : list call := filter is_calculate cs.


(** The cell of an optional column: none when the column is absent or
    its cell is blank. *)
Definition optional_cell (row : dict) (k : string) : option pyval :=
  match dict_get k row with
  | Some v => if Pandas.notna v then Some v else None
  | None => None
  end.

(** A column is absent from the row, or its cell holds no value. *)
Definition absent_or_blank (row : dict) (k : string) : Prop :=
  contains row k = false \/ exists v, dict_get k row = Some v /\ Pandas.notna v = false.


(** The cells of an entry, in the order of its keys. *)
Definition entry_values (e : entry) : list pyval := map snd (to_dict e).

(** The table [pd.DataFrame(self.entries)] of a store. *)
Definition table_of (es : list entry) : Pandas.DataFrame :=
  Pandas.DataFrame_of (map to_dict es).

(** A row of an existing table after [k] columns were added on its right:
    its own cells, then [k] missing values. *)
Definition padded (k : nat) (r : list pyval) : list pyval := r ++ repeat Pandas.NaN k.

(** An integer cell. *)
Definition is_integer (v : pyval) : bool :=
  match v with
  | PInt _ => true
  | _ => false
  end.

(** No cell of the rows is an integer. *)
Definition no_integer_cell (rs : list (list pyval)) : bool :=
  forallb (forallb (fun v => negb (is_integer v))) rs.


(** The file system [fs] once [text] is written at [path]. *)
Definition written (fs : string -> option string) (path text : string)
  : string -> option string :=
  fun p => if String.eqb p path then Some text else fs p.

(** The state [s] after the helper calls [cs]. *)
Definition add_calls (s : state) (cs : list call) : state :=
  mkState (entries s) (stdin s) (stdout s) (files s) (calls s ++ cs).

(** A computation that neither reads nor writes the state, but for the
    helper calls it records. *)
Definition oblivious {A} (m : M A) : Prop :=
  exists (r : result A) (cs : list call), forall s, m s = (r, add_calls s cs).

(** A computation that leaves the store, the call record and the files
    alone (it may use the console). *)
Definition console_only {A} (m : M A) : Prop :=
  forall s r s', m s = (r, s') ->
    entries s' = entries s /\ calls s' = calls s /\ files s' = files s.

Definition is_file_not_found (e : exn) : bool :=
  match e with
  | FileNotFoundError _ => true
  | _ => false
  end.

(** A computation that never raises [FileNotFoundError]. *)
Definition no_file_not_found {A} (m : M A) : Prop :=
  forall s e s', m s = (Raise e, s') -> is_file_not_found e = false.

(** A fresh instance ([__init__] sets [self.entries] to the empty list),
    with nothing to read, nothing printed and no file. *)
Definition blank_state : state := mkState [] [] [] (fun _ => None) [].

(** The columns a batch row must have, and the columns
    [_process_csv_row] reads. *)
Definition required_columns : list string :=
  ["patient_id"; "measurement_time"; "length_cm"; "width_cm"; "depth_cm"]%string.

Definition recognised_columns : list string :=
  ["patient_id"; "measurement_time"; "length_cm"; "width_cm"; "depth_cm";
   "voided_volume_ml"; "context"; "notes"]%string.

(** A dimension the validator lets through: above zero, or NaN. *)
Definition positive_or_nan (x : float) : Prop := (0 <? x)%float = true \/ is_nan x = true.

(** The helper calls made for one normalized row. *)
Definition row_calls (e : entry) : list call :=
  [CallValidate (length_cm e) (width_cm e) (depth_cm e);
   CallCalculate (length_cm e) (width_cm e) (depth_cm e)].

(** The banner and the eight prompts of [manual_entry]. *)
Definition manual_entry_questions : list string :=
  ["=== Ultrasound Measurement Entry ===";
   "Patient ID: ";
   "Measurement time (YYYY-MM-DD HH:MM): ";
   "Length (cm): ";
   "Width (cm): ";
   "Depth (cm): ";
   "Voided volume (ml, press Enter if none): ";
   "Context (pre_void/post_void/other): ";
   "Notes (optional): "]%string.

Section Vocabulary.

Context {rt : Runtime}.

(** The outcome of the batch normalizer on a row: the entry it builds or
    the exception it raises. *)
Definition normalize (row : dict) : result entry :=
  fst (_process_csv_row row blank_state).

(** The rows [rs] are all normalized, into the entries [es] in order. *)
Definition normalized (rs : list (nat * dict)) (es : list entry) : Prop :=
  Forall2 (fun ir e => normalize (snd ir) = Ok e) rs es.

(** The volume field of an entry is the estimator's value on the entry's
    own three dimensions. *)
Definition volume_derived (e : entry) : Prop :=
  calculated_volume_ml e = _calculate_volume (length_cm e) (width_cm e) (depth_cm e).

(** The claim on clearing, as the specification words it: after [clear]
    the listing of a store that held entries is a table without rows that
    still has the ten field names as header. *)
Definition cleared_listing_keeps_header : Prop :=
  forall s : state, entries s <> [] ->
    exists df s',
      (clear_entries;; get_entries)%py s = (Ok df, s')
      /\ Pandas.rows df = [] /\ Pandas.columns df = field_names.



(** The claim on the estimator's growth, as the specification words it:
    with the other two dimensions fixed and positive, a larger length
    (width, depth) gives a strictly larger volume. *)
Definition strictly_increasing_in_length : Prop :=
  forall length width depth x : float,
    (0 <? length)%float = true -> (0 <? width)%float = true -> (0 <? depth)%float = true ->
    (length <? x)%float = true ->
    (_calculate_volume length width depth <? _calculate_volume x width depth)%float = true.

Definition strictly_increasing_in_width : Prop :=
  forall length width depth x : float,
    (0 <? length)%float = true -> (0 <? width)%float = true -> (0 <? depth)%float = true ->
    (width <? x)%float = true ->
    (_calculate_volume length width depth <? _calculate_volume length x depth)%float = true.

Definition strictly_increasing_in_depth : Prop :=
  forall length width depth x : float,
    (0 <? length)%float = true -> (0 <? width)%float = true -> (0 <? depth)%float = true ->
    (depth <? x)%float = true ->
    (_calculate_volume length width depth <? _calculate_volume length width x)%float = true.

Local Open Scope string_scope.

(** What [_process_csv_row] needs of a row to return an entry. *)
Definition acceptable (row : dict) : Prop :=
  exists vp vt vl vw vd t l w d,
    dict_get "patient_id" row = Some vp
    /\ dict_get "measurement_time" row = Some vt
    /\ to_datetime (PyStr.strip (py_str vt)) = Some t
    /\ dict_get "length_cm" row = Some vl /\ py_float vl = Ok l
    /\ dict_get "width_cm" row = Some vw /\ py_float vw = Ok w
    /\ dict_get "depth_cm" row = Some vd /\ py_float vd = Ok d
    /\ positive_or_nan l /\ positive_or_nan w /\ positive_or_nan d
    /\ (forall v, optional_cell row "voided_volume_ml" = Some v ->
          exists f, py_float v = Ok f).

(** The lines [auto_entry] prints on a file it could read. *)
Definition loaded_line (n : nat) (csv_filepath : string) : string :=
  "📁 Loaded " ++ PyStr.str_of_nat n ++ " entries from " ++ csv_filepath.

Definition progress_line (idx : nat) (e : entry) : string :=
  "  ✓ Added entry " ++ PyStr.str_of_nat (idx + 1) ++ ": "
  ++ format_1f (calculated_volume_ml e) ++ " ml".

Definition summary_line (n : nat) : string :=
  "✅ Successfully added " ++ PyStr.str_of_nat n ++ " entries from CSV".

End Vocabulary.


(** ** Sample inputs *)

Module Samples.

Import SampleRuntime.
Local Open Scope string_scope.

(** A console session: nothing stored, no file, the operator's lines. *)
Definition console (lines : list string) : state :=
  mkState [] lines [] (fun _ => None) [].

(** The answers to the eight prompts of [manual_entry]. *)
Definition typed_lines : list string :=
  ["P001 "; "2024-01-15 10:30"; "4.0"; "3.0"; "5.0"; ""; " Pre_Void "; ""].

(** 2024-01-15 10:30, in nanoseconds since the epoch. *)
Definition sample_time : Timestamp := Some 1705314600000000000%Z.

(** A batch row with the five required columns only. *)
Definition bare_row : dict :=
  [("patient_id", PStr " P001 ");
   ("measurement_time", PStr "2024-01-15 10:30");
   ("length_cm", PFloat 4);
   ("width_cm", PFloat 3);
   ("depth_cm", PFloat 5)].

Definition bare_entry : entry :=
  mkEntry "P001" sample_time 4 3 5 None "unknown" "" (_calculate_volume 4 3 5) "csv_import".

(** A batch row with every column, a blank [notes] cell among them. *)
Definition full_row : dict :=
  [("patient_id", PStr " P002 ");
   ("measurement_time", PStr "2024-01-15 10:30");
   ("length_cm", PFloat 2);
   ("width_cm", PInt 2);
   ("depth_cm", PStr "2.0");
   ("voided_volume_ml", PFloat 120.5);
   ("context", PStr " Pre_Void ");
   ("notes", Pandas.NaN)].

Definition full_entry : entry :=
  mkEntry "P002" sample_time 2 2 2 (Some 120.5%float) "pre_void" ""
          (_calculate_volume 2 2 2) "csv_import".

(** A batch row with a negative width. *)
Definition bad_row : dict :=
  [("patient_id", PStr "P003");
   ("measurement_time", PStr "2024-01-15 10:30");
   ("length_cm", PFloat 4);
   ("width_cm", PFloat (-3));
   ("depth_cm", PFloat 5)].

Definition line_feed : string := String newline EmptyString.

(** A batch file of three rows, the second with a negative width. *)
Definition batch_text : string :=
  "patient_id,measurement_time,length_cm,width_cm,depth_cm" ++ line_feed
  ++ "P001,2024-01-15 10:30,4.0,3.0,5.0" ++ line_feed
  ++ "P003,2024-01-15 10:30,4.0,-3.0,5.0" ++ line_feed
  ++ "P004,2024-01-15 10:30,2.0,2.0,2.0" ++ line_feed.

(** A batch file of two rows that both pass. *)
Definition good_text : string :=
  "patient_id,measurement_time,length_cm,width_cm,depth_cm,context" ++ line_feed
  ++ "P001,2024-01-15 10:30,4.0,3.0,5.0," ++ line_feed
  ++ "P002,2024-01-15 10:30,2.0,2.0,2.0, Pre_Void" ++ line_feed.

Definition good_entries : list entry :=
  [mkEntry "P001" sample_time 4 3 5 None "unknown" "" (_calculate_volume 4 3 5) "csv_import";
   mkEntry "P002" sample_time 2 2 2 None "pre_void" "" (_calculate_volume 2 2 2) "csv_import"].

(** A destination written by an earlier flush of [bare_entry]. *)
Definition saved_text : string := sample_to_csv (table_of [bare_entry]).

Definition disk (path : string) : option string :=
  if String.eqb path "batch.csv" then Some batch_text
  else if String.eqb path "good.csv" then Some good_text
  else if String.eqb path "saved.csv" then Some saved_text
  else None.

(** A session with one stored entry and the three files above. *)
Definition session : state := mkState [full_entry] [] [] disk [].

(** A batch row whose length cell is blank. *)
Definition blank_length_row : dict :=
  [("patient_id", PStr "P005");
   ("measurement_time", PStr "2024-01-15 10:30");
   ("length_cm", Pandas.NaN);
   ("width_cm", PFloat 3);
   ("depth_cm", PFloat 5)].

(** The columns of [bare_row] in another order, with a column the
    normalizer does not know. *)
Definition shuffled_row : dict :=
  [("operator", PStr "night shift");
   ("depth_cm", PFloat 5);
   ("width_cm", PFloat 3);
   ("length_cm", PFloat 4);
   ("measurement_time", PStr "2024-01-15 10:30");
   ("patient_id", PStr " P001 ")].

(** The table read back from [saved_text]. *)
Definition saved_table : Pandas.DataFrame :=
  Pandas.mkDataFrame field_names
    [[PStr "P001"; PStr "2024-01-15 10:30:00"; PFloat 4; PFloat 3; PFloat 5; Pandas.NaN;
      PStr "unknown"; Pandas.NaN; PFloat (_calculate_volume 4 3 5); PStr "csv_import"]].

(** A batch row without its depth. *)
Definition short_row : dict :=
  [("patient_id", PStr "P006");
   ("measurement_time", PStr "2024-01-15 10:30");
   ("length_cm", PFloat 4);
   ("width_cm", PFloat 3)].

(** The session after [clear_entries]: the files, and an empty store. *)
Definition cleared_session : state := mkState [] [] [] disk [].





(** A batch row whose voided-volume cell is text that is no number. *)
Definition unmeasured_row : dict :=
  [("patient_id", PStr "P007");
   ("measurement_time", PStr "2024-01-15 10:30");
   ("length_cm", PFloat 4);
   ("width_cm", PFloat 3);
   ("depth_cm", PFloat 5);
   ("voided_volume_ml", PStr "n/a")].

(** A batch file with a header line and no row, and a session that has it. *)
Definition header_text : string :=
  "patient_id,measurement_time,length_cm,width_cm,depth_cm" ++ line_feed.

Definition header_session : state :=
  mkState [full_entry] [] []
          (fun path => if String.eqb path "header.csv" then Some header_text else None) [].

End Samples.


(** * Properties *)

(** ** Comparisons of binary64 numbers with zero *)

Module FloatFacts.

Import PyFloat.
Local Open Scope float_scope.

Lemma Prim2SF_zero : Prim2SF 0 = S754_zero false.
Proof. reflexivity. Qed.

(** A number above zero is not below or equal to it. *)
Lemma positive_not_leb_zero (x : float) : (0 <? x) = true -> (x <=? 0) = false.
Proof.
  rewrite ltb_spec, leb_spec, Prim2SF_zero.
  unfold SFltb, SFleb.
  destruct (Prim2SF x) as [s | s | | s m e]; simpl; try discriminate.
  - destruct s; [discriminate | reflexivity].
  - destruct s; [discriminate | reflexivity].
Qed.

(** A number that is not a NaN is above zero, or below or equal to it. *)
Lemma leb_zero_or_positive (x : float) :
  is_nan x = false -> (x <=? 0) = true \/ (0 <? x) = true.
Proof.
  unfold is_nan. rewrite eqb_spec, ltb_spec, leb_spec, Prim2SF_zero.
  unfold SFeqb, SFltb, SFleb.
  destruct (Prim2SF x) as [s | s | | s m e]; simpl; intros H.
  - left; reflexivity.
  - destruct s; [left | right]; reflexivity.
  - discriminate.
  - destruct s; [left | right]; reflexivity.
Qed.

End FloatFacts.

(** ** The volume estimator *)

Section Estimator.

Context {rt : Runtime}.
Import PyFloat.
Local Open Scope float_scope.

(** C1.  The estimator returns (4/3) * pi * (length/2) * (width/2) *
    (depth/2) * 1000, evaluated from left to right in binary64 with pi the
    binary64 number nearest to it (it lies between 3.14159265358979 and
    3.14159265358980).  On (2,2,2) the result is (4/3) * pi * 1000, whose
    exact value rounds to 4188.79; on (4.0,3.0,5.0) it is
    (4/3) * pi * 2 * 1.5 * 2.5 * 1000, whose exact value rounds to
    31415.93. *)
Theorem calculate_volume_formula :
  (forall length width depth : float,
      _calculate_volume length width depth
      = (4 / 3) * np_pi * (length / 2) * (width / 2) * (depth / 2) * 1000)
  /\ within 3.14159265358979 3.14159265358980 np_pi = true
  /\ _calculate_volume 2 2 2 = (4 / 3) * np_pi * 1 * 1 * 1 * 1000
  /\ _calculate_volume 2 2 2 = (4 / 3) * np_pi * 1000
  /\ within 4188.785 4188.795 (_calculate_volume 2 2 2) = true
  /\ _calculate_volume 4 3 5 = (4 / 3) * np_pi * 2 * 1.5 * 2.5 * 1000
  /\ within 31415.925 31415.935 (_calculate_volume 4 3 5) = true.
Proof.
  split.
  - intros length width depth. unfold _calculate_volume. reflexivity.
  - repeat split; vm_compute; reflexivity.
Qed.

End Estimator.

(** ** Rounding to nearest in binary64 *)

Module Binary64Facts.

Import Binary64.
Local Open Scope Z_scope.

Lemma pow2_pos (k : Z) : 0 <= k -> 0 < 2 ^ k.
Proof. intros Hk. apply Z.pow_pos_nonneg; lia. Qed.

Lemma rne_cases (m k : Z) :
  0 <= k ->
  exists q r,
    m = 2 ^ k * q + r /\ 0 <= r < 2 ^ k
    /\ (rne m k = q \/ rne m k = q + 1)
    /\ (2 * r < 2 ^ k -> rne m k = q)
    /\ (2 ^ k < 2 * r -> rne m k = q + 1)
    /\ (r = 0 -> rne m k = q).
Proof.
  intros Hk. pose proof (pow2_pos k Hk) as HP.
  exists (m / 2 ^ k), (m mod 2 ^ k).
  pose proof (Z.div_mod m (2 ^ k) ltac:(lia)) as Hdm.
  pose proof (Z.mod_pos_bound m (2 ^ k) HP) as Hr.
  unfold rne.
  destruct (Z.compare_spec (2 * (m mod 2 ^ k)) (2 ^ k)) as [Heq | Hlt | Hgt].
  - repeat split; try lia; destruct (Z.even (m / 2 ^ k)); lia.
  - repeat split; lia.
  - repeat split; lia.
Qed.

Lemma rne_zero_shift (m : Z) : rne m 0 = m.
Proof.
  unfold rne. rewrite Z.pow_0_r, Z.mod_1_r, Z.div_1_r. reflexivity.
Qed.

Lemma rne_mono (m1 m2 k : Z) : 0 <= k -> m1 <= m2 -> rne m1 k <= rne m2 k.
Proof.
  intros Hk Hm. pose proof (pow2_pos k Hk) as HP.
  unfold rne.
  pose proof (Z.div_mod m1 (2 ^ k) ltac:(lia)) as Hd1.
  pose proof (Z.mod_pos_bound m1 (2 ^ k) HP) as Hr1.
  pose proof (Z.div_mod m2 (2 ^ k) ltac:(lia)) as Hd2.
  pose proof (Z.mod_pos_bound m2 (2 ^ k) HP) as Hr2.
  pose proof (Z.div_le_mono m1 m2 (2 ^ k) HP Hm) as Hq.
  set (q1 := m1 / 2 ^ k) in *. set (q2 := m2 / 2 ^ k) in *.
  set (r1 := m1 mod 2 ^ k) in *. set (r2 := m2 mod 2 ^ k) in *.
  set (P := 2 ^ k) in *.
  assert (Hcase : q1 + 1 <= q2 \/ (q1 = q2 /\ r1 <= r2)) by nia.
  destruct (Z.compare_spec (2 * r1) P); destruct (Z.compare_spec (2 * r2) P);
    destruct (Z.even q1) eqn:E1; destruct (Z.even q2) eqn:E2;
    destruct Hcase as [Hc | [Hc Hc']]; try lia;
    try (subst q2; congruence).
Qed.

Lemma rne_scale (m k j : Z) : 0 <= k -> 0 <= j -> rne (m * 2 ^ j) (k + j) = rne m k.
Proof.
  intros Hk Hj. pose proof (pow2_pos k Hk) as HP. pose proof (pow2_pos j Hj) as HJ.
  unfold rne. rewrite Z.pow_add_r by lia.
  rewrite (Z.mul_comm (2 ^ k) (2 ^ j)).
  rewrite (Z.mul_comm m (2 ^ j)).
  rewrite Z.div_mul_cancel_l by lia.
  rewrite Zmult_mod_distr_l.
  replace (2 * (2 ^ j * (m mod 2 ^ k))) with (2 ^ j * (2 * (m mod 2 ^ k))) by ring.
  rewrite <- Zmult_compare_compat_l by lia.
  reflexivity.
Qed.

Lemma rne_upper (m k b : Z) : 0 <= k -> m <= b * 2 ^ k -> rne m k <= b.
Proof.
  intros Hk Hm. pose proof (pow2_pos k Hk) as HP.
  destruct (rne_cases m k Hk) as (q & r & Hqr & Hr & Hc & Hlt & Hgt & H0).
  assert (q < b \/ (q = b /\ r = 0)) as [Hq | [Hq Hr0]] by nia.
  - lia.
  - rewrite (H0 Hr0). lia.
Qed.

Lemma rne_lower (m k b : Z) : 0 <= k -> b * 2 ^ k <= m -> b <= rne m k.
Proof.
  intros Hk Hm. pose proof (pow2_pos k Hk) as HP.
  destruct (rne_cases m k Hk) as (q & r & Hqr & Hr & Hc & _).
  assert (b <= q) by nia. lia.
Qed.

Lemma digits2_pos_size (m : positive) : digits2_pos m = Pos.size m.
Proof. induction m as [m IH | m IH | ]; simpl; [rewrite IH | rewrite IH | ]; reflexivity. Qed.

(** A positive integer of [d] binary digits lies in [[2^(d-1), 2^d)]. *)
Lemma digits_bounds (m : positive) :
  2 ^ (Zpos (digits2_pos m) - 1) <= Zpos m < 2 ^ Zpos (digits2_pos m).
Proof.
  rewrite digits2_pos_size. split.
  - pose proof (Pos.size_le m) as H.
    apply Pos2Z.pos_le_pos in H. rewrite Pos2Z.inj_pow in H.
    replace (Zpos (Pos.size m)) with (Zpos (Pos.size m) - 1 + 1) in H by lia.
    rewrite Z.pow_add_r in H by lia. rewrite Z.pow_1_r in H.
    change (Zpos m~0) with (2 * Zpos m) in H. lia.
  - pose proof (Pos.size_gt m) as H.
    apply Pos2Z.pos_lt_pos in H. rewrite Pos2Z.inj_pow in H. exact H.
Qed.

Lemma pow2_lt_mono (a b : Z) : 0 <= a -> 2 ^ a < 2 ^ b -> a < b.
Proof.
  intros Ha H. destruct (Z.lt_ge_cases a b) as [Hlt | Hge]; [exact Hlt | ].
  destruct (Z.lt_ge_cases b 0) as [Hb | Hb].
  - rewrite (Z.pow_neg_r 2 b Hb) in H. pose proof (pow2_pos a Ha). lia.
  - pose proof (Z.pow_le_mono_r 2 b a ltac:(lia) Hge). lia.
Qed.

(** The number of digits is fixed by the bounds. *)
Lemma digits_unique (m : positive) (d : Z) :
  2 ^ (d - 1) <= Zpos m < 2 ^ d -> Zpos (digits2_pos m) = d.
Proof.
  intros [Hlo Hhi]. destruct (digits_bounds m) as [Hlo' Hhi'].
  set (d' := Zpos (digits2_pos m)) in *.
  assert (Hd' : 1 <= d') by (unfold d'; lia).
  assert (Hd : 1 <= d).
  { destruct (Z.lt_ge_cases d 1) as [Hlt | Hge]; [ | exact Hge ].
    destruct (Z.lt_ge_cases d 0) as [Hneg | Hpos].
    - rewrite (Z.pow_neg_r 2 d Hneg) in Hhi. lia.
    - assert (d = 0) by lia. subst d. simpl in Hhi. lia. }
  assert (H1 : d' - 1 < d) by (apply pow2_lt_mono; lia).
  assert (H2 : d - 1 < d') by (apply pow2_lt_mono; lia).
  lia.
Qed.

Lemma digits_scale (m : positive) (j : Z) (p : positive) :
  0 <= j -> Zpos p = Zpos m * 2 ^ j ->
  Zpos (digits2_pos p) = Zpos (digits2_pos m) + j.
Proof.
  intros Hj Hp. apply digits_unique. rewrite Hp.
  destruct (digits_bounds m) as [Hlo Hhi].
  pose proof (pow2_pos j Hj) as HJ.
  replace (Zpos (digits2_pos m) + j - 1) with (Zpos (digits2_pos m) - 1 + j) by lia.
  rewrite !Z.pow_add_r by lia. split; nia.
Qed.

(** One step of the shift: halve the mantissa, keep the bit shifted out,
    and remember whether any earlier bit was set. *)
Lemma shr_1_spec (m : Z) (r s : bool) :
  0 <= m ->
  shr_1 (Build_shr_record m r s) = Build_shr_record (m / 2) (Z.odd m) (r || s).
Proof.
  intros Hm. rewrite <- Z.div2_div.
  destruct m as [ | p | p]; [reflexivity | | lia].
  destruct p; reflexivity.
Qed.

Lemma iter_pos_nat {A} (f : A -> A) (p : positive) (x : A) :
  iter_pos f p x = Nat.iter (Pos.to_nat p) f x.
Proof.
  revert x. induction p as [p IH | p IH | ]; intros x; cbn [iter_pos].
  - rewrite !IH. rewrite Pos2Nat.inj_xI.
    replace (S (2 * Pos.to_nat p)) with (Pos.to_nat p + (Pos.to_nat p + 1))%nat by lia.
    rewrite !Nat.iter_add. reflexivity.
  - rewrite !IH. rewrite Pos2Nat.inj_xO.
    replace (2 * Pos.to_nat p)%nat with (Pos.to_nat p + Pos.to_nat p)%nat by lia.
    rewrite Nat.iter_add. reflexivity.
  - reflexivity.
Qed.

(** After [k] steps the record holds the quotient by [2^k] and the place
    of the exact value between that quotient and the next integer. *)
Lemma shr_iter_spec (m : Z) (k : nat) :
  0 <= m ->
  let mrs := Nat.iter k shr_1 (Build_shr_record m false false) in
  shr_m mrs = m / 2 ^ Z.of_nat k
  /\ loc_of_shr_record mrs = loc_of m (Z.of_nat k).
Proof.
  intros Hm. induction k as [ | k IH].
  - simpl. unfold loc_of. rewrite Z.div_1_r, Z.mod_1_r. split; reflexivity.
  - cbn zeta in *. rewrite Nat.iter_succ.
    destruct (Nat.iter k shr_1 (Build_shr_record m false false)) as [q r s].
    simpl in IH. destruct IH as [Hq Hloc].
    assert (Hk : 0 <= Z.of_nat k) by lia.
    pose proof (pow2_pos _ Hk) as HP.
    assert (Hq0 : 0 <= q) by (subst q; apply Z.div_pos; lia).
    rewrite (shr_1_spec q r s Hq0). cbn [shr_m].
    rewrite Nat2Z.inj_succ, Z.pow_succ_r by lia.
    split.
    + subst q. rewrite Z.div_div by lia. f_equal. ring.
    + set (P := 2 ^ Z.of_nat k) in *.
      assert (Hmod : m mod (2 * P) = (q mod 2) * P + m mod P).
      { rewrite (Z.mul_comm 2 P). rewrite Z.rem_mul_r by lia. subst q. ring. }
      pose proof (Z.mod_pos_bound m P HP) as HR.
      assert (Hrs : (r || s) = negb (m mod P =? 0)).
      { unfold loc_of in Hloc. fold P in Hloc.
        destruct (m mod P =? 0); destruct r; destruct s; simpl in *;
          try reflexivity; try discriminate;
          destruct (2 * (m mod P) ?= P); discriminate. }
      unfold loc_of. rewrite Z.pow_succ_r by lia. fold P. rewrite Hmod, Hrs, Zmod_odd.
      destruct (Z.odd q); destruct (Z.eqb_spec (m mod P) 0) as [H0 | H0];
        cbn [negb loc_of_shr_record].
      * rewrite H0. replace (1 * P + 0) with P by ring.
        destruct (Z.eqb_spec P 0) as [HP0 | _]; [lia | ].
        rewrite Z.compare_refl. reflexivity.
      * destruct (Z.eqb_spec (1 * P + m mod P) 0) as [HP0 | _]; [lia | ].
        destruct (Z.compare_spec (2 * (1 * P + m mod P)) (2 * P)); try lia. reflexivity.
      * rewrite H0. replace (0 * P + 0) with 0 by ring. reflexivity.
      * destruct (Z.eqb_spec (0 * P + m mod P) 0) as [HP0 | _]; [lia | ].
        destruct (Z.compare_spec (2 * (0 * P + m mod P)) (2 * P)); try lia. reflexivity.
Qed.

Lemma round_loc_of (m k : Z) :
  0 <= k -> round_nearest_even (m / 2 ^ k) (loc_of m k) = rne m k.
Proof.
  intros Hk. pose proof (pow2_pos k Hk) as HP. unfold loc_of, rne.
  destruct (Z.eqb_spec (m mod 2 ^ k) 0) as [H0 | H0].
  - rewrite H0. cbn [round_nearest_even]. rewrite Z.mul_0_r.
    destruct (Z.compare_spec 0 (2 ^ k)); try lia; reflexivity.
  - cbn [round_nearest_even]. destruct (2 * (m mod 2 ^ k) ?= 2 ^ k); reflexivity.
Qed.

Lemma fexp_eq (e : Z) : fexp prec emax e = Z.max (e - 53) (-1074).
Proof. reflexivity. Qed.

Lemma shr_nonpos (mrs : shr_record) (e n : Z) : n <= 0 -> shr mrs e n = (mrs, e).
Proof. intros Hn. unfold shr. destruct n as [ | p | p]; [reflexivity | lia | reflexivity]. Qed.

Lemma digits_le_53 (p : positive) : Zpos p < 2 ^ 53 -> Zpos (digits2_pos p) <= 53.
Proof.
  intros Hp. destruct (digits_bounds p) as [Hlo _].
  assert (H : Zpos (digits2_pos p) - 1 < 53) by (apply pow2_lt_mono; lia).
  lia.
Qed.

(** The end of the rounding: a mantissa of at most 53 bits is kept, the
    mantissa [2^53] moves to the next exponent, and an exponent above the
    largest one gives infinity. *)
Lemma round_tail (s : bool) (f q : Z) :
  -1074 <= f -> 0 <= q <= 2 ^ 53 ->
  (let '(mrs, e) := shr_fexp prec emax q f loc_Exact in
   match shr_m mrs with
   | Z0 => S754_zero s
   | Zpos m => if e <=? emax - prec then S754_finite s m e else S754_infinity s
   | Zneg _ => S754_nan
   end) = decode s f q.
Proof.
  intros Hf Hq. unfold shr_fexp. rewrite fexp_eq.
  destruct q as [ | p | p]; [ | | lia].
  - cbn [Zdigits2 shr_record_of_loc]. rewrite shr_nonpos by lia. reflexivity.
  - cbn [Zdigits2 shr_record_of_loc]. unfold decode.
    destruct (Z.eqb_spec (Zpos p) (2 ^ 53)) as [Heq | Hne].
    + inversion Heq; subst p.
      assert (Hshift : Z.max (Zpos (digits2_pos 9007199254740992) + f - 53) (-1074) - f = 1)
        by (change (Zpos (digits2_pos 9007199254740992)) with 54; lia).
      rewrite Hshift.
      cbn [shr iter_pos shr_1 shr_m].
      replace (f + 1 <=? emax - prec) with (f + 1 <=? 971) by reflexivity.
      reflexivity.
    + assert (Hd : Zpos (digits2_pos p) <= 53) by (apply digits_le_53; lia).
      rewrite shr_nonpos by lia. cbn [shr_m].
      replace (f <=? emax - prec) with (f <=? 971) by reflexivity.
      reflexivity.
Qed.

(** Rounding an exact product or quotient [m * 2^e] whose exponent is not
    above the exponent [f] of its binade: the mantissa is rounded to the
    nearest integer at exponent [f], ties to even. *)
Lemma binary_round_aux_exact (s : bool) (m : positive) (e : Z) :
  let f := fexp prec emax (Zpos (digits2_pos m) + e) in
  e <= f ->
  binary_round_aux prec emax s (Zpos m) e loc_Exact = decode s f (rne (Zpos m) (f - e))
  /\ 0 <= rne (Zpos m) (f - e) <= 2 ^ 53
  /\ (-1074 < f -> 2 ^ 52 <= rne (Zpos m) (f - e)).
Proof.
  intros f Hef.
  assert (Hf : f = Z.max (Zpos (digits2_pos m) + e - 53) (-1074)) by reflexivity.
  destruct (digits_bounds m) as [Hlo Hhi].
  set (d := Zpos (digits2_pos m)) in *.
  set (n := f - e) in *.
  assert (Hn : 0 <= n) by (unfold n; lia).
  pose proof (pow2_pos n Hn) as HPn.
  assert (Hup : rne (Zpos m) n <= 2 ^ 53).
  { apply rne_upper; [exact Hn | ].
    rewrite <- Z.pow_add_r by lia.
    assert (2 ^ d <= 2 ^ (53 + n)) by (apply Z.pow_le_mono_r; unfold n; lia).
    lia. }
  assert (Hnn : 0 <= rne (Zpos m) n) by (apply rne_lower; lia).
  assert (Hlow : -1074 < f -> 2 ^ 52 <= rne (Zpos m) n).
  { intros Hfm. apply rne_lower; [exact Hn | ].
    rewrite <- Z.pow_add_r by lia.
    replace (52 + n) with (d - 1) by (unfold n; lia). exact Hlo. }
  split; [ | split; [split; assumption | exact Hlow] ].
  unfold binary_round_aux.
  assert (Hfirst : shr_fexp prec emax (Zpos m) e loc_Exact
                   = (fst (shr_fexp prec emax (Zpos m) e loc_Exact), f)
                   /\ round_nearest_even
                        (shr_m (fst (shr_fexp prec emax (Zpos m) e loc_Exact)))
                        (loc_of_shr_record (fst (shr_fexp prec emax (Zpos m) e loc_Exact)))
                      = rne (Zpos m) n).
  { unfold shr_fexp. cbn [Zdigits2 shr_record_of_loc]. fold d. fold f. fold n.
    unfold shr. destruct n as [ | pn | pn] eqn:En; [ | | lia].
    - cbn [fst shr_m loc_of_shr_record round_nearest_even].
      rewrite rne_zero_shift. split; [f_equal; lia | reflexivity].
    - cbn [fst]. rewrite iter_pos_nat.
      destruct (shr_iter_spec (Zpos m) (Pos.to_nat pn) ltac:(lia)) as [Hq Hloc].
      rewrite positive_nat_Z in Hq, Hloc.
      rewrite Hq, Hloc. split; [f_equal; lia | apply round_loc_of; lia]. }
  destruct Hfirst as [Hshr Hround].
  rewrite Hshr. cbn [fst] in *. rewrite Hround.
  apply round_tail; lia.
Qed.

Lemma ord_decode (s : bool) (f q : Z) :
  -1074 <= f -> 0 <= q <= 2 ^ 53 -> (-1074 < f -> 2 ^ 52 <= q) ->
  ord (decode s f q) = Z.min ((f + 1074) * 2 ^ 52 + q) (2047 * 2 ^ 52).
Proof.
  intros Hf Hq Hlow. unfold decode.
  destruct q as [ | p | p]; [ | | lia].
  - assert (f = -1074) by (numerals; lia). subst f. reflexivity.
  - destruct (Z.eqb_spec (Zpos p) (2 ^ 53)) as [Heq | Hne].
    + destruct (Z.leb_spec (f + 1) 971); cbn [ord]; rewrite ?Heq;
        change (Zpos (2 ^ 52)) with 4503599627370496; numerals; lia.
    + destruct (Z.leb_spec f 971); cbn [ord]; numerals; lia.
Qed.

Lemma Zdigits2_bounds (m : Z) :
  0 < m -> 2 ^ (Zdigits2 m - 1) <= m < 2 ^ Zdigits2 m.
Proof. intros Hm. destruct m as [ | p | p]; try lia. apply digits_bounds. Qed.

Lemma Zdigits2_unique (m d : Z) :
  0 < m -> 2 ^ (d - 1) <= m < 2 ^ d -> Zdigits2 m = d.
Proof. intros Hm H. destruct m as [ | p | p]; try lia. apply digits_unique. exact H. Qed.

Lemma Zdigits2_pos (m : Z) : 0 < m -> 0 < Zdigits2 m.
Proof. intros Hm. destruct m as [ | p | p]; simpl; lia. Qed.

Lemma Zdigits2_mono (m1 m2 : Z) : 0 < m1 <= m2 -> Zdigits2 m1 <= Zdigits2 m2.
Proof.
  intros [H1 H12].
  destruct (Zdigits2_bounds m1 H1) as [Hlo1 _].
  destruct (Zdigits2_bounds m2 ltac:(lia)) as [_ Hhi2].
  pose proof (Zdigits2_pos m1 H1).
  assert (Zdigits2 m1 - 1 < Zdigits2 m2) by (apply pow2_lt_mono; lia).
  lia.
Qed.

Lemma Zdigits2_scale (m j : Z) : 0 < m -> 0 <= j -> Zdigits2 (m * 2 ^ j) = Zdigits2 m + j.
Proof.
  intros Hm Hj. pose proof (pow2_pos j Hj) as HJ.
  destruct (Zdigits2_bounds m Hm) as [Hlo Hhi].
  pose proof (Zdigits2_pos m Hm) as Hd.
  apply Zdigits2_unique; [nia | ].
  replace (Zdigits2 m + j - 1) with (Zdigits2 m - 1 + j) by lia.
  rewrite !Z.pow_add_r by lia. split; nia.
Qed.

(** The rank depends on the value [m * 2^e] only. *)
Lemma nearest_rank_scale (m e j : Z) :
  0 < m -> 0 <= j -> e <= fexp prec emax (Zdigits2 m + e) ->
  nearest_rank (m * 2 ^ j) (e - j) = nearest_rank m e.
Proof.
  intros Hm Hj He. unfold nearest_rank.
  rewrite Zdigits2_scale by assumption.
  replace (Zdigits2 m + j + (e - j)) with (Zdigits2 m + e) by lia.
  set (f := fexp prec emax (Zdigits2 m + e)) in *.
  replace (f - (e - j)) with (f - e + j) by lia.
  rewrite rne_scale by lia. reflexivity.
Qed.

(** At one exponent, the rank grows with the mantissa. *)
Lemma nearest_rank_mono_same (m1 m2 e : Z) :
  0 < m1 <= m2 -> e <= fexp prec emax (Zdigits2 m1 + e) ->
  nearest_rank m1 e <= nearest_rank m2 e.
Proof.
  intros [H1 H12] He. unfold nearest_rank.
  pose proof (Zdigits2_mono m1 m2 (conj H1 H12)) as Hd.
  destruct (Zdigits2_bounds m1 H1) as [Hlo1 Hhi1].
  destruct (Zdigits2_bounds m2 ltac:(lia)) as [Hlo2 Hhi2].
  rewrite !fexp_eq in *.
  set (d1 := Zdigits2 m1) in *. set (d2 := Zdigits2 m2) in *.
  set (f1 := Z.max (d1 + e - 53) (-1074)) in *.
  set (f2 := Z.max (d2 + e - 53) (-1074)) in *.
  assert (Hf : f1 <= f2) by (unfold f1, f2; lia).
  destruct (Z.eq_dec f1 f2) as [Heq | Hne].
  - rewrite <- Heq. pose proof (rne_mono m1 m2 (f1 - e) ltac:(lia) H12). lia.
  - assert (Hf2 : f2 = d2 + e - 53) by (unfold f1, f2 in *; lia).
    assert (Hup : rne m1 (f1 - e) <= 2 ^ 53).
    { apply rne_upper; [lia | ]. rewrite <- Z.pow_add_r by lia.
      assert (2 ^ d1 <= 2 ^ (53 + (f1 - e))) by (apply Z.pow_le_mono_r; unfold f1; lia).
      lia. }
    assert (Hlow : 2 ^ 52 <= rne m2 (f2 - e)).
    { apply rne_lower; [lia | ]. rewrite <- Z.pow_add_r by lia.
      replace (52 + (f2 - e)) with (d2 - 1) by lia. exact Hlo2. }
    numerals. nia.
Qed.

(** The rank grows with the value: [m1 * 2^e1 <= m2 * 2^e2], compared at
    the smaller of the two exponents. *)
Lemma nearest_rank_mono (m1 e1 m2 e2 : Z) :
  0 < m1 -> 0 < m2 ->
  e1 <= fexp prec emax (Zdigits2 m1 + e1) ->
  e2 <= fexp prec emax (Zdigits2 m2 + e2) ->
  m1 * 2 ^ (e1 - Z.min e1 e2) <= m2 * 2 ^ (e2 - Z.min e1 e2) ->
  nearest_rank m1 e1 <= nearest_rank m2 e2.
Proof.
  intros H1 H2 He1 He2 Hle.
  set (e0 := Z.min e1 e2) in *.
  assert (Hj1 : 0 <= e1 - e0) by (unfold e0; lia).
  assert (Hj2 : 0 <= e2 - e0) by (unfold e0; lia).
  pose proof (pow2_pos _ Hj1) as HP1. pose proof (pow2_pos _ Hj2) as HP2.
  rewrite <- (nearest_rank_scale m1 e1 (e1 - e0)) by assumption.
  rewrite <- (nearest_rank_scale m2 e2 (e2 - e0)) by assumption.
  replace (e1 - (e1 - e0)) with e0 by lia.
  replace (e2 - (e2 - e0)) with e0 by lia.
  apply nearest_rank_mono_same; [split; [nia | exact Hle] | ].
  rewrite Zdigits2_scale by assumption.
  replace (Zdigits2 m1 + (e1 - e0) + e0) with (Zdigits2 m1 + e1) by lia. lia.
Qed.

(** A valid finite number has at most 53 bits, exactly 53 above the
    smallest exponent, and an exponent between -1074 and 971. *)
Lemma bounded_inv (m : positive) (e : Z) :
  bounded prec emax m e = true ->
  -1074 <= e <= 971
  /\ Zpos (digits2_pos m) <= 53
  /\ (-1074 < e -> Zpos (digits2_pos m) = 53)
  /\ e = fexp prec emax (Zpos (digits2_pos m) + e).
Proof.
  unfold bounded, canonical_mantissa. intros H.
  apply andb_true_iff in H. destruct H as [Hc He].
  apply Z.eqb_eq in Hc. apply Z.leb_le in He.
  change (emax - prec) with 971 in He.
  pose proof Hc as Hc'. rewrite fexp_eq in Hc'.
  repeat split; first [lia | symmetry; exact Hc].
Qed.

Lemma mantissa_bounds (m : positive) (e : Z) :
  bounded prec emax m e = true ->
  0 < Zpos m < 2 ^ 53 /\ (-1074 < e -> 2 ^ 52 <= Zpos m).
Proof.
  intros H. destruct (bounded_inv m e H) as (He & Hd & Hn & _).
  destruct (digits_bounds m) as [Hlo Hhi].
  split; [split; [lia | ] | ].
  - assert (2 ^ Zpos (digits2_pos m) <= 2 ^ 53) by (apply Z.pow_le_mono_r; lia). lia.
  - intros Hgt. rewrite (Hn Hgt) in Hlo. exact Hlo.
Qed.

Lemma ord_finite_range (s : bool) (m : positive) (e : Z) :
  bounded prec emax m e = true ->
  0 < ord (S754_finite s m e) < 2047 * 2 ^ 52.
Proof.
  intros H. destruct (bounded_inv m e H) as (He & _).
  destruct (mantissa_bounds m e H) as [Hm _].
  cbn [ord]. numerals. lia.
Qed.

(** On valid non-negative numbers the comparison is the comparison of
    the ranks. *)
Lemma SFcompare_ord (x y : spec_float) :
  valid_binary x = true -> valid_binary y = true ->
  nonneg x = true -> nonneg y = true ->
  SFcompare x y = Some (ord x ?= ord y).
Proof.
  intros Hvx Hvy Hx Hy.
  destruct x as [sx | sx | | sx mx ex]; try discriminate;
    destruct y as [sy | sy | | sy my ey]; try discriminate;
    simpl in Hx, Hy; apply negb_true_iff in Hx; apply negb_true_iff in Hy; subst;
    cbn [SFcompare valid_binary] in *.
  - reflexivity.
  - reflexivity.
  - pose proof (ord_finite_range false my ey Hvy) as Hr.
    cbn [ord] in *. destruct (Z.compare_spec 0 ((ey + 1074) * 2 ^ 52 + Zpos my)); try lia.
    reflexivity.
  - reflexivity.
  - reflexivity.
  - pose proof (ord_finite_range false my ey Hvy) as Hr.
    destruct (Z.compare_spec (ord (S754_infinity false)) (ord (S754_finite false my ey)));
      cbn [ord] in *; try lia. reflexivity.
  - pose proof (ord_finite_range false mx ex Hvx) as Hr.
    cbn [ord] in *. destruct (Z.compare_spec ((ex + 1074) * 2 ^ 52 + Zpos mx) 0); try lia.
    reflexivity.
  - pose proof (ord_finite_range false mx ex Hvx) as Hr.
    destruct (Z.compare_spec (ord (S754_finite false mx ex)) (ord (S754_infinity false)));
      cbn [ord] in *; try lia. reflexivity.
  - destruct (bounded_inv mx ex Hvx) as (Hex & _).
    destruct (bounded_inv my ey Hvy) as (Hey & _).
    destruct (mantissa_bounds mx ex Hvx) as [Hmx Hnx].
    destruct (mantissa_bounds my ey Hvy) as [Hmy Hny].
    cbn [ord]. f_equal.
    destruct (Z.compare_spec ex ey) as [Heq | Hlt | Hgt].
    + subst ey. rewrite Pos.compare_cont_spec. cbn [Pos.switch_Eq].
      change (mx ?= my)%positive with (Zpos mx ?= Zpos my).
      destruct (Z.compare_spec (Zpos mx) (Zpos my));
        destruct (Z.compare_spec ((ex + 1074) * 2 ^ 52 + Zpos mx) ((ex + 1074) * 2 ^ 52 + Zpos my));
        try lia; reflexivity.
    + specialize (Hny ltac:(lia)).
      destruct (Z.compare_spec ((ex + 1074) * 2 ^ 52 + Zpos mx) ((ey + 1074) * 2 ^ 52 + Zpos my));
        numerals; try lia; reflexivity.
    + specialize (Hnx ltac:(lia)).
      destruct (Z.compare_spec ((ex + 1074) * 2 ^ 52 + Zpos mx) ((ey + 1074) * 2 ^ 52 + Zpos my));
        numerals; try lia; reflexivity.
Qed.

(** For valid finite numbers the order of the ranks is the order of the
    values. *)
Lemma ord_le_value (mx my : positive) (ex ey : Z) :
  bounded prec emax mx ex = true -> bounded prec emax my ey = true ->
  ord (S754_finite false mx ex) <= ord (S754_finite false my ey) ->
  Zpos mx * 2 ^ (ex - Z.min ex ey) <= Zpos my * 2 ^ (ey - Z.min ex ey).
Proof.
  intros Hvx Hvy Hord. cbn [ord] in Hord.
  destruct (bounded_inv mx ex Hvx) as (Hex & _).
  destruct (bounded_inv my ey Hvy) as (Hey & _).
  destruct (mantissa_bounds mx ex Hvx) as [Hmx Hnx].
  destruct (mantissa_bounds my ey Hvy) as [Hmy Hny].
  destruct (Z.lt_trichotomy ex ey) as [Hlt | [Heq | Hgt]].
  - rewrite Z.min_l by lia. rewrite Z.sub_diag, Z.pow_0_r.
    specialize (Hny ltac:(lia)).
    assert (2 ^ 1 <= 2 ^ (ey - ex)) by (apply Z.pow_le_mono_r; lia).
    rewrite Z.pow_1_r in *. numerals. nia.
  - subst ey. rewrite Z.min_id, Z.sub_diag, Z.pow_0_r. lia.
  - specialize (Hnx ltac:(lia)). exfalso. numerals. nia.
Qed.

Lemma digits_mul_lower (mx mz : positive) :
  Zpos (digits2_pos mx) + Zpos (digits2_pos mz) - 1 <= Zpos (digits2_pos (mx * mz)).
Proof.
  destruct (digits_bounds mx) as [Hlx _]. destruct (digits_bounds mz) as [Hlz _].
  destruct (digits_bounds (mx * mz)) as [_ Hh].
  rewrite Pos2Z.inj_mul in Hh.
  assert (H : 2 ^ (Zpos (digits2_pos mx) - 1 + (Zpos (digits2_pos mz) - 1))
              < 2 ^ Zpos (digits2_pos (mx * mz))).
  { rewrite Z.pow_add_r by lia.
    pose proof (pow2_pos (Zpos (digits2_pos mx) - 1) ltac:(lia)).
    pose proof (pow2_pos (Zpos (digits2_pos mz) - 1) ltac:(lia)). nia. }
  apply pow2_lt_mono in H; lia.
Qed.

(** The exponent of an exact product of valid numbers is not above the
    exponent of its binade. *)
Lemma product_exponent (mx mz : positive) (ex ez : Z) :
  bounded prec emax mx ex = true -> bounded prec emax mz ez = true ->
  ex + ez <= fexp prec emax (Zpos (digits2_pos (mx * mz)) + (ex + ez)).
Proof.
  intros Hx Hz.
  destruct (bounded_inv mx ex Hx) as (Hex & Hdx & Hnx & _).
  destruct (bounded_inv mz ez Hz) as (Hez & Hdz & Hnz & _).
  pose proof (digits_mul_lower mx mz) as Hd.
  rewrite fexp_eq.
  destruct (Z.eq_dec ex (-1074)) as [Hx0 | Hx1]; destruct (Z.eq_dec ez (-1074)) as [Hz0 | Hz1].
  - lia.
  - specialize (Hnz ltac:(lia)). lia.
  - specialize (Hnx ltac:(lia)). lia.
  - specialize (Hnx ltac:(lia)). specialize (Hnz ltac:(lia)). lia.
Qed.

(** The product of two valid positive finite numbers: a non-negative
    number whose rank is the rank of the nearest number to the exact
    product, cut at infinity. *)
Lemma SFmul_finite (mx mz : positive) (ex ez : Z) :
  bounded prec emax mx ex = true -> bounded prec emax mz ez = true ->
  let r := SFmul prec emax (S754_finite false mx ex) (S754_finite false mz ez) in
  nonneg r = true
  /\ ord r = Z.min (nearest_rank (Zpos (mx * mz)) (ex + ez)) (2047 * 2 ^ 52).
Proof.
  intros Hx Hz r. unfold r, SFmul. cbn [xorb].
  pose proof (product_exponent mx mz ex ez Hx Hz) as He.
  destruct (binary_round_aux_exact false (mx * mz) (ex + ez) He) as (Hr & Hq & Hlow).
  rewrite Hr. split.
  - unfold decode.
    destruct (rne (Zpos (mx * mz))
                (fexp prec emax (Zpos (digits2_pos (mx * mz)) + (ex + ez)) - (ex + ez)))
      as [ | p | p]; [reflexivity | | lia].
    destruct (_ =? _); destruct (_ <=? _); reflexivity.
  - rewrite ord_decode; [reflexivity | rewrite fexp_eq; lia | exact Hq | exact Hlow].
Qed.

Lemma nearest_rank_nonneg (m : positive) (e : Z) :
  e <= fexp prec emax (Zpos (digits2_pos m) + e) -> 0 <= nearest_rank (Zpos m) e.
Proof.
  intros He. destruct (binary_round_aux_exact false m e He) as (_ & Hq & _).
  unfold nearest_rank. cbn [Zdigits2]. rewrite fexp_eq in *. numerals. lia.
Qed.

Lemma nonneg_inv (x : spec_float) :
  nonneg x = true ->
  x = S754_zero false \/ x = S754_infinity false
  \/ exists m e, x = S754_finite false m e.
Proof.
  destruct x as [[] | [] | | [] m e]; simpl; intros H; try discriminate; eauto.
Qed.

(** Multiplication by a non-negative number keeps the order of
    non-negative numbers, whenever both products are numbers. *)
Lemma SFmul_mono (x y z : spec_float) :
  valid_binary x = true -> valid_binary y = true -> valid_binary z = true ->
  nonneg x = true -> nonneg y = true -> nonneg z = true ->
  ord x <= ord y ->
  SFmul prec emax x z <> S754_nan -> SFmul prec emax y z <> S754_nan ->
  nonneg (SFmul prec emax x z) = true /\ nonneg (SFmul prec emax y z) = true
  /\ ord (SFmul prec emax x z) <= ord (SFmul prec emax y z).
Proof.
  intros Hvx Hvy Hvz Hx Hy Hz Hord Hnx Hny.
  destruct (nonneg_inv z Hz) as [-> | [-> | (mz & ez & ->)]];
    destruct (nonneg_inv x Hx) as [-> | [-> | (mx & ex & ->)]];
    destruct (nonneg_inv y Hy) as [-> | [-> | (my & ey & ->)]];
    cbn [valid_binary] in *;
    try (exfalso; apply Hnx; reflexivity);
    try (exfalso; apply Hny; reflexivity);
    try (pose proof (ord_finite_range false mx ex Hvx));
    try (pose proof (ord_finite_range false my ey Hvy));
    try (cbn [SFmul xorb nonneg negb ord] in *; numerals; repeat split; lia).
  - (* 0 * z <= y * z *)
    destruct (SFmul_finite my mz ey ez Hvy Hvz) as [Hn Ho].
    pose proof (nearest_rank_nonneg _ _ (product_exponent my mz ey ez Hvy Hvz)).
    split; [reflexivity | ]. split; [exact Hn | ].
    rewrite Ho. cbn [SFmul ord]. numerals. lia.
  - (* x * z <= inf * z *)
    destruct (SFmul_finite mx mz ex ez Hvx Hvz) as [Hn Ho].
    split; [exact Hn | ]. split; [reflexivity | ].
    rewrite Ho. cbn [SFmul ord xorb]. lia.
  - (* x * z <= y * z *)
    destruct (SFmul_finite mx mz ex ez Hvx Hvz) as [Hnx' Hox].
    destruct (SFmul_finite my mz ey ez Hvy Hvz) as [Hny' Hoy].
    split; [exact Hnx' | ]. split; [exact Hny' | ].
    rewrite Hox, Hoy.
    apply Z.min_le_compat_r.
    apply nearest_rank_mono; try lia.
    + apply product_exponent; assumption.
    + apply product_exponent; assumption.
    + pose proof (ord_le_value mx my ex ey Hvx Hvy Hord) as Hval.
      replace (Z.min (ex + ez) (ey + ez)) with (Z.min ex ey + ez) by lia.
      replace (ex + ez - (Z.min ex ey + ez)) with (ex - Z.min ex ey) by lia.
      replace (ey + ez - (Z.min ex ey + ez)) with (ey - Z.min ex ey) by lia.
      rewrite !Pos2Z.inj_mul.
      pose proof (pow2_pos (ex - Z.min ex ey) ltac:(lia)).
      pose proof (pow2_pos (ey - Z.min ex ey) ltac:(lia)).
      nia.
Qed.

Lemma SFmul_comm (x y : spec_float) : SFmul prec emax x y = SFmul prec emax y x.
Proof.
  destruct x as [sx | sx | | sx mx ex]; destruct y as [sy | sy | | sy my ey];
    cbn [SFmul]; rewrite ?(xorb_comm sx sy); try reflexivity.
  rewrite (Pos.mul_comm mx my), (Z.add_comm ex ey). reflexivity.
Qed.


Lemma div_eucl_div_mod (a b : Z) : Z.div_eucl a b = (a / b, a mod b).
Proof. unfold Z.div, Z.modulo. destruct (Z.div_eucl a b). reflexivity. Qed.

Lemma half_exponent (m : positive) (e : Z) :
  bounded prec emax m e = true ->
  e - 1 <= fexp prec emax (Zpos (digits2_pos m) + (e - 1)).
Proof.
  intros H. destruct (bounded_inv m e H) as (He & Hd & Hn & _).
  rewrite fexp_eq. destruct (Z.eq_dec e (-1074)); [lia | ].
  rewrite (Hn ltac:(lia)). lia.
Qed.

(** Halving a valid positive finite number: the rank of the result is
    the rank of the nearest number to the exact half. *)
Lemma SFdiv_two_finite (m : positive) (e : Z) :
  bounded prec emax m e = true ->
  let r := SFdiv prec emax (S754_finite false m e) SFtwo in
  nonneg r = true
  /\ ord r = Z.min (nearest_rank (Zpos m) (e - 1)) (2047 * 2 ^ 52).
Proof.
  intros Hb r. unfold r, SFtwo, SFdiv, SFdiv_core_binary. cbn [xorb].
  destruct (bounded_inv m e Hb) as (He & Hd & Hn & _).
  destruct (mantissa_bounds m e Hb) as [Hm Hnm].
  pose proof (half_exponent m e Hb) as Hhalf.
  change (Zdigits2 (Zpos 4503599627370496)) with 53.
  cbn [Zdigits2]. rewrite fexp_eq.
  set (d := Zpos (digits2_pos m)) in *.
  destruct (Z.eq_dec e (-1074)) as [He0 | He1].
  - (* the smallest exponent: the half is rounded at that exponent *)
    subst e.
    replace (Z.min (Z.max (d + -1074 - (53 + -51) - 53) (-1074)) (-1074 - -51)) with (-1074) by lia.
    replace (-1074 - -51 - -1074) with 51 by lia.
    rewrite Z.shiftl_mul_pow2 by lia.
    rewrite div_eucl_div_mod.
    assert (Hq : Zpos m * 2 ^ 51 / 4503599627370496 = Zpos m / 2).
    { change 4503599627370496 with (2 * 2 ^ 51).
      rewrite Z.div_mul_cancel_r by lia. reflexivity. }
    assert (Hr : (Zpos m * 2 ^ 51) mod 4503599627370496 = (Zpos m mod 2) * 2 ^ 51).
    { change 4503599627370496 with (2 * 2 ^ 51).
      rewrite Zmult_mod_distr_r. reflexivity. }
    rewrite Hq, Hr.
    assert (Hloc : new_location 4503599627370496 (Zpos m mod 2 * 2 ^ 51)
                   = if Z.even (Zpos m) then loc_Exact else loc_Inexact Eq).
    { unfold new_location. change (Z.even 4503599627370496) with true. cbn iota.
      unfold new_location_even. rewrite Zmod_even.
      destruct (Z.even (Zpos m)); reflexivity. }
    rewrite Hloc.
    assert (Hhalfpos : 0 <= Zpos m / 2) by (apply Z.div_pos; lia).
    assert (Hhalfup : Zpos m / 2 < 2 ^ 53)
      by (apply Z.div_lt_upper_bound; numerals; lia).
    assert (Hdig : Zdigits2 (Zpos m / 2) <= 53).
    { destruct (Zpos m / 2) as [ | p | p] eqn:Ep; simpl; try lia.
      apply digits_le_53. lia. }
    assert (Hdig0 : 0 <= Zdigits2 (Zpos m / 2)).
    { destruct (Zpos m / 2) as [ | p | p]; simpl; lia. }
    assert (Hround : round_nearest_even (Zpos m / 2)
                       (if Z.even (Zpos m) then loc_Exact else loc_Inexact Eq)
                     = rne (Zpos m) 1).
    { unfold rne. rewrite Z.pow_1_r, Zmod_even.
      destruct (Z.even (Zpos m)); reflexivity. }
    assert (Hup : 0 <= rne (Zpos m) 1 <= 2 ^ 53).
    { split; [apply rne_lower; lia | ].
      apply rne_upper; [lia | ]. rewrite Z.pow_1_r. numerals. lia. }
    unfold binary_round_aux.
    assert (Hfirst : shr_fexp prec emax (Zpos m / 2) (-1074)
                       (if Z.even (Zpos m) then loc_Exact else loc_Inexact Eq)
                     = (shr_record_of_loc (Zpos m / 2)
                          (if Z.even (Zpos m) then loc_Exact else loc_Inexact Eq), -1074)).
    { unfold shr_fexp. rewrite fexp_eq. apply shr_nonpos. lia. }
    rewrite Hfirst.
    assert (Hback : round_nearest_even
                      (shr_m (shr_record_of_loc (Zpos m / 2)
                                (if Z.even (Zpos m) then loc_Exact else loc_Inexact Eq)))
                      (loc_of_shr_record
                         (shr_record_of_loc (Zpos m / 2)
                            (if Z.even (Zpos m) then loc_Exact else loc_Inexact Eq)))
                    = rne (Zpos m) 1).
    { rewrite <- Hround. destruct (Z.even (Zpos m)); reflexivity. }
    rewrite Hback.
    rewrite (round_tail false (-1074) (rne (Zpos m) 1)) by lia.
    split.
    + unfold decode. destruct (rne (Zpos m) 1) as [ | p | p]; [reflexivity | | lia].
      destruct (_ =? _); destruct (_ <=? _); reflexivity.
    + rewrite ord_decode by lia.
      unfold nearest_rank. cbn [Zdigits2]. fold d. rewrite fexp_eq.
      replace (Z.max (d + (-1074 - 1) - 53) (-1074)) with (-1074) by lia.
      replace (-1074 - (-1074 - 1)) with 1 by lia. reflexivity.
  - (* above the smallest exponent: the half is exact *)
    assert (Hd53 : d = 53) by (apply Hn; lia).
    replace (Z.min (Z.max (d + e - (53 + -51) - 53) (-1074)) (e - -51))
      with (Z.max (e - 2) (-1074)) by lia.
    set (e' := Z.max (e - 2) (-1074)).
    set (s := e - -51 - e').
    assert (Hs : s = 52 \/ s = 53) by (unfold s, e'; lia).
    assert (Hshift : match s with
                     | 0 => Zpos m
                     | Zpos _ => Z.shiftl (Zpos m) s
                     | Zneg _ => 0
                     end = Zpos m * 2 ^ (s - 52) * 4503599627370496).
    { destruct Hs as [-> | ->]; rewrite Z.shiftl_mul_pow2 by lia;
        [ change (2 ^ (52 - 52)) with 1 | change (2 ^ (53 - 52)) with 2 ];
        numerals; lia. }
    rewrite Hshift, div_eucl_div_mod.
    rewrite Z.div_mul, Z.mod_mul by lia.
    change (new_location 4503599627370496 0) with loc_Exact.
    assert (Hj : 0 <= s - 52) by lia.
    pose proof (pow2_pos _ Hj) as HPj.
    destruct (Zpos m * 2 ^ (s - 52)) as [ | p | p] eqn:Ep; try lia.
    assert (Hdp : Zpos (digits2_pos p) = 53 + (s - 52)).
    { rewrite <- Hd53. apply (digits_scale m (s - 52) p); [lia | symmetry; exact Ep]. }
    assert (Hep : e' <= fexp prec emax (Zpos (digits2_pos p) + e')).
    { rewrite Hdp, fexp_eq. unfold s, e' in *. lia. }
    destruct (binary_round_aux_exact false p e' Hep) as (Hr & Hq & Hlow).
    rewrite Hr. split.
    + unfold decode.
      destruct (rne (Zpos p) (fexp prec emax (Zpos (digits2_pos p) + e') - e'))
        as [ | p' | p']; [reflexivity | | lia].
      destruct (_ =? _); destruct (_ <=? _); reflexivity.
    + rewrite ord_decode; [ | rewrite fexp_eq; lia | exact Hq | exact Hlow].
      f_equal.
      change ((fexp prec emax (Zpos (digits2_pos p) + e') + 1074) * 2 ^ 52
              + rne (Zpos p) (fexp prec emax (Zpos (digits2_pos p) + e') - e'))
        with (nearest_rank (Zpos p) e').
      rewrite <- Ep.
      replace e' with (e - 1 - (s - 52)) at 1 by (unfold s; lia).
      apply nearest_rank_scale; [lia | lia | ].
      cbn [Zdigits2]. exact Hhalf.
Qed.

(** Halving keeps the order of non-negative numbers. *)
Lemma SFdiv_two_mono (x y : spec_float) :
  valid_binary x = true -> valid_binary y = true ->
  nonneg x = true -> nonneg y = true ->
  ord x <= ord y ->
  nonneg (SFdiv prec emax x SFtwo) = true /\ nonneg (SFdiv prec emax y SFtwo) = true
  /\ ord (SFdiv prec emax x SFtwo) <= ord (SFdiv prec emax y SFtwo).
Proof.
  intros Hvx Hvy Hx Hy Hord.
  destruct (nonneg_inv x Hx) as [-> | [-> | (mx & ex & ->)]];
    destruct (nonneg_inv y Hy) as [-> | [-> | (my & ey & ->)]];
    cbn [valid_binary] in *;
    try (pose proof (ord_finite_range false mx ex Hvx));
    try (pose proof (ord_finite_range false my ey Hvy));
    try (cbn [SFdiv SFtwo xorb nonneg negb ord] in *; numerals; repeat split; lia).
  - destruct (SFdiv_two_finite my ey Hvy) as [Hn Ho].
    pose proof (nearest_rank_nonneg _ _ (half_exponent my ey Hvy)).
    split; [reflexivity | ]. split; [exact Hn | ].
    rewrite Ho. cbn [SFdiv SFtwo ord]. numerals. lia.
  - destruct (SFdiv_two_finite mx ex Hvx) as [Hn Ho].
    split; [exact Hn | ]. split; [reflexivity | ].
    rewrite Ho. cbn [SFdiv SFtwo ord xorb]. lia.
  - destruct (SFdiv_two_finite mx ex Hvx) as [Hnx' Hox].
    destruct (SFdiv_two_finite my ey Hvy) as [Hny' Hoy].
    split; [exact Hnx' | ]. split; [exact Hny' | ].
    rewrite Hox, Hoy. apply Z.min_le_compat_r.
    apply nearest_rank_mono; try lia.
    + apply half_exponent; assumption.
    + apply half_exponent; assumption.
    + pose proof (ord_le_value mx my ex ey Hvx Hvy Hord) as Hval.
      replace (Z.min (ex - 1) (ey - 1)) with (Z.min ex ey - 1) by lia.
      replace (ex - 1 - (Z.min ex ey - 1)) with (ex - Z.min ex ey) by lia.
      replace (ey - 1 - (Z.min ex ey - 1)) with (ey - Z.min ex ey) by lia.
      exact Hval.
Qed.




Lemma SFcompare_refl (x : spec_float) : x <> S754_nan -> SFcompare x x = Some Eq.
Proof.
  destruct x as [s | s | | s m e]; intros H; cbn [SFcompare].
  - reflexivity.
  - destruct s; reflexivity.
  - contradiction.
  - rewrite Z.compare_refl, Pos.compare_cont_refl. destruct s; reflexivity.
Qed.

Lemma is_nan_spec (a : float) : is_nan a = true <-> Prim2SF a = S754_nan.
Proof.
  unfold is_nan. rewrite eqb_spec. unfold SFeqb. split.
  - destruct (Prim2SF a) as [s | s | | s m e] eqn:E; [ | | reflexivity | ];
      rewrite SFcompare_refl by discriminate; discriminate.
  - intros ->. reflexivity.
Qed.

Lemma is_nan_false (a : float) : is_nan a = false <-> Prim2SF a <> S754_nan.
Proof.
  rewrite <- is_nan_spec. destruct (is_nan a); split; congruence.
Qed.

Lemma fnonneg_not_nan (a : float) : fnonneg a = true -> is_nan a = false.
Proof.
  unfold fnonneg. intros H. apply is_nan_false. intros E. rewrite E in H. discriminate.
Qed.

Lemma mul_nan_l (a z : float) : is_nan a = true -> is_nan (a * z) = true.
Proof.
  rewrite !is_nan_spec, mul_spec. intros ->. reflexivity.
Qed.

Lemma mul_nan_r (a z : float) : is_nan z = true -> is_nan (a * z) = true.
Proof.
  rewrite !is_nan_spec, mul_spec. intros ->. unfold SF64mul.
  destruct (Prim2SF a); reflexivity.
Qed.

Lemma mul_comm (a z : float) : (a * z = z * a)%float.
Proof. apply Prim2SF_inj. rewrite !mul_spec. apply SFmul_comm. Qed.

Lemma Prim2SF_two : Prim2SF 2 = SFtwo.
Proof. reflexivity. Qed.

Lemma not_above_mul_r (a b z : float) :
  not_above a b -> fnonneg z = true -> not_above (a * z) (b * z).
Proof.
  intros [Ha | [Hb | (Ha & Hb & Hab)]] Hz.
  - left. apply mul_nan_l. exact Ha.
  - right. left. apply mul_nan_l. exact Hb.
  - destruct (is_nan (a * z)) eqn:Hna; [left; exact Hna | ].
    destruct (is_nan (b * z)) eqn:Hnb; [right; left; exact Hnb | ].
    right. right. unfold fnonneg, ford in *.
    apply is_nan_false in Hna, Hnb. rewrite !mul_spec in *. unfold SF64mul in *.
    apply SFmul_mono; try assumption; apply Prim2SF_valid.
Qed.

Lemma not_above_mul_l (a b z : float) :
  not_above a b -> nan_or_nonneg z -> not_above (z * a) (z * b).
Proof.
  intros Hab [Hz | Hz].
  - left. apply mul_nan_l. exact Hz.
  - rewrite (mul_comm z a), (mul_comm z b). apply not_above_mul_r; assumption.
Qed.

Lemma nan_or_nonneg_mul (a z : float) :
  nan_or_nonneg a -> fnonneg z = true -> nan_or_nonneg (a * z).
Proof.
  intros [Ha | Ha] Hz.
  - left. apply mul_nan_l. exact Ha.
  - destruct (is_nan (a * z)) eqn:Hn; [left; exact Hn | right].
    assert (H : not_above (a * z) (a * z)).
    { apply not_above_mul_r; [ | exact Hz]. right. right. repeat split; try assumption. lia. }
    destruct H as [H | [H | (H & _)]]; congruence.
Qed.

Lemma div_two_mono (a b : float) :
  fnonneg a = true -> fnonneg b = true -> ford a <= ford b ->
  fnonneg (a / 2) = true /\ fnonneg (b / 2) = true /\ ford (a / 2) <= ford (b / 2).
Proof.
  intros Ha Hb Hab. unfold fnonneg, ford in *.
  rewrite !div_spec, Prim2SF_two. unfold SF64div.
  apply SFdiv_two_mono; try assumption; apply Prim2SF_valid.
Qed.

Lemma fnonneg_div_two (a : float) : fnonneg a = true -> fnonneg (a / 2) = true.
Proof. intros Ha. apply (div_two_mono a a Ha Ha). lia. Qed.

Lemma positive_fnonneg (a : float) : (0 <? a)%float = true -> fnonneg a = true.
Proof.
  rewrite ltb_spec. unfold fnonneg, SFltb.
  change (Prim2SF 0) with (S754_zero false).
  destruct (Prim2SF a) as [s | s | | s m e]; cbn [SFcompare nonneg]; try discriminate;
    destruct s; try discriminate; reflexivity.
Qed.

(** A number that is not below a positive number is non-negative, and
    its rank is not below either. *)
Lemma leb_ford (a b : float) :
  (0 <? a)%float = true -> (a <=? b)%float = true ->
  fnonneg b = true /\ ford a <= ford b.
Proof.
  intros Hpos Hab. pose proof (positive_fnonneg a Hpos) as Ha.
  rewrite ltb_spec in Hpos. rewrite leb_spec in Hab.
  change (Prim2SF 0) with (S754_zero false) in Hpos.
  unfold fnonneg, ford, SFleb, SFltb in *.
  pose proof (Prim2SF_valid a) as Hva. pose proof (Prim2SF_valid b) as Hvb.
  assert (Hb : nonneg (Prim2SF b) = true).
  { destruct (Prim2SF a) as [sa | sa | | sa ma ea]; try discriminate;
      destruct sa; try discriminate;
      destruct (Prim2SF b) as [sb | sb | | sb mb eb]; try discriminate;
      destruct sb; try reflexivity; cbn [SFcompare] in Hab; discriminate. }
  split; [exact Hb | ].
  rewrite (SFcompare_ord _ _ Hva Hvb Ha Hb) in Hab.
  destruct (Z.compare_spec (ord (Prim2SF a)) (ord (Prim2SF b))); try discriminate; lia.
Qed.

Lemma not_above_ltb (a b : float) : not_above a b -> (b <? a)%float = false.
Proof.
  intros H. rewrite ltb_spec. unfold SFltb.
  destruct H as [Ha | [Hb | (Ha & Hb & Hab)]].
  - apply is_nan_spec in Ha. rewrite Ha. destruct (Prim2SF b); reflexivity.
  - apply is_nan_spec in Hb. rewrite Hb. reflexivity.
  - unfold fnonneg, ford in *.
    rewrite (SFcompare_ord _ _ (Prim2SF_valid b) (Prim2SF_valid a) Hb Ha).
    destruct (Z.compare_spec (ord (Prim2SF b)) (ord (Prim2SF a))); try reflexivity; lia.
Qed.

End Binary64Facts.

(** ** The estimator never decreases *)

Module EstimatorOrder.

Import Binary64 Binary64Facts PyFloat.
Local Open Scope float_scope.

Lemma not_above_div_two (a b : float) :
  (0 <? a) = true -> (a <=? b) = true -> not_above (a / 2) (b / 2).
Proof.
  intros Ha Hab. destruct (leb_ford a b Ha Hab) as [Hb Hord].
  right. right. apply div_two_mono; [apply positive_fnonneg; exact Ha | exact Hb | exact Hord].
Qed.

Lemma fnonneg_half (a : float) : (0 <? a) = true -> fnonneg (a / 2) = true.
Proof. intros Ha. apply fnonneg_div_two, positive_fnonneg, Ha. Qed.

Lemma fnonneg_coefficient : fnonneg (4 / 3 * np_pi) = true.
Proof. vm_compute. reflexivity. Qed.

Lemma fnonneg_thousand : fnonneg 1000 = true.
Proof. vm_compute. reflexivity. Qed.

Lemma not_above_leb (a b : float) :
  not_above a b -> is_nan a = false -> is_nan b = false -> (a <=? b) = true.
Proof.
  intros [Ha | [Hb | (Ha & Hb & Hab)]] Hna Hnb; try congruence.
  rewrite leb_spec. unfold SFleb, fnonneg, ford in *.
  rewrite (SFcompare_ord _ _ (Prim2SF_valid a) (Prim2SF_valid b) Ha Hb).
  destruct (Z.compare_spec (ord (Prim2SF a)) (ord (Prim2SF b))); try reflexivity; lia.
Qed.

(** With the other two dimensions fixed, the estimator's value on a
    larger length, width or depth is not above its value on the smaller
    one, up to NaN. *)
Lemma calculate_volume_not_above (length width depth x : float) :
  (0 <? length) = true -> (0 <? width) = true -> (0 <? depth) = true ->
  ((length <=? x) = true ->
   not_above (_calculate_volume length width depth) (_calculate_volume x width depth))
  /\ ((width <=? x) = true ->
      not_above (_calculate_volume length width depth) (_calculate_volume length x depth))
  /\ ((depth <=? x) = true ->
      not_above (_calculate_volume length width depth) (_calculate_volume length width x)).
Proof.
  intros Hl Hw Hd. unfold _calculate_volume.
  pose proof (fnonneg_half _ Hl) as Hl2.
  pose proof (fnonneg_half _ Hw) as Hw2.
  pose proof (fnonneg_half _ Hd) as Hd2.
  assert (Hk : nan_or_nonneg (4 / 3 * np_pi)) by (right; exact fnonneg_coefficient).
  split; [ | split]; intros Hx.
  - apply not_above_mul_r; [ | exact fnonneg_thousand].
    apply not_above_mul_r; [ | exact Hd2].
    apply not_above_mul_r; [ | exact Hw2].
    apply not_above_mul_l; [ | exact Hk].
    apply not_above_div_two; assumption.
  - apply not_above_mul_r; [ | exact fnonneg_thousand].
    apply not_above_mul_r; [ | exact Hd2].
    apply not_above_mul_l; [apply not_above_div_two; assumption | ].
    apply nan_or_nonneg_mul; assumption.
  - apply not_above_mul_r; [ | exact fnonneg_thousand].
    apply not_above_mul_l; [apply not_above_div_two; assumption | ].
    apply nan_or_nonneg_mul; [ | exact Hw2].
    apply nan_or_nonneg_mul; assumption.
Qed.

(** C4, as amended.  For positive length, width and depth, raising one
    of the three while the other two stay fixed never lowers the
    estimator's value: the value on the larger dimension is not below the
    value on the smaller one, and it is above or equal to it whenever both
    values are numbers. *)
Theorem calculate_volume_never_decreases (length width depth x : float) :
  (0 <? length) = true -> (0 <? width) = true -> (0 <? depth) = true ->
  ((length <=? x) = true ->
   (_calculate_volume x width depth <? _calculate_volume length width depth) = false
   /\ (is_nan (_calculate_volume length width depth) = false ->
       is_nan (_calculate_volume x width depth) = false ->
       (_calculate_volume length width depth <=? _calculate_volume x width depth) = true))
  /\ ((width <=? x) = true ->
      (_calculate_volume length x depth <? _calculate_volume length width depth) = false
      /\ (is_nan (_calculate_volume length width depth) = false ->
          is_nan (_calculate_volume length x depth) = false ->
          (_calculate_volume length width depth <=? _calculate_volume length x depth) = true))
  /\ ((depth <=? x) = true ->
      (_calculate_volume length width x <? _calculate_volume length width depth) = false
      /\ (is_nan (_calculate_volume length width depth) = false ->
          is_nan (_calculate_volume length width x) = false ->
          (_calculate_volume length width depth <=? _calculate_volume length width x) = true)).
Proof.
  intros Hl Hw Hd.
  destruct (calculate_volume_not_above length width depth x Hl Hw Hd) as (H1 & H2 & H3).
  split; [ | split]; intros Hx.
  - split; [apply not_above_ltb | apply not_above_leb]; exact (H1 Hx).
  - split; [apply not_above_ltb | apply not_above_leb]; exact (H2 Hx).
  - split; [apply not_above_ltb | apply not_above_leb]; exact (H3 Hx).
Qed.

(** The dimensions 4.0, 3.0 and 5.0, each raised to 6.0 in turn. *)
Lemma calculate_volume_never_decreases_witness :
  (_calculate_volume 6 3 5 <? _calculate_volume 4 3 5) = false
  /\ (_calculate_volume 4 6 5 <? _calculate_volume 4 3 5) = false
  /\ (_calculate_volume 4 3 6 <? _calculate_volume 4 3 5) = false.
Proof.
  destruct (calculate_volume_never_decreases 4 3 5 6 eq_refl eq_refl eq_refl)
    as (H1 & H2 & H3).
  split; [exact (proj1 (H1 eq_refl)) | ].
  split; [exact (proj1 (H2 eq_refl)) | exact (proj1 (H3 eq_refl))].
Defined.

(** C4, as the specification words it, fails in each argument.  The
    estimator gives the same volume for 3.875 and for the next binary64
    number above it (with width and depth 1), and for the tiny dimensions
    2^-400 and 2^-399 every product underflows to zero. *)
Lemma calculate_volume_not_strictly_increasing :
  (0x1.fp+1 <? 0x1.f000000000001p+1) = true
  /\ _calculate_volume 0x1.fp+1 1 1 = _calculate_volume 0x1.f000000000001p+1 1 1
  /\ (0x1p-400 <? 0x1p-399) = true
  /\ _calculate_volume 0x1p-400 0x1p-400 0x1p-400 = 0
  /\ _calculate_volume 0x1p-399 0x1p-400 0x1p-400 = 0
  /\ _calculate_volume 0x1p-400 0x1p-399 0x1p-400 = 0
  /\ _calculate_volume 0x1p-400 0x1p-400 0x1p-399 = 0
  /\ ~ strictly_increasing_in_length
  /\ ~ strictly_increasing_in_width
  /\ ~ strictly_increasing_in_depth.
Proof.
  repeat (split; [vm_compute; reflexivity | ]).
  split; [ | split]; intros H;
    specialize (H 0x1p-400 0x1p-400 0x1p-400 0x1p-399 eq_refl eq_refl eq_refl eq_refl);
    vm_compute in H; discriminate H.
Qed.

End EstimatorOrder.

(** ** The dimension validator *)

Section Validator.

Context {rt : Runtime}.
Local Open Scope string_scope.

Lemma bind_lift_ok {A B} (a : A) (k : A -> M B) (s : state) :
  bind (lift (Ok a)) k s = k a s.
Proof. reflexivity. Qed.

Lemma bind_lift_raise {A B} (e : exn) (k : A -> M B) (s : state) :
  bind (lift (@Raise A e)) k s = (Raise e, s).
Proof. reflexivity. Qed.

Lemma validate_raises_iff (length width depth : float) :
  (exists msg, _validate_measurements length width depth = Raise (ValueError msg))
  <-> non_positive length width depth.
Proof.
  unfold _validate_measurements, non_positive.
  destruct (length <=? 0)%float; [ split; eauto | ].
  destruct (width <=? 0)%float; [ split; eauto | ].
  destruct (depth <=? 0)%float; [ split; eauto | ].
  split.
  - intros [msg H]. discriminate.
  - intros [H | [H | H]]; discriminate.
Qed.

Lemma validate_ok_iff (length width depth : float) :
  _validate_measurements length width depth = Ok tt
  <-> ~ non_positive length width depth.
Proof.
  unfold _validate_measurements, non_positive.
  destruct (length <=? 0)%float; [ split; [discriminate | intros H; exfalso; apply H; auto] | ].
  destruct (width <=? 0)%float; [ split; [discriminate | intros H; exfalso; apply H; auto] | ].
  destruct (depth <=? 0)%float; [ split; [discriminate | intros H; exfalso; apply H; auto] | ].
  split; [ | reflexivity ].
  intros _ [H | [H | H]]; discriminate.
Qed.

Lemma validate_accepts_positive (length width depth : float) :
  (0 <? length)%float = true -> (0 <? width)%float = true -> (0 <? depth)%float = true ->
  _validate_measurements length width depth = Ok tt.
Proof.
  intros Hl Hw Hd. unfold _validate_measurements.
  rewrite (FloatFacts.positive_not_leb_zero _ Hl).
  rewrite (FloatFacts.positive_not_leb_zero _ Hw).
  rewrite (FloatFacts.positive_not_leb_zero _ Hd).
  reflexivity.
Qed.

(** On a row whose dimensions are rejected, the batch normalizer raises
    without calling the estimator and without touching the store. *)
Lemma process_csv_row_rejected (row : dict) (s : state) (vl vw vd : pyval)
      (length width depth : float) :
  dict_get "length_cm" row = Some vl -> py_float vl = Ok length ->
  dict_get "width_cm" row = Some vw -> py_float vw = Ok width ->
  dict_get "depth_cm" row = Some vd -> py_float vd = Ok depth ->
  non_positive length width depth ->
  exists e s',
    _process_csv_row row s = (Raise e, s')
    /\ estimator_calls (calls s') = estimator_calls (calls s)
    /\ entries s' = entries s
    /\ (forall vp vt t,
           dict_get "patient_id" row = Some vp ->
           dict_get "measurement_time" row = Some vt ->
           to_datetime (PyStr.strip (py_str vt)) = Some t ->
           _validate_measurements length width depth = Raise e).
Proof.
  intros Hl Hfl Hw Hfw Hd Hfd Hbad.
  apply validate_raises_iff in Hbad. destruct Hbad as [msg Hmsg].
  unfold _process_csv_row, getitem.
  destruct (dict_get "patient_id" row) as [vp | ].
  2:{ rewrite bind_lift_raise. do 2 eexists. repeat split; try reflexivity.
      intros; discriminate. }
  rewrite bind_lift_ok.
  destruct (dict_get "measurement_time" row) as [vt | ].
  2:{ rewrite bind_lift_raise. do 2 eexists. repeat split; try reflexivity.
      intros; discriminate. }
  rewrite bind_lift_ok. unfold pd_to_datetime.
  destruct (to_datetime (PyStr.strip (py_str vt))) as [t | ] eqn:Ht.
  2:{ rewrite bind_lift_raise. do 2 eexists. repeat split; try reflexivity.
      intros vp0 vt0 t0 _ Hvt Ht0. inversion Hvt; subst. congruence. }
  rewrite bind_lift_ok.
  rewrite Hl, bind_lift_ok, Hfl, bind_lift_ok.
  rewrite Hw, bind_lift_ok, Hfw, bind_lift_ok.
  rewrite Hd, bind_lift_ok, Hfd, bind_lift_ok.
  unfold call_validate_measurements. rewrite Hmsg.
  unfold bind, record_call, lift; simpl.
  do 2 eexists. repeat split; simpl.
  unfold estimator_calls. rewrite filter_app. simpl. apply app_nil_r.
Qed.

(** C2.  Validation fails, with [ValueError], exactly when one of the
    three values is zero or negative; it succeeds otherwise, so every
    positive triple is accepted, whatever its size; and a batch row whose
    dimensions are rejected makes the normalizer raise that error without
    the estimator being called. *)
Theorem validate_measurements_rejects_nonpositive :
  (forall length width depth : float,
      (exists msg, _validate_measurements length width depth = Raise (ValueError msg))
      <-> non_positive length width depth)
  /\ (forall length width depth : float,
         _validate_measurements length width depth = Ok tt
         <-> ~ non_positive length width depth)
  /\ (forall length width depth : float,
         (0 <? length)%float = true -> (0 <? width)%float = true ->
         (0 <? depth)%float = true ->
         _validate_measurements length width depth = Ok tt)
  /\ (forall (row : dict) (s : state) (vl vw vd : pyval) (length width depth : float),
         dict_get "length_cm" row = Some vl -> py_float vl = Ok length ->
         dict_get "width_cm" row = Some vw -> py_float vw = Ok width ->
         dict_get "depth_cm" row = Some vd -> py_float vd = Ok depth ->
         non_positive length width depth ->
         exists e s',
           _process_csv_row row s = (Raise e, s')
           /\ estimator_calls (calls s') = estimator_calls (calls s)
           /\ entries s' = entries s
           /\ (forall vp vt t,
                  dict_get "patient_id" row = Some vp ->
                  dict_get "measurement_time" row = Some vt ->
                  to_datetime (PyStr.strip (py_str vt)) = Some t ->
                  _validate_measurements length width depth = Raise e)).
Proof.
  split; [ exact validate_raises_iff | ].
  split; [ exact validate_ok_iff | ].
  split; [ exact validate_accepts_positive | ].
  exact process_csv_row_rejected.
Qed.

End Validator.

(** The dimensions 4.0, 3.0 and 5.0 pass; with the width -3.0 they are
    rejected, and the batch row that carries them raises without a call of
    the estimator. *)
Lemma validate_measurements_witness :
  _validate_measurements (rt := SampleRuntime.sample_runtime) 4 3 5 = Ok tt
  /\ (exists msg,
         _validate_measurements (rt := SampleRuntime.sample_runtime) 4 (-3) 5
         = Raise (ValueError msg))
  /\ (exists e s',
         _process_csv_row (rt := SampleRuntime.sample_runtime)
           Samples.bad_row (Samples.console []) = (Raise e, s')
         /\ estimator_calls (calls s') = []
         /\ _validate_measurements (rt := SampleRuntime.sample_runtime) 4 (-3) 5 = Raise e).
Proof.
  destruct (validate_measurements_rejects_nonpositive (rt := SampleRuntime.sample_runtime))
    as (Hiff & _ & Hpos & Hrow).
  split; [ apply Hpos; reflexivity | ].
  split; [ apply Hiff; right; left; reflexivity | ].
  destruct (Hrow Samples.bad_row (Samples.console [])
              (PFloat 4) (PFloat (-3)) (PFloat 5) 4%float (-3)%float 5%float
              eq_refl eq_refl eq_refl eq_refl eq_refl eq_refl
              (or_intror (or_introl eq_refl)))
    as (e & s' & Hrun & Hcalls & _ & Hval).
  exists e, s'. split; [exact Hrun | ]. split; [exact Hcalls | ].
  apply (Hval (PStr "P003") (PStr "2024-01-15 10:30") Samples.sample_time);
    [reflexivity | reflexivity | vm_compute; reflexivity].
Defined.

(** ** Running the monad *)

Lemma bind_ok_inv {A B} (m : M A) (k : A -> M B) (s s' : state) (b : B) :
  bind m k s = (Ok b, s') ->
  exists a s1, m s = (Ok a, s1) /\ k a s1 = (Ok b, s').
Proof.
  unfold bind. destruct (m s) as [[a | e] s1]; intros H.
  - exists a, s1. split; [reflexivity | exact H].
  - discriminate.
Qed.

Lemma bind_raise_inv {A B} (m : M A) (k : A -> M B) (s s' : state) (e : exn) :
  bind m k s = (Raise e, s') ->
  m s = (Raise e, s') \/ exists a s1, m s = (Ok a, s1) /\ k a s1 = (Raise e, s').
Proof.
  unfold bind. destruct (m s) as [[a | e0] s1]; intros H.
  - right. exists a, s1. split; [reflexivity | exact H].
  - left. inversion H. reflexivity.
Qed.

Lemma lift_ok_inv {A} (r : result A) (s s' : state) (a : A) :
  lift r s = (Ok a, s') -> r = Ok a /\ s' = s.
Proof. unfold lift. intros H. inversion H. split; reflexivity. Qed.

Lemma bind_run_ok {A B} (m : M A) (k : A -> M B) (s s1 : state) (a : A) :
  m s = (Ok a, s1) -> bind m k s = k a s1.
Proof. unfold bind. intros ->. reflexivity. Qed.

Lemma bind_run_raise {A B} (m : M A) (k : A -> M B) (s s1 : state) (e : exn) :
  m s = (Raise e, s1) -> bind m k s = (Raise e, s1).
Proof. unfold bind. intros ->. reflexivity. Qed.

(** ** The batch normalizer *)

Section Normalizer.

Context {rt : Runtime}.
Import PyStr Pandas.
Local Open Scope string_scope.

Lemma getitem_ok_inv (row : dict) (k : string) (v : pyval) :
  getitem row k = Ok v -> dict_get k row = Some v.
Proof. unfold getitem. destruct (dict_get k row); congruence. Qed.

Lemma pd_to_datetime_ok_inv (x : string) (t : Timestamp) :
  pd_to_datetime x = Ok t -> to_datetime x = Some t.
Proof. unfold pd_to_datetime. destruct (to_datetime x); congruence. Qed.

(** What a successful run of the batch normalizer read, checked, computed
    and recorded. *)
Lemma process_csv_row_ok (row : dict) (s s' : state) (e : entry) :
  _process_csv_row row s = (Ok e, s') ->
  exists vp vt vl vw vd,
    dict_get "patient_id" row = Some vp
    /\ dict_get "measurement_time" row = Some vt
    /\ dict_get "length_cm" row = Some vl
    /\ dict_get "width_cm" row = Some vw
    /\ dict_get "depth_cm" row = Some vd
    /\ patient_id e = strip (py_str vp)
    /\ to_datetime (strip (py_str vt)) = Some (timestamp e)
    /\ py_float vl = Ok (length_cm e)
    /\ py_float vw = Ok (width_cm e)
    /\ py_float vd = Ok (depth_cm e)
    /\ _validate_measurements (length_cm e) (width_cm e) (depth_cm e) = Ok tt
    /\ match optional_cell row "voided_volume_ml" with
       | Some v => exists f, py_float v = Ok f /\ voided_volume_ml e = Some f
       | None => voided_volume_ml e = None
       end
    /\ context e = match optional_cell row "context" with
                   | Some v => lower (strip (py_str v))
                   | None => "unknown"
                   end
    /\ notes e = match optional_cell row "notes" with
                 | Some v => strip (py_str v)
                 | None => ""
                 end
    /\ calculated_volume_ml e = _calculate_volume (length_cm e) (width_cm e) (depth_cm e)
    /\ source e = "csv_import"
    /\ s' = mkState (entries s) (stdin s) (stdout s) (files s)
                    (calls s ++ [CallValidate (length_cm e) (width_cm e) (depth_cm e);
                                 CallCalculate (length_cm e) (width_cm e) (depth_cm e)]).
Proof.
  unfold _process_csv_row. intros H.
  apply bind_ok_inv in H. destruct H as (vp & s1 & Hvp & H).
  apply lift_ok_inv in Hvp. destruct Hvp as [Hvp ->]. apply getitem_ok_inv in Hvp.
  apply bind_ok_inv in H. destruct H as (vt & s1 & Hvt & H).
  apply lift_ok_inv in Hvt. destruct Hvt as [Hvt ->]. apply getitem_ok_inv in Hvt.
  apply bind_ok_inv in H. destruct H as (t & s1 & Ht & H).
  apply lift_ok_inv in Ht. destruct Ht as [Ht ->]. apply pd_to_datetime_ok_inv in Ht.
  apply bind_ok_inv in H. destruct H as (vl & s1 & Hvl & H).
  apply lift_ok_inv in Hvl. destruct Hvl as [Hvl ->]. apply getitem_ok_inv in Hvl.
  apply bind_ok_inv in H. destruct H as (l & s1 & Hl & H).
  apply lift_ok_inv in Hl. destruct Hl as [Hl ->].
  apply bind_ok_inv in H. destruct H as (vw & s1 & Hvw & H).
  apply lift_ok_inv in Hvw. destruct Hvw as [Hvw ->]. apply getitem_ok_inv in Hvw.
  apply bind_ok_inv in H. destruct H as (w & s1 & Hw & H).
  apply lift_ok_inv in Hw. destruct Hw as [Hw ->].
  apply bind_ok_inv in H. destruct H as (vd & s1 & Hvd & H).
  apply lift_ok_inv in Hvd. destruct Hvd as [Hvd ->]. apply getitem_ok_inv in Hvd.
  apply bind_ok_inv in H. destruct H as (d & s1 & Hd & H).
  apply lift_ok_inv in Hd. destruct Hd as [Hd ->].
  apply bind_ok_inv in H. destruct H as ([] & s1 & Hval & H).
  unfold call_validate_measurements in Hval.
  apply bind_ok_inv in Hval. destruct Hval as ([] & s2 & Hrec & Hval).
  apply lift_ok_inv in Hval. destruct Hval as [Hval ->].
  unfold record_call in Hrec. inversion Hrec; subst s2; clear Hrec.
  apply bind_ok_inv in H. destruct H as (vv & s2 & Hvv & H).
  unfold call_calculate_volume, bind, record_call, ret in H. simpl in H.
  inversion H; subst e s'; clear H. simpl.
  exists vp, vt, vl, vw, vd.
  repeat (split; [ first [assumption | reflexivity] | ]).
  assert (Hs2 : s2 = mkState (entries s) (stdin s) (stdout s) (files s)
                             (calls s ++ [CallValidate l w d])
                /\ match optional_cell row "voided_volume_ml" with
                   | Some v => exists f, py_float v = Ok f /\ vv = Some f
                   | None => vv = None
                   end).
  { unfold optional_cell.
    destruct (dict_get "voided_volume_ml" row) as [v | ].
    - destruct (notna v).
      + apply bind_ok_inv in Hvv. destruct Hvv as (f & s3 & Hf & Hvv).
        apply lift_ok_inv in Hf. destruct Hf as [Hf ->].
        unfold ret in Hvv. inversion Hvv. split; [reflexivity | eauto].
      + unfold ret in Hvv. inversion Hvv. split; reflexivity.
    - unfold ret in Hvv. inversion Hvv. split; reflexivity. }
  destruct Hs2 as [-> Hvoid].
  split; [exact Hvoid | ].
  unfold optional_cell. simpl.
  split; [ destruct (dict_get "context" row) as [v | ]; [destruct (notna v) | ]; reflexivity | ].
  split; [ destruct (dict_get "notes" row) as [v | ]; [destruct (notna v) | ]; reflexivity | ].
  repeat split; try reflexivity.
  rewrite <- app_assoc. reflexivity.
Qed.

(** A row with the five required columns, a timestamp that parses,
    dimensions that convert and pass validation, and a voided volume that
    converts when present, is normalized into an entry. *)
Lemma process_csv_row_run (row : dict) (s : state) (vp vt vl vw vd : pyval)
      (t : Timestamp) (l w d : float) (vv : option float) :
  dict_get "patient_id" row = Some vp ->
  dict_get "measurement_time" row = Some vt ->
  to_datetime (strip (py_str vt)) = Some t ->
  dict_get "length_cm" row = Some vl -> py_float vl = Ok l ->
  dict_get "width_cm" row = Some vw -> py_float vw = Ok w ->
  dict_get "depth_cm" row = Some vd -> py_float vd = Ok d ->
  _validate_measurements l w d = Ok tt ->
  match optional_cell row "voided_volume_ml" with
  | Some v => exists f, py_float v = Ok f /\ vv = Some f
  | None => vv = None
  end ->
  _process_csv_row row s =
  (Ok (mkEntry (strip (py_str vp)) t l w d vv
               (match optional_cell row "context" with
                | Some v => lower (strip (py_str v))
                | None => "unknown"
                end)
               (match optional_cell row "notes" with
                | Some v => strip (py_str v)
                | None => ""
                end)
               (_calculate_volume l w d) "csv_import"),
   mkState (entries s) (stdin s) (stdout s) (files s)
           (calls s ++ [CallValidate l w d; CallCalculate l w d])).
Proof.
  intros Hvp Hvt Ht Hvl Hl Hvw Hw Hvd Hd Hval Hvoid.
  unfold _process_csv_row, getitem, pd_to_datetime.
  rewrite Hvp, bind_lift_ok, Hvt, bind_lift_ok, Ht, bind_lift_ok.
  rewrite Hvl, bind_lift_ok, Hl, bind_lift_ok.
  rewrite Hvw, bind_lift_ok, Hw, bind_lift_ok.
  rewrite Hvd, bind_lift_ok, Hd, bind_lift_ok.
  unfold call_validate_measurements. rewrite Hval.
  unfold optional_cell in *.
  destruct (dict_get "voided_volume_ml" row) as [v | ].
  - destruct (notna v).
    + destruct Hvoid as (f & Hf & ->).
      unfold bind, record_call, lift, call_calculate_volume, ret. simpl. rewrite Hf. simpl.
      rewrite <- app_assoc.
      destruct (dict_get "context" row) as [vc | ]; [destruct (notna vc) | ];
        (destruct (dict_get "notes" row) as [vn | ]; [destruct (notna vn) | ]); reflexivity.
    + subst vv.
      unfold bind, record_call, lift, call_calculate_volume, ret. simpl.
      rewrite <- app_assoc.
      destruct (dict_get "context" row) as [vc | ]; [destruct (notna vc) | ];
        (destruct (dict_get "notes" row) as [vn | ]; [destruct (notna vn) | ]); reflexivity.
  - subst vv.
    unfold bind, record_call, lift, call_calculate_volume, ret. simpl.
    rewrite <- app_assoc.
    destruct (dict_get "context" row) as [vc | ]; [destruct (notna vc) | ];
      (destruct (dict_get "notes" row) as [vn | ]; [destruct (notna vn) | ]); reflexivity.
Qed.

Lemma optional_cell_absent_or_blank (row : dict) (k : string) :
  absent_or_blank row k <-> optional_cell row k = None.
Proof.
  unfold absent_or_blank, optional_cell, contains.
  destruct (dict_get k row) as [v | ].
  - split.
    + intros [H | (v' & Hv & Hna)]; [discriminate | ].
      inversion Hv; subst. rewrite Hna. reflexivity.
    + destruct (notna v) eqn:Hna; [discriminate | ].
      intros _. right. exists v. split; [reflexivity | exact Hna].
  - split; [reflexivity | ]. intros _. left. reflexivity.
Qed.

End Normalizer.

(** ** Trimming and lower-casing *)

Module PyStrFacts.

Import PyStr.
Local Open Scope string_scope.

Lemma lower_char_not_upper (c : ascii) : is_upper (lower_char c) = false.
Proof. destruct c as [[] [] [] [] [] [] [] []]; reflexivity. Qed.

Lemma lower_no_upper (s : string) : no_upper (lower s) = true.
Proof.
  induction s as [ | c s IH]; simpl.
  - reflexivity.
  - rewrite lower_char_not_upper, IH. reflexivity.
Qed.

Lemma lower_length (s : string) : String.length (lower s) = String.length s.
Proof. induction s as [ | c s IH]; simpl; [reflexivity | now rewrite IH]. Qed.

Lemma lower_unchanged (s : string) : no_upper s = true -> lower s = s.
Proof.
  induction s as [ | c s IH]; simpl; intros H.
  - reflexivity.
  - apply andb_true_iff in H. destruct H as [Hc Hs].
    unfold lower_char. destruct (is_upper c); [discriminate | ].
    rewrite (IH Hs). reflexivity.
Qed.

Lemma lstrip_decompose (s : string) :
  exists pre, s = pre ++ lstrip s /\ all_space pre = true.
Proof.
  induction s as [ | c s (pre & Hs & Hpre)]; simpl.
  - exists "". split; reflexivity.
  - destruct (is_space c) eqn:Hc.
    + exists (String c pre). simpl. rewrite Hc, Hpre, <- Hs. split; reflexivity.
    + exists "". split; reflexivity.
Qed.

Lemma rstrip_decompose (s : string) :
  exists post, s = rstrip s ++ post /\ all_space post = true.
Proof.
  induction s as [ | c s (post & Hs & Hpost)]; simpl.
  - exists "". split; reflexivity.
  - destruct (rstrip s) as [ | c' t] eqn:Hr.
    + simpl in Hs. subst post.
      destruct (is_space c) eqn:Hc.
      * exists (String c s). simpl. rewrite Hc, Hpost. split; reflexivity.
      * exists s. split; [reflexivity | exact Hpost].
    + exists post. simpl. rewrite Hs at 1. split; [reflexivity | exact Hpost].
Qed.

Lemma first_char_lstrip (s : string) : not_space_opt (first_char (lstrip s)) = true.
Proof.
  induction s as [ | c s IH]; simpl.
  - reflexivity.
  - destruct (is_space c) eqn:Hc; [exact IH | ]. simpl. rewrite Hc. reflexivity.
Qed.

Lemma first_char_rstrip (s : string) :
  not_space_opt (first_char s) = true -> not_space_opt (first_char (rstrip s)) = true.
Proof.
  destruct s as [ | c s]; simpl; intros H.
  - reflexivity.
  - destruct (rstrip s).
    + destruct (is_space c) eqn:Hc; [reflexivity | simpl; rewrite Hc; reflexivity].
    + simpl. exact H.
Qed.

Lemma last_char_rstrip (s : string) : not_space_opt (last_char (rstrip s)) = true.
Proof.
  induction s as [ | c s IH]; simpl.
  - reflexivity.
  - destruct (rstrip s) as [ | c' t] eqn:Hr.
    + destruct (is_space c) eqn:Hc; simpl; [reflexivity | rewrite Hc; reflexivity].
    + exact IH.
Qed.

(** [strip] removes a run of blanks at each end and nothing else, and
    what is left neither starts nor ends with a blank. *)
Lemma strip_spec (s : string) :
  (exists pre post,
      s = pre ++ strip s ++ post /\ all_space pre = true /\ all_space post = true)
  /\ not_space_opt (first_char (strip s)) = true
  /\ not_space_opt (last_char (strip s)) = true.
Proof.
  unfold strip. split; [ | split ].
  - destruct (lstrip_decompose s) as (pre & Hs & Hpre).
    destruct (rstrip_decompose (lstrip s)) as (post & Hl & Hpost).
    exists pre, post. rewrite <- Hl. auto.
  - apply first_char_rstrip, first_char_lstrip.
  - apply last_char_rstrip.
Qed.

Lemma lstrip_fixed (s : string) :
  not_space_opt (first_char s) = true -> lstrip s = s.
Proof.
  destruct s as [ | c s]; simpl; intros H; [reflexivity | ].
  destruct (is_space c); [discriminate | reflexivity].
Qed.

Lemma rstrip_fixed (s : string) :
  not_space_opt (last_char s) = true -> rstrip s = s.
Proof.
  induction s as [ | c s IH]; simpl; intros H; [reflexivity | ].
  destruct s as [ | c' s'].
  - simpl in *. destruct (is_space c); [discriminate | reflexivity].
  - rewrite (IH H). reflexivity.
Qed.

Lemma strip_idempotent (s : string) : strip (strip s) = strip s.
Proof.
  destruct (strip_spec s) as (_ & Hf & Hl).
  unfold strip at 1. rewrite (lstrip_fixed _ Hf). apply rstrip_fixed, Hl.
Qed.

End PyStrFacts.

(** ** State-independence of the batch normalizer *)

Section Oblivious.

Context {rt : Runtime}.
Local Open Scope string_scope.

Lemma add_calls_nil (s : state) : add_calls s [] = s.
Proof. destruct s. unfold add_calls. simpl. rewrite app_nil_r. reflexivity. Qed.

Lemma add_calls_app (s : state) (cs cs' : list call) :
  add_calls (add_calls s cs) cs' = add_calls s (cs ++ cs').
Proof. unfold add_calls. simpl. rewrite app_assoc. reflexivity. Qed.

Lemma oblivious_lift {A} (r : result A) : oblivious (lift r).
Proof. exists r, []. intros s. rewrite add_calls_nil. reflexivity. Qed.

Lemma oblivious_ret {A} (a : A) : oblivious (ret a).
Proof. exists (Ok a), []. intros s. rewrite add_calls_nil. reflexivity. Qed.

Lemma oblivious_record_call (c : call) : oblivious (record_call c).
Proof. exists (Ok tt), [c]. intros s. reflexivity. Qed.

Lemma oblivious_bind {A B} (m : M A) (k : A -> M B) :
  oblivious m -> (forall a, oblivious (k a)) -> oblivious (bind m k).
Proof.
  intros (r & cs & Hm) Hk. destruct r as [a | e].
  - destruct (Hk a) as (r' & cs' & Hka).
    exists r', (cs ++ cs')%list. intros s. unfold bind.
    rewrite Hm, Hka, add_calls_app. reflexivity.
  - exists (Raise e), cs. intros s. unfold bind. rewrite Hm. reflexivity.
Qed.

Lemma oblivious_process_csv_row (row : dict) : oblivious (_process_csv_row row).
Proof.
  unfold _process_csv_row, call_validate_measurements, call_calculate_volume.
  repeat first
    [ apply oblivious_lift
    | apply oblivious_ret
    | apply oblivious_record_call
    | apply oblivious_bind; [ | intros ? ] ].
  destruct (dict_get "voided_volume_ml" row) as [v | ]; [ destruct (Pandas.notna v) | ];
    repeat first
      [ apply oblivious_lift
      | apply oblivious_ret
      | apply oblivious_bind; [ | intros ? ] ].
Qed.

(** The normalizer's outcome on a row is the same in every state, and the
    store, the console and the files are not touched. *)
Lemma process_csv_row_normalize (row : dict) :
  exists cs, forall s, _process_csv_row row s = (normalize row, add_calls s cs).
Proof.
  destruct (oblivious_process_csv_row row) as (r & cs & H).
  exists cs. intros s. unfold normalize. rewrite (H blank_state). simpl. apply H.
Qed.

Lemma normalize_ok (row : dict) (s s' : state) (e : entry) :
  _process_csv_row row s = (Ok e, s') -> normalize row = Ok e.
Proof.
  destruct (process_csv_row_normalize row) as (cs & H).
  rewrite H. intros Heq. inversion Heq. reflexivity.
Qed.

End Oblivious.

(** ** The exceptions of the batch normalizer *)

Section Exceptions.

Context {rt : Runtime}.
Local Open Scope string_scope.

Lemma no_fnf_ret {A} (a : A) : no_file_not_found (ret a).
Proof. intros s e s' H. discriminate. Qed.

Lemma no_fnf_record_call (c : call) : no_file_not_found (record_call c).
Proof. intros s e s' H. discriminate. Qed.

Lemma no_fnf_lift {A} (r : result A) :
  (forall e, r = Raise e -> is_file_not_found e = false) -> no_file_not_found (lift r).
Proof. intros Hr s e s' H. unfold lift in H. inversion H. apply Hr. assumption. Qed.

Lemma no_fnf_bind {A B} (m : M A) (k : A -> M B) :
  no_file_not_found m -> (forall a, no_file_not_found (k a)) -> no_file_not_found (bind m k).
Proof.
  intros Hm Hk s e s' H. apply bind_raise_inv in H.
  destruct H as [H | (a & s1 & _ & H)]; [exact (Hm _ _ _ H) | exact (Hk _ _ _ _ H)].
Qed.

Lemma getitem_raises (row : dict) (k : string) (e : exn) :
  getitem row k = Raise e -> is_file_not_found e = false.
Proof. unfold getitem. destruct (dict_get k row); intros H; inversion H; reflexivity. Qed.

Lemma pd_to_datetime_raises (x : string) (e : exn) :
  pd_to_datetime x = Raise e -> is_file_not_found e = false.
Proof. unfold pd_to_datetime. destruct (to_datetime x); intros H; inversion H; reflexivity. Qed.

Lemma py_float_raises (v : pyval) (e : exn) :
  py_float v = Raise e -> is_file_not_found e = false.
Proof.
  destruct v as [ | f | z | x | t]; simpl; intros H; try (inversion H; reflexivity).
  - destruct (PyFloat.float_of_Z z); inversion H; reflexivity.
  - unfold float_str in H. destruct (float_of_str x); inversion H; reflexivity.
Qed.

Lemma validate_raises (length width depth : float) (e : exn) :
  _validate_measurements length width depth = Raise e -> is_file_not_found e = false.
Proof.
  unfold _validate_measurements.
  destruct (length <=? 0)%float; [intros H; inversion H; reflexivity | ].
  destruct (width <=? 0)%float; [intros H; inversion H; reflexivity | ].
  destruct (depth <=? 0)%float; intros H; inversion H; reflexivity.
Qed.

Lemma no_fnf_process_csv_row (row : dict) : no_file_not_found (_process_csv_row row).
Proof.
  unfold _process_csv_row, call_validate_measurements, call_calculate_volume.
  repeat first
    [ apply no_fnf_ret
    | apply no_fnf_record_call
    | apply no_fnf_lift; first [ apply getitem_raises | apply pd_to_datetime_raises
                               | apply py_float_raises | apply validate_raises ]
    | apply no_fnf_bind; [ | intros ? ] ].
  destruct (dict_get "voided_volume_ml" row) as [v | ]; [ destruct (Pandas.notna v) | ];
    repeat first
      [ apply no_fnf_ret
      | apply no_fnf_lift; apply py_float_raises
      | apply no_fnf_bind; [ | intros ? ] ].
Qed.

(** A row without one of the required columns makes the normalizer
    raise [KeyError]; the first column it reads is [patient_id]. *)
Lemma normalize_missing_column (row : dict) :
  dict_get "patient_id" row = None -> normalize row = Raise (KeyError "patient_id").
Proof.
  intros H. unfold normalize, _process_csv_row, getitem. rewrite H. reflexivity.
Qed.

(** The batch normalizer never raises [FileNotFoundError]. *)
Lemma normalize_raises (row : dict) (e : exn) :
  normalize row = Raise e -> is_file_not_found e = false.
Proof.
  unfold normalize. intros H.
  destruct (_process_csv_row row blank_state) as [r s'] eqn:Hrun. simpl in H. subst r.
  exact (no_fnf_process_csv_row row _ _ _ Hrun).
Qed.

End Exceptions.

(** ** Batch import *)

Section BatchImport.

Context {rt : Runtime}.
Import Pandas.
Local Open Scope string_scope.

(** Every list of rows is either normalized whole, or has a first row on
    which the normalizer raises. *)
Lemma rows_normalized_or_fail (rs : list (nat * dict)) :
  (exists es, normalized rs es)
  \/ (exists good i bad rest es e,
         rs = (good ++ (i, bad) :: rest)%list /\ normalized good es /\ normalize bad = Raise e).
Proof.
  induction rs as [ | [i row] rs IH].
  - left. exists []. constructor.
  - destruct (normalize row) as [e | e] eqn:Hrow.
    + destruct IH as [(es & Hes) | (good & j & bad & rest & es & e' & Hrs & Hgood & Hbad)].
      * left. exists (e :: es). constructor; assumption.
      * right. exists ((i, row) :: good), j, bad, rest, (e :: es), e'.
        subst rs. repeat split; [ constructor; assumption | assumption ].
    + right. exists [], i, row, rs, [], e.
      repeat split; [ constructor | assumption ].
Qed.

Lemma import_rows_ok (rs : list (nat * dict)) (es : list entry) :
  normalized rs es ->
  forall s, exists s',
    import_rows rs s = (Ok tt, s')
    /\ entries s' = (entries s ++ es)%list
    /\ stdin s' = stdin s /\ files s' = files s.
Proof.
  induction 1 as [ | [i row] e rs es Hrow Hrest IH]; intros s.
  - exists s. simpl. rewrite app_nil_r. repeat split.
  - simpl in Hrow. destruct (process_csv_row_normalize row) as (cs & Hrun).
    simpl. unfold bind at 1. rewrite Hrun, Hrow.
    unfold bind at 1. unfold append_entry at 1. unfold bind at 1. unfold print at 1.
    match goal with |- context [import_rows rs ?st] => destruct (IH st) as (s' & Hs' & He & Hi & Hf) end.
    exists s'. rewrite Hs'. simpl in He, Hi, Hf.
    rewrite He, Hi, Hf, <- app_assoc. repeat split.
Qed.

Lemma import_rows_fail (good rest : list (nat * dict)) (i : nat) (bad : dict)
      (es : list entry) (e : exn) :
  normalized good es -> normalize bad = Raise e ->
  forall s, exists s',
    import_rows (good ++ (i, bad) :: rest) s = (Raise e, s')
    /\ entries s' = (entries s ++ es)%list
    /\ stdin s' = stdin s /\ files s' = files s.
Proof.
  intros Hgood Hbad.
  induction Hgood as [ | [j row] e' rs es Hrow Hrest IH]; intros s.
  - destruct (process_csv_row_normalize bad) as (cs & Hrun).
    exists (add_calls s cs). simpl. unfold bind at 1. rewrite Hrun, Hbad.
    simpl. rewrite app_nil_r. repeat split.
  - simpl in Hrow. destruct (process_csv_row_normalize row) as (cs & Hrun).
    simpl. unfold bind at 1. rewrite Hrun, Hrow.
    unfold bind at 1. unfold append_entry at 1. unfold bind at 1. unfold print at 1.
    match goal with |- context [import_rows _ ?st] => destruct (IH st) as (s' & Hs' & He & Hi & Hf) end.
    exists s'. rewrite Hs'. simpl in He, Hi, Hf.
    rewrite He, Hi, Hf, <- app_assoc. repeat split.
Qed.

Lemma pd_read_csv_found (path text : string) (df : DataFrame) (s : state) :
  files s path = Some text -> parse_csv text = Some df ->
  pd_read_csv path s = (Ok df, s).
Proof. intros Hf Hp. unfold pd_read_csv. rewrite Hf, Hp. reflexivity. Qed.

Lemma pd_read_csv_missing (path : string) (s : state) :
  files s path = None -> pd_read_csv path s = (Raise (FileNotFoundError path), s).
Proof. intros Hf. unfold pd_read_csv. rewrite Hf. reflexivity. Qed.

(** A missing file: the failure is reported and the result is empty. *)
Lemma auto_entry_missing_file (path : string) (s : state) :
  files s path = None ->
  auto_entry path s =
  (Ok [], mkState (entries s) (stdin s) (stdout s ++ ["❌ File not found: " ++ path])
                  (files s) (calls s)).
Proof.
  intros Hf. unfold auto_entry, try_except_FileNotFoundError.
  rewrite (bind_run_raise _ _ _ _ _ (pd_read_csv_missing _ _ Hf)). reflexivity.
Qed.

(** A file whose rows are all normalized: the entries are appended in
    row order and the whole store is returned. *)
Lemma auto_entry_all_rows (path text : string) (df : DataFrame) (es : list entry) (s : state) :
  files s path = Some text -> parse_csv text = Some df ->
  normalized (iterrows df) es ->
  exists s',
    auto_entry path s = (Ok (entries s ++ es)%list, s')
    /\ entries s' = (entries s ++ es)%list /\ files s' = files s.
Proof.
  intros Hf Hp Hes. unfold auto_entry, try_except_FileNotFoundError.
  rewrite (bind_run_ok _ _ _ _ _ (pd_read_csv_found _ _ _ _ Hf Hp)).
  unfold bind at 1. unfold print at 1.
  match goal with |- context [bind (import_rows _) _ ?st] =>
    destruct (import_rows_ok _ _ Hes st) as (s1 & Hrun & He & Hi & Hfs) end.
  rewrite (bind_run_ok _ _ _ _ _ Hrun).
  unfold bind, print, self_entries.
  eexists. split; [ rewrite He; reflexivity | ].
  cbn [entries files]. split; [reflexivity | assumption].
Qed.

(** A file with a row on which the normalizer raises: the exception
    leaves [auto_entry], and the store holds the entries of the rows
    before that row, and none of the later ones. *)
Lemma auto_entry_failing_row (path text : string) (df : DataFrame) (s : state)
      (good rest : list (nat * dict)) (i : nat) (bad : dict) (es : list entry) (e : exn) :
  files s path = Some text -> parse_csv text = Some df ->
  iterrows df = (good ++ (i, bad) :: rest)%list ->
  normalized good es -> normalize bad = Raise e ->
  exists s',
    auto_entry path s = (Raise e, s')
    /\ entries s' = (entries s ++ es)%list /\ files s' = files s.
Proof.
  intros Hf Hp Hrows Hgood Hbad. unfold auto_entry, try_except_FileNotFoundError.
  rewrite (bind_run_ok _ _ _ _ _ (pd_read_csv_found _ _ _ _ Hf Hp)).
  unfold bind at 1. unfold print at 1. rewrite Hrows.
  match goal with |- context [bind (import_rows _) _ ?st] =>
    destruct (import_rows_fail _ rest i _ _ _ Hgood Hbad st) as (s1 & Hrun & He & Hi & Hfs) end.
  rewrite (bind_run_raise _ _ _ _ _ Hrun).
  pose proof (normalize_raises _ _ Hbad) as Hclass.
  destruct e; try discriminate; exists s1; repeat split; assumption.
Qed.

End BatchImport.

(** ** Interactive entry *)

Section Interactive.

Context {rt : Runtime}.
Local Open Scope string_scope.

Lemma console_only_ret {A} (a : A) : console_only (ret a).
Proof. intros s r s' H. inversion H. repeat split. Qed.

Lemma console_only_lift {A} (r : result A) : console_only (lift r).
Proof. intros s r' s' H. inversion H. repeat split. Qed.

Lemma console_only_print (line : string) : console_only (print line).
Proof. intros s r s' H. inversion H. repeat split. Qed.

Lemma console_only_input (prompt : string) : console_only (input prompt).
Proof.
  intros s r s' H. unfold input in H.
  destruct (stdin s); inversion H; repeat split.
Qed.

Lemma console_only_bind {A B} (m : M A) (k : A -> M B) :
  console_only m -> (forall a, console_only (k a)) -> console_only (bind m k).
Proof.
  intros Hm Hk s r s' H. unfold bind in H.
  destruct (m s) as [[a | e] s1] eqn:Hms.
  - destruct (Hm _ _ _ Hms) as (He & Hc & Hf).
    destruct (Hk a _ _ _ H) as (He' & Hc' & Hf').
    repeat split; congruence.
  - inversion H; subst. exact (Hm _ _ _ Hms).
Qed.

Lemma console_only_prompts : console_only manual_entry_prompts.
Proof.
  unfold manual_entry_prompts.
  repeat first
    [ apply console_only_ret
    | apply console_only_lift
    | apply console_only_print
    | apply console_only_input
    | apply console_only_bind; [ | intros ? ] ].
  match goal with |- console_only (match ?x with _ => _ end) => destruct x end;
    repeat first
      [ apply console_only_ret
      | apply console_only_lift
      | apply console_only_input
      | apply console_only_bind; [ | intros ? ] ].
Qed.

(** Once the prompts are answered and the dimensions validated,
    [manual_entry] stops on the unassigned name. *)
Lemma manual_entry_name_error (s s1 : state) (v : manual_locals) :
  manual_entry_prompts s = (Ok v, s1) ->
  _validate_measurements (l_length v) (l_width v) (l_depth v) = Ok tt ->
  manual_entry s =
  (Raise (NameError "calculated_volume"),
   add_calls s1 [CallValidate (l_length v) (l_width v) (l_depth v)]).
Proof.
  intros Hp Hv. unfold manual_entry.
  rewrite (bind_run_ok _ _ _ _ _ Hp).
  unfold call_validate_measurements. rewrite Hv. reflexivity.
Qed.

(** [manual_entry] never returns an entry: whatever the operator types,
    it raises, the store is left as it was and the estimator is not
    called. *)
Lemma manual_entry_never_returns (s : state) :
  exists e s',
    manual_entry s = (Raise e, s')
    /\ entries s' = entries s
    /\ estimator_calls (calls s') = estimator_calls (calls s).
Proof.
  unfold manual_entry.
  destruct (manual_entry_prompts s) as [[v | e] s1] eqn:Hp.
  - destruct (console_only_prompts _ _ _ Hp) as (He & Hc & _).
    rewrite (bind_run_ok _ _ _ _ _ Hp).
    unfold call_validate_measurements.
    destruct (_validate_measurements (l_length v) (l_width v) (l_depth v)) as [[] | e].
    + exists (NameError "calculated_volume"). eexists. split; [reflexivity | ].
      cbn [entries calls]. rewrite He, Hc. split; [reflexivity | ].
      unfold estimator_calls. rewrite filter_app. simpl. apply app_nil_r.
    + exists e. eexists. split; [reflexivity | ].
      cbn [entries calls]. rewrite He, Hc. split; [reflexivity | ].
      unfold estimator_calls. rewrite filter_app. simpl. apply app_nil_r.
  - destruct (console_only_prompts _ _ _ Hp) as (He & Hc & _).
    rewrite (bind_run_raise _ _ _ _ _ Hp).
    exists e, s1. rewrite He, Hc. repeat split.
Qed.

End Interactive.

(** ** Tables *)

Module TableFacts.

Import Pandas.
Local Open Scope string_scope.

Lemma mem_string_In (k : string) (l : list string) : mem_string k l = true <-> In k l.
Proof.
  unfold mem_string. rewrite existsb_exists. split.
  - intros (x & Hx & Heq). apply String.eqb_eq in Heq. subst. exact Hx.
  - intros H. exists k. split; [exact H | apply String.eqb_refl].
Qed.

Lemma add_new_fresh (ks seen : list string) (x : string) :
  In x (add_new seen ks) -> ~ In x seen.
Proof.
  revert seen. induction ks as [ | k ks IH]; simpl; intros seen H.
  - contradiction.
  - destruct (mem_string k seen) eqn:Hk.
    + apply IH. exact H.
    + destruct H as [<- | H].
      * intros Hin. apply mem_string_In in Hin. congruence.
      * intros Hin. apply (IH _ H). apply in_or_app. left. exact Hin.
Qed.

Lemma add_new_known (ks seen : list string) :
  (forall k, In k ks -> In k seen) -> add_new seen ks = [].
Proof.
  induction ks as [ | k ks IH]; simpl; intros H.
  - reflexivity.
  - destruct (mem_string k seen) eqn:Hk.
    + apply IH. intros k' Hk'. apply H. right. exact Hk'.
    + assert (Hin : In k seen) by (apply H; left; reflexivity).
      apply mem_string_In in Hin. congruence.
Qed.

Lemma dict_get_combine_fresh (cols : list string) (r : list pyval) (x : string) :
  ~ In x cols -> dict_get x (combine cols r) = None.
Proof.
  revert r. induction cols as [ | c cols IH]; intros r Hx.
  - reflexivity.
  - destruct r as [ | v r]; [reflexivity | ]. simpl.
    destruct (String.eqb x c) eqn:Hxc.
    + apply String.eqb_eq in Hxc. subst. exfalso. apply Hx. left. reflexivity.
    + apply IH. intros Hin. apply Hx. right. exact Hin.
Qed.

(** Looking a well-formed row up under its own labels gives the row back. *)
Lemma reindex_series (cols : list string) (r : list pyval) :
  NoDup cols -> List.length r = List.length cols ->
  reindex cols (series cols r) = r.
Proof.
  unfold reindex, series. revert r.
  induction cols as [ | c cols IH]; intros r Hnd Hlen.
  - destruct r; [reflexivity | discriminate].
  - destruct r as [ | v r]; [discriminate | ].
    inversion Hnd as [ | ? ? Hc Hnd']; subst.
    simpl. rewrite String.eqb_refl. f_equal.
    transitivity (map (fun x => match dict_get x (combine cols r) with
                                | Some w => w
                                | None => NaN
                                end) cols).
    + apply map_ext_in. intros x Hx.
      destruct (String.eqb x c) eqn:Hxc; [ | reflexivity].
      apply String.eqb_eq in Hxc. subst. contradiction.
    + apply IH; [exact Hnd' | simpl in Hlen; congruence].
Qed.

(** Under added labels a well-formed row keeps its cells and gains
    missing values on its right. *)
Lemma reindex_padded (cols extra : list string) (r : list pyval) :
  NoDup cols -> List.length r = List.length cols ->
  (forall x, In x extra -> ~ In x cols) ->
  reindex (cols ++ extra) (series cols r) = padded (List.length extra) r.
Proof.
  intros Hnd Hlen Hfresh. unfold padded.
  unfold reindex at 1. rewrite map_app. f_equal.
  - apply (reindex_series cols r Hnd Hlen).
  - clear Hnd Hlen. induction extra as [ | x extra IH]; simpl.
    + reflexivity.
    + unfold series. rewrite dict_get_combine_fresh by (apply Hfresh; left; reflexivity).
      f_equal. apply IH. intros y Hy. apply Hfresh. right. exact Hy.
Qed.

Lemma keys_union_entries (es : list entry) :
  keys_union field_names (map to_dict es) = field_names.
Proof.
  induction es as [ | e es IH]; simpl.
  - reflexivity.
  - exact IH.
Qed.

(** The table of a store that holds entries: the ten field names as
    header and one row per entry, in store order. *)
Lemma table_of_entries (e : entry) (es : list entry) :
  table_of (e :: es) = mkDataFrame field_names (map entry_values (e :: es)).
Proof.
  unfold table_of, DataFrame_of.
  assert (Hcols : keys_union [] (map to_dict (e :: es)) = field_names)
    by (simpl; apply keys_union_entries).
  rewrite Hcols. f_equal.
  rewrite map_map. apply map_ext. intros e'. reflexivity.
Qed.

(** The table of an empty store has no column and no row. *)
Lemma table_of_nil : table_of [] = empty_frame.
Proof. reflexivity. Qed.

Lemma len_table_of (es : list entry) : len (table_of es) = List.length es.
Proof. unfold table_of, DataFrame_of, len. simpl. rewrite !length_map. reflexivity. Qed.

Lemma columns_table_of (es : list entry) :
  columns (table_of es) = match es with [] => [] | _ :: _ => field_names end.
Proof. destruct es; [reflexivity | rewrite table_of_entries; reflexivity]. Qed.

(** The rows of the store's table, realigned under any labels, are the
    entries looked up under those labels. *)
Lemma realigned_rows_of_table (cols : list string) (es : list entry) :
  map (fun r => reindex cols (series (columns (table_of es)) r)) (rows (table_of es))
  = map (fun e => reindex cols (to_dict e)) es.
Proof.
  destruct es as [ | e es]; [reflexivity | ].
  rewrite table_of_entries. cbn [rows columns].
  rewrite map_map. apply map_ext. intros e'. reflexivity.
Qed.

Lemma map_indexed_id (f : nat -> pyval -> pyval) (r : list pyval) (k : nat) :
  (forall j v, In v r -> f j v = v) ->
  map (fun jv => f (fst jv) (snd jv)) (combine (seq k (List.length r)) r) = r.
Proof.
  revert k. induction r as [ | v r IH]; intros k H; [reflexivity | ].
  cbn [List.length seq combine map fst snd]. f_equal.
  - apply H. left. reflexivity.
  - apply IH. intros j w Hw. apply H. right. exact Hw.
Qed.


Lemma common_dtype_none (t : option dtype) : common_dtype t None = t.
Proof. destruct t as [[] | ]; reflexivity. Qed.

Lemma upcast_same (t : option dtype) (v : pyval) : upcast t t v = v.
Proof. destruct t as [[] | ]; reflexivity. Qed.

Lemma upcast_not_integer (own common : option dtype) (v : pyval) :
  is_integer v = false -> upcast own common v = v.
Proof.
  destruct v; intros H; try discriminate H;
    destruct own as [[] | ], common as [[] | ]; reflexivity.
Qed.


Lemma length_upcast_rows (own other : list (list pyval)) :
  List.length (upcast_rows own other) = List.length own.
Proof. unfold upcast_rows. apply length_map. Qed.

(** Rows joined to a part without rows keep their cells. *)
Lemma upcast_rows_alone (own : list (list pyval)) : upcast_rows own [] = own.
Proof.
  unfold upcast_rows.
  transitivity (map (fun r : list pyval => r) own); [ | apply map_id].
  apply map_ext. intros r.
  apply (map_indexed_id
           (fun j v => upcast (dtype_of (column_at j own))
                              (common_dtype (dtype_of (column_at j own))
                                            (dtype_of (column_at j []))) v)).
  intros j v _. cbn [column_at map dtype_of]. rewrite common_dtype_none. apply upcast_same.
Qed.

(** Rows without an integer cell keep their cells. *)
Lemma upcast_rows_no_integer (own other : list (list pyval)) :
  no_integer_cell own = true -> upcast_rows own other = own.
Proof.
  intros H. unfold upcast_rows.
  transitivity (map (fun r : list pyval => r) own); [ | apply map_id].
  apply map_ext_in. intros r Hr.
  apply (map_indexed_id
           (fun j v => upcast (dtype_of (column_at j own))
                              (common_dtype (dtype_of (column_at j own))
                                            (dtype_of (column_at j other))) v)).
  intros j v Hv. apply upcast_not_integer.
  unfold no_integer_cell in H. rewrite forallb_forall in H.
  specialize (H r Hr). rewrite forallb_forall in H. specialize (H v Hv).
  destruct (is_integer v); [discriminate H | reflexivity].
Qed.


Lemma dict_get_In (k : string) (d : dict) (v : pyval) :
  dict_get k d = Some v -> In v (map snd d).
Proof.
  induction d as [ | [k' w] d IH]; [discriminate | ].
  cbn [dict_get map snd]. destruct (String.eqb k k').
  - intros H. inversion H. left. reflexivity.
  - intros H. right. apply IH, H.
Qed.

Lemma entry_cells_not_integer (e : entry) (v : pyval) :
  In v (entry_values e) -> is_integer v = false.
Proof.
  unfold entry_values, to_dict. cbn [map snd]. intros H.
  repeat (destruct H as [<- | H]; [try reflexivity | ]); [ | contradiction].
  destruct (voided_volume_ml e); reflexivity.
Qed.

(** The rows of a store hold no integer, under any labels. *)
Lemma store_rows_no_integer (cols : list string) (es : list entry) :
  no_integer_cell (map (fun e => reindex cols (to_dict e)) es) = true.
Proof.
  unfold no_integer_cell. rewrite forallb_forall. intros r Hr.
  apply in_map_iff in Hr. destruct Hr as (e & <- & _).
  rewrite forallb_forall. intros v Hv. unfold reindex in Hv.
  apply in_map_iff in Hv. destruct Hv as (c & <- & _).
  destruct (dict_get c (to_dict e)) as [w | ] eqn:Hc; [ | reflexivity].
  rewrite (entry_cells_not_integer e w (dict_get_In _ _ _ Hc)). reflexivity.
Qed.

(** Concatenation onto a well-formed table: the labels of the first table
    stay in front; its rows come first, each with a missing value under
    every added label and each column in the dtype it shares with the
    store's rows; the rows of the store follow in store order, their cells
    unchanged. *)
Lemma concat_table_of (a : DataFrame) (es : list entry) :
  well_formed a ->
  let extra := add_new (columns a) (columns (table_of es)) in
  let added := map (fun e => reindex (columns a ++ extra) (to_dict e)) es in
  columns (concat a (table_of es)) = (columns a ++ extra)%list
  /\ rows (concat a (table_of es))
     = (upcast_rows (map (padded (List.length extra)) (rows a)) added ++ added)%list.
Proof.
  intros [Hnd Hrows] extra added. unfold concat. cbn [columns rows]. fold extra.
  split; [reflexivity | ].
  assert (Ha : map (fun r => reindex (columns a ++ extra) (series (columns a) r)) (rows a)
               = map (padded (List.length extra)) (rows a)).
  { apply map_ext_in. intros r Hr.
    rewrite Forall_forall in Hrows.
    apply reindex_padded; [exact Hnd | apply Hrows; exact Hr | ].
    intros x Hx. exact (add_new_fresh _ _ _ Hx). }
  rewrite Ha, realigned_rows_of_table. fold added. f_equal.
  apply upcast_rows_no_integer. apply store_rows_no_integer.
Qed.

Lemma padded_zero (rs : list (list pyval)) : map (padded 0) rs = rs.
Proof.
  rewrite <- (map_id rs) at 2. apply map_ext. intros r.
  unfold padded. simpl. apply app_nil_r.
Qed.

(** When the first table already has the ten field names as header, the
    result has that header, the rows of the first table in the dtypes
    they share with the store's rows, and the store's rows after them. *)
Lemma concat_same_header (a : DataFrame) (es : list entry) :
  well_formed a -> columns a = field_names ->
  concat a (table_of es)
  = mkDataFrame field_names
      (upcast_rows (rows a) (map entry_values es) ++ map entry_values es).
Proof.
  intros Hwf Hcols.
  destruct (concat_table_of a es Hwf) as [Hc Hr].
  assert (Hextra : add_new (columns a) (columns (table_of es)) = []).
  { apply add_new_known. intros k Hk. rewrite Hcols.
    rewrite columns_table_of in Hk. destruct es; [contradiction | exact Hk]. }
  rewrite Hextra in Hc, Hr. rewrite app_nil_r in Hc, Hr.
  destruct (concat a (table_of es)) as [cols rs]. cbn [columns rows] in Hc, Hr.
  subst cols rs. rewrite Hcols. cbn [List.length]. rewrite padded_zero. reflexivity.
Qed.


(** Concatenating the table without columns or rows changes nothing. *)
Lemma concat_empty_frame (a : DataFrame) : well_formed a -> concat a empty_frame = a.
Proof.
  intros [Hnd Hlen]. destruct a as [cols rs]. unfold concat. cbn [columns rows] in *.
  cbn [empty_frame columns rows add_new map upcast_rows]. rewrite !app_nil_r.
  rewrite upcast_rows_alone. f_equal.
  induction Hlen as [ | r rs Hr _ IH]; [reflexivity | ].
  cbn [map]. rewrite IH, (reindex_series _ _ Hnd Hr). reflexivity.
Qed.

Lemma len_concat (a b : DataFrame) : len (concat a b) = (len a + len b)%nat.
Proof.
  unfold concat, len. cbn [rows].
  rewrite length_app, !length_upcast_rows, !length_map. reflexivity.
Qed.

End TableFacts.

Lemma distinct_NoDup (l : list string) : Pandas.distinct l = true -> NoDup l.
Proof.
  induction l as [ | x l IH]; simpl; intros H.
  - constructor.
  - apply andb_true_iff in H. destruct H as [Hx Hl].
    constructor; [ | exact (IH Hl)].
    intros Hin. apply TableFacts.mem_string_In in Hin. rewrite Hin in Hx. discriminate.
Qed.

Lemma well_formedb_sound (df : Pandas.DataFrame) :
  Pandas.well_formedb df = true -> Pandas.well_formed df.
Proof.
  unfold Pandas.well_formedb, Pandas.well_formed. intros H.
  apply andb_true_iff in H. destruct H as [Hc Hr]. split.
  - exact (distinct_NoDup _ Hc).
  - apply Forall_forall. intros r Hin.
    rewrite forallb_forall in Hr. apply Nat.eqb_eq. exact (Hr r Hin).
Qed.

(** ** The entry store and its persistence *)

Section Persistence.

Context {rt : Runtime}.
Import Pandas.
Local Open Scope string_scope.

Lemma get_entries_run (s : state) : get_entries s = (Ok (table_of (entries s)), s).
Proof. reflexivity. Qed.

Lemma clear_then_get (s : state) :
  (clear_entries;; get_entries)%py s =
  (Ok empty_frame,
   mkState [] (stdin s) (stdout s ++ ["Cleared all entries from memory"]) (files s) (calls s)).
Proof. reflexivity. Qed.

(** Flushing to a destination that does not exist writes the store's table. *)
Lemma save_to_csv_fresh (filename : string) (s : state) :
  files s filename = None ->
  save_to_csv filename s =
  (Ok tt,
   mkState (entries s) (stdin s)
           (stdout s ++ ["Saved " ++ PyStr.str_of_nat (len (table_of (entries s)))
                                  ++ " entries to " ++ filename])
           (written (files s) filename (to_csv (table_of (entries s))))
           (calls s)).
Proof.
  intros Hf. unfold save_to_csv, bind, self_entries, path_exists.
  rewrite Hf. reflexivity.
Qed.

(** Flushing to a destination that holds a table writes that table with
    the store's table concatenated after it. *)
Lemma save_to_csv_existing (filename text : string) (existing : DataFrame) (s : state) :
  files s filename = Some text -> parse_csv text = Some existing ->
  save_to_csv filename s =
  (Ok tt,
   mkState (entries s) (stdin s)
           (stdout s ++ ["Saved " ++ PyStr.str_of_nat (len (concat existing (table_of (entries s))))
                                  ++ " entries to " ++ filename])
           (written (files s) filename (to_csv (concat existing (table_of (entries s)))))
           (calls s)).
Proof.
  intros Hf Hp. unfold save_to_csv, bind, self_entries, path_exists.
  rewrite Hf. rewrite (pd_read_csv_found _ _ _ _ Hf Hp). reflexivity.
Qed.

Lemma written_same (fs : string -> option string) (path text : string) :
  written fs path text path = Some text.
Proof. unfold written. rewrite String.eqb_refl. reflexivity. Qed.

Lemma written_other (fs : string -> option string) (path text p : string) :
  p <> path -> written fs path text p = fs p.
Proof.
  intros Hp. unfold written. destruct (String.eqb p path) eqn:Heq; [ | reflexivity].
  apply String.eqb_eq in Heq. contradiction.
Qed.

End Persistence.

(** ** The normalized record *)

Section RecordClaims.

Context {rt : Runtime}.
Import PyStr Pandas.
Local Open Scope string_scope.

(** Every record the batch normalizer builds carries the estimator's
    value on its own dimensions, computed after their validation. *)
Lemma batch_volume_derived (row : dict) (s s' : state) (e : entry) :
  _process_csv_row row s = (Ok e, s') ->
  volume_derived e
  /\ _validate_measurements (length_cm e) (width_cm e) (depth_cm e) = Ok tt
  /\ calls s' = (calls s ++ [CallValidate (length_cm e) (width_cm e) (depth_cm e);
                             CallCalculate (length_cm e) (width_cm e) (depth_cm e)])%list.
Proof.
  intros H. apply process_csv_row_ok in H.
  destruct H as (vp & vt & vl & vw & vd & H).
  decompose [and] H. subst s'. repeat split; assumption.
Qed.

(** Every record a batch import appends carries the estimator's value on
    its own dimensions. *)
Lemma normalized_volume_derived (rs : list (nat * dict)) (es : list entry) :
  normalized rs es -> Forall volume_derived es.
Proof.
  induction 1 as [ | [i row] e rs es Hrow Hrest IH]; constructor; [ | exact IH].
  simpl in Hrow. unfold normalize in Hrow.
  destruct (_process_csv_row row blank_state) as [r s'] eqn:Hrun.
  simpl in Hrow. subst r. exact (proj1 (batch_volume_derived _ _ _ _ Hrun)).
Qed.

(** The text fields of a batch record: the identifier and the notes are
    the cell's text trimmed, the context is the cell's text trimmed and
    lower-cased. *)
Lemma batch_text_fields (row : dict) (s s' : state) (e : entry) :
  _process_csv_row row s = (Ok e, s') ->
  (exists v, dict_get "patient_id" row = Some v /\ patient_id e = strip (py_str v))
  /\ (forall v, optional_cell row "context" = Some v ->
        context e = lower (strip (py_str v)) /\ no_upper (context e) = true)
  /\ (forall v, optional_cell row "notes" = Some v -> notes e = strip (py_str v)).
Proof.
  intros H. apply process_csv_row_ok in H.
  destruct H as (vp & vt & vl & vw & vd & Hp & _ & _ & _ & _ & Hid & _ & _ & _ & _ & _
                 & _ & Hctx & Hnotes & _).
  split; [ exists vp; split; assumption | ]. split.
  - intros v Hv. rewrite Hv in Hctx.
    split; [exact Hctx | ]. rewrite Hctx. apply PyStrFacts.lower_no_upper.
  - intros v Hv. rewrite Hv in Hnotes. exact Hnotes.
Qed.

(** A filled voided-volume cell that does not convert: the conversion
    error leaves the normalizer, after the validation and before the
    estimation. *)
Lemma process_csv_row_voided_fails (row : dict) (s : state) (vp vt vl vw vd v : pyval)
      (t : Timestamp) (l w d : float) (x : exn) :
  dict_get "patient_id" row = Some vp ->
  dict_get "measurement_time" row = Some vt ->
  to_datetime (strip (py_str vt)) = Some t ->
  dict_get "length_cm" row = Some vl -> py_float vl = Ok l ->
  dict_get "width_cm" row = Some vw -> py_float vw = Ok w ->
  dict_get "depth_cm" row = Some vd -> py_float vd = Ok d ->
  _validate_measurements l w d = Ok tt ->
  optional_cell row "voided_volume_ml" = Some v -> py_float v = Raise x ->
  _process_csv_row row s = (Raise x, add_calls s [CallValidate l w d]).
Proof.
  intros Hvp Hvt Ht Hvl Hl Hvw Hw Hvd Hd Hval Hcell Hx.
  unfold _process_csv_row, getitem, pd_to_datetime.
  rewrite Hvp, bind_lift_ok, Hvt, bind_lift_ok, Ht, bind_lift_ok.
  rewrite Hvl, bind_lift_ok, Hl, bind_lift_ok.
  rewrite Hvw, bind_lift_ok, Hw, bind_lift_ok.
  rewrite Hvd, bind_lift_ok, Hd, bind_lift_ok.
  unfold call_validate_measurements. rewrite Hval.
  unfold optional_cell in Hcell.
  destruct (dict_get "voided_volume_ml" row) as [v' | ]; [ | discriminate Hcell].
  destruct (notna v'); [ | discriminate Hcell].
  inversion Hcell; subst v'.
  unfold bind, record_call, lift. rewrite Hx. reflexivity.
Qed.

(** C6.  The batch normalizer, on a row that has the required columns,
    a timestamp that is a date and dimensions that convert and pass the
    validation, returns a record whose voided volume is null when the
    column is absent or its cell blank, and the cell converted to a float
    otherwise (a cell that does not convert makes the normalizer raise the
    conversion error, and no record is built); whose context is the string
    [unknown] when its column is absent or its cell blank; whose notes are
    the empty string when their column is absent or their cell blank.  And
    every record the normalizer returns, on any row, has these fields. *)
Theorem batch_optional_fields :
  (forall (row : dict) (s : state) (vp vt vl vw vd : pyval)
          (t : Timestamp) (l w d : float),
      dict_get "patient_id" row = Some vp ->
      dict_get "measurement_time" row = Some vt ->
      to_datetime (strip (py_str vt)) = Some t ->
      dict_get "length_cm" row = Some vl -> py_float vl = Ok l ->
      dict_get "width_cm" row = Some vw -> py_float vw = Ok w ->
      dict_get "depth_cm" row = Some vd -> py_float vd = Ok d ->
      _validate_measurements l w d = Ok tt ->
      match optional_cell row "voided_volume_ml" with
      | None =>
          exists e,
            _process_csv_row row s
            = (Ok e, add_calls s [CallValidate l w d; CallCalculate l w d])
            /\ voided_volume_ml e = None
            /\ (absent_or_blank row "context" -> context e = "unknown")
            /\ (absent_or_blank row "notes" -> notes e = "")
      | Some v =>
          match py_float v with
          | Ok f =>
              exists e,
                _process_csv_row row s
                = (Ok e, add_calls s [CallValidate l w d; CallCalculate l w d])
                /\ voided_volume_ml e = Some f
                /\ (absent_or_blank row "context" -> context e = "unknown")
                /\ (absent_or_blank row "notes" -> notes e = "")
          | Raise x =>
              _process_csv_row row s = (Raise x, add_calls s [CallValidate l w d])
          end
      end)
  /\ (forall (row : dict) (s s' : state) (e : entry),
        _process_csv_row row s = (Ok e, s') ->
        (absent_or_blank row "voided_volume_ml" -> voided_volume_ml e = None)
        /\ (forall v, dict_get "voided_volume_ml" row = Some v -> notna v = true ->
              exists f, py_float v = Ok f /\ voided_volume_ml e = Some f)
        /\ (absent_or_blank row "context" -> context e = "unknown")
        /\ (absent_or_blank row "notes" -> notes e = "")).
Proof.
  assert (Hany : forall (row : dict) (s s' : state) (e : entry),
             _process_csv_row row s = (Ok e, s') ->
             (absent_or_blank row "voided_volume_ml" -> voided_volume_ml e = None)
             /\ (forall v, dict_get "voided_volume_ml" row = Some v -> notna v = true ->
                   exists f, py_float v = Ok f /\ voided_volume_ml e = Some f)
             /\ (absent_or_blank row "context" -> context e = "unknown")
             /\ (absent_or_blank row "notes" -> notes e = "")).
  { intros row s s' e H. apply process_csv_row_ok in H.
    destruct H as (vp & vt & vl & vw & vd & H). decompose [and] H. clear H.
    repeat split.
    - intros Hab. apply optional_cell_absent_or_blank in Hab.
      rewrite Hab in *. assumption.
    - intros v Hv Hna.
      assert (Hopt : optional_cell row "voided_volume_ml" = Some v)
        by (unfold optional_cell; rewrite Hv, Hna; reflexivity).
      rewrite Hopt in *. assumption.
    - intros Hab. apply optional_cell_absent_or_blank in Hab.
      rewrite Hab in *. assumption.
    - intros Hab. apply optional_cell_absent_or_blank in Hab.
      rewrite Hab in *. assumption. }
  split; [ | exact Hany].
  intros row s vp vt vl vw vd t l w d Hvp Hvt Ht Hvl Hl Hvw Hw Hvd Hd Hval.
  destruct (optional_cell row "voided_volume_ml") as [v | ] eqn:Hcell.
  - destruct (py_float v) as [f | x] eqn:Hf.
    + pose proof (process_csv_row_run row s vp vt vl vw vd t l w d (Some f)
                    Hvp Hvt Ht Hvl Hl Hvw Hw Hvd Hd Hval) as Hrun.
      rewrite Hcell in Hrun. specialize (Hrun (ex_intro _ f (conj Hf eq_refl))).
      destruct (Hany _ _ _ _ Hrun) as (_ & _ & Hc & Hn).
      eexists. split; [exact Hrun | ]. split; [reflexivity | ]. split; assumption.
    + exact (process_csv_row_voided_fails row s vp vt vl vw vd v t l w d x
               Hvp Hvt Ht Hvl Hl Hvw Hw Hvd Hd Hval Hcell Hf).
  - pose proof (process_csv_row_run row s vp vt vl vw vd t l w d None
                  Hvp Hvt Ht Hvl Hl Hvw Hw Hvd Hd Hval) as Hrun.
    rewrite Hcell in Hrun. specialize (Hrun eq_refl).
    destruct (Hany _ _ _ _ Hrun) as (_ & _ & Hc & Hn).
    eexists. split; [exact Hrun | ]. split; [reflexivity | ]. split; assumption.
Qed.

End RecordClaims.

(** The batch row without the optional columns is normalized with a null
    voided volume, the context [unknown] and empty notes; the batch row
    that carries a voided volume of 120.5 and a blank notes cell is
    normalized with the voided volume 120.5 and empty notes; the batch row
    whose voided-volume cell is text raises the conversion error. *)
Lemma batch_optional_fields_witness :
  (exists e,
      _process_csv_row (rt := SampleRuntime.sample_runtime)
        Samples.bare_row (Samples.console [])
      = (Ok e, add_calls (Samples.console []) [CallValidate 4 3 5; CallCalculate 4 3 5])
      /\ voided_volume_ml e = None
      /\ context e = "unknown"%string
      /\ notes e = ""%string)
  /\ (exists e,
         _process_csv_row (rt := SampleRuntime.sample_runtime)
           Samples.full_row (Samples.console [])
         = (Ok e, add_calls (Samples.console []) [CallValidate 2 2 2; CallCalculate 2 2 2])
         /\ voided_volume_ml e = Some 120.5%float
         /\ notes e = ""%string)
  /\ _process_csv_row (rt := SampleRuntime.sample_runtime)
        Samples.unmeasured_row (Samples.console [])
      = (Raise (ValueError "could not convert string to float: 'n/a'"),
         add_calls (Samples.console []) [CallValidate 4 3 5]).
Proof.
  pose proof (proj1 (batch_optional_fields (rt := SampleRuntime.sample_runtime))) as H.
  split; [ | split].
  - specialize (H Samples.bare_row (Samples.console [])
                  (PStr " P001 ") (PStr "2024-01-15 10:30") (PFloat 4) (PFloat 3) (PFloat 5)
                  Samples.sample_time 4%float 3%float 5%float
                  eq_refl eq_refl eq_refl eq_refl eq_refl eq_refl eq_refl eq_refl eq_refl
                  eq_refl).
    change (optional_cell Samples.bare_row "voided_volume_ml") with (@None pyval) in H.
    destruct H as (e & Hrun & Hv & Hc & Hn).
    exists e. split; [exact Hrun | ]. split; [exact Hv | ].
    split; [apply Hc; left; reflexivity | apply Hn; left; reflexivity].
  - specialize (H Samples.full_row (Samples.console [])
                  (PStr " P002 ") (PStr "2024-01-15 10:30") (PFloat 2) (PInt 2) (PStr "2.0")
                  Samples.sample_time 2%float 2%float 2%float
                  eq_refl eq_refl eq_refl eq_refl eq_refl eq_refl eq_refl eq_refl eq_refl
                  eq_refl).
    change (optional_cell Samples.full_row "voided_volume_ml")
      with (Some (PFloat 120.5)) in H.
    cbn [py_float] in H.
    destruct H as (e & Hrun & Hv & _ & Hn).
    exists e. split; [exact Hrun | ]. split; [exact Hv | ].
    apply Hn. right. exists Pandas.NaN. split; reflexivity.
  - specialize (H Samples.unmeasured_row (Samples.console [])
                  (PStr "P007") (PStr "2024-01-15 10:30") (PFloat 4) (PFloat 3) (PFloat 5)
                  Samples.sample_time 4%float 3%float 5%float
                  eq_refl eq_refl eq_refl eq_refl eq_refl eq_refl eq_refl eq_refl eq_refl
                  eq_refl).
    change (optional_cell Samples.unmeasured_row "voided_volume_ml")
      with (Some (PStr "n/a")) in H.
    change (py_float (rt := SampleRuntime.sample_runtime) (PStr "n/a"))
      with (@Raise float (ValueError "could not convert string to float: 'n/a'")) in H.
    exact H.
Defined.

(** ** Closed runs of the interactive path *)

Module InteractiveRuns.

Import SampleRuntime Samples.
Local Open Scope string_scope.

(** C3.  The operator enters the dimensions 4.0, 3.0 and 5.0: the
    validation passes, then [manual_entry] raises [NameError] on
    [calculated_volume]; no entry is stored and the estimator was never
    called.  The batch normalizer, on the same dimensions, stores the
    estimator's value. *)
Theorem manual_entry_unbound_volume :
  fst (manual_entry (console typed_lines)) = Raise (NameError "calculated_volume")
  /\ entries (snd (manual_entry (console typed_lines))) = []
  /\ calls (snd (manual_entry (console typed_lines))) = [CallValidate 4 3 5]
  /\ fst (_process_csv_row bare_row (console [])) = Ok bare_entry
  /\ calculated_volume_ml bare_entry = _calculate_volume 4 3 5.
Proof.
  split; [ vm_compute; reflexivity | ].
  split; [ vm_compute; reflexivity | ].
  split; [ vm_compute; reflexivity | ].
  split; [ vm_compute; reflexivity | reflexivity ].
Qed.

(** C7.  The operator types the context [ Pre_Void ]: the value
    [manual_entry] keeps for the record is trimmed but not lower-cased,
    where the batch normalizer stores [pre_void] for the same cell. *)
Theorem manual_entry_context_case :
  (exists v s1,
      manual_entry_prompts (console typed_lines) = (Ok v, s1)
      /\ l_context v = "Pre_Void"
      /\ l_context v <> PyStr.lower (l_context v)
      /\ l_patient_id v = "P001")
  /\ fst (_process_csv_row full_row (console [])) = Ok full_entry
  /\ context full_entry = "pre_void".
Proof.
  split.
  - eexists. eexists. split; [ vm_compute; reflexivity | ].
    split; [ reflexivity | ]. split; [ | reflexivity ].
    vm_compute. discriminate.
  - split; [ vm_compute; reflexivity | reflexivity ].
Qed.

End InteractiveRuns.

(** ** Claims on batch import *)

Section ImportClaims.

Context {rt : Runtime}.
Import Pandas.
Local Open Scope string_scope.

(** C8.  When the file of a batch import does not exist, [auto_entry]
    prints the failure, returns the empty list, and leaves the store, the
    files and the call record as they were. *)
Theorem auto_entry_missing_file_recovers (csv_filepath : string) (s : state) :
  files s csv_filepath = None ->
  exists s',
    auto_entry csv_filepath s = (Ok [], s')
    /\ entries s' = entries s
    /\ stdout s' = (stdout s ++ [("❌ File not found: " ++ csv_filepath)%string])%list
    /\ files s' = files s /\ calls s' = calls s /\ stdin s' = stdin s.
Proof.
  intros Hf. eexists. split; [ apply auto_entry_missing_file; exact Hf | ].
  repeat split.
Qed.

Lemma normalized_all_ok (rs : list (nat * dict)) (es : list entry) (ir : nat * dict) :
  normalized rs es -> In ir rs -> exists e, normalize (snd ir) = Ok e.
Proof.
  induction 1 as [ | ir' e rs es Hrow Hrest IH]; intros Hin.
  - contradiction.
  - destruct Hin as [<- | Hin]; [exists e; exact Hrow | exact (IH Hin)].
Qed.

(** C10.  When the normalizer raises on a row of the file, [auto_entry]
    ends with that exception, raised by the first such row: it is not
    caught, the entries of the rows before that row stay in the store,
    and no later row is processed. *)
Theorem auto_entry_failing_row_propagates
        (csv_filepath text : string) (df : DataFrame) (s : state) :
  files s csv_filepath = Some text -> parse_csv text = Some df ->
  (exists ir e, In ir (iterrows df) /\ normalize (snd ir) = Raise e) ->
  exists good i bad rest es e s',
    iterrows df = (good ++ (i, bad) :: rest)%list
    /\ normalized good es
    /\ normalize bad = Raise e
    /\ auto_entry csv_filepath s = (Raise e, s')
    /\ entries s' = (entries s ++ es)%list.
Proof.
  intros Hf Hp (ir & e0 & Hin & Hfail).
  destruct (rows_normalized_or_fail (iterrows df))
    as [(es & Hes) | (good & i & bad & rest & es & e & Hrows & Hgood & Hbad)].
  - destruct (normalized_all_ok _ _ _ Hes Hin) as (e1 & He1). congruence.
  - destruct (auto_entry_failing_row _ _ _ s _ _ _ _ _ _ Hf Hp Hrows Hgood Hbad)
      as (s' & Hrun & He & _).
    exists good, i, bad, rest, es, e, s'. repeat split; assumption.
Qed.

End ImportClaims.

(** A missing path in the sample session: the import reports it and the
    stored entry stays. *)
Lemma auto_entry_missing_file_witness :
  exists s',
    auto_entry (rt := SampleRuntime.sample_runtime) "absent.csv" Samples.session = (Ok [], s')
    /\ entries s' = [Samples.full_entry]
    /\ stdout s' = ["❌ File not found: absent.csv"%string]
    /\ files s' = Samples.disk /\ calls s' = [] /\ stdin s' = [].
Proof.
  apply (auto_entry_missing_file_recovers (rt := SampleRuntime.sample_runtime)
           "absent.csv" Samples.session).
  reflexivity.
Defined.

(** The sample batch file: its second row has a negative width, so the
    import raises and the first row's entry stays in the store. *)
Lemma auto_entry_failing_row_witness :
  exists good i bad rest es e s',
    Pandas.iterrows
      (match SampleRuntime.sample_parse_csv Samples.batch_text with
       | Some df => df
       | None => Pandas.empty_frame
       end)
    = (good ++ (i, bad) :: rest)%list
    /\ normalized (rt := SampleRuntime.sample_runtime) good es
    /\ normalize (rt := SampleRuntime.sample_runtime) bad = Raise e
    /\ auto_entry (rt := SampleRuntime.sample_runtime) "batch.csv" Samples.session = (Raise e, s')
    /\ entries s' = ([Samples.full_entry] ++ es)%list.
Proof.
  apply (auto_entry_failing_row_propagates (rt := SampleRuntime.sample_runtime)
           "batch.csv" Samples.batch_text).
  - reflexivity.
  - vm_compute. reflexivity.
  - exists (1%nat, Samples.bad_row),
           (ValueError "Width must be positive, got -3.0cm").
    split; [ vm_compute; right; left; reflexivity | vm_compute; reflexivity ].
Defined.

(** ** Claims on the store and its persistence *)

Section StoreClaims.

Context {rt : Runtime}.
Import Pandas.
Local Open Scope string_scope.

(** The listing of a store that holds entries has the ten field names
    as header and one row per entry. *)
Lemma get_entries_of_entries (s : state) (e : entry) (es : list entry) :
  entries s = e :: es ->
  get_entries s = (Ok (mkDataFrame field_names (map entry_values (e :: es))), s).
Proof.
  intros He. rewrite get_entries_run, He, TableFacts.table_of_entries. reflexivity.
Qed.

(** C9, as amended.  After [clear], the listing is the empty table: it
    has no row and no column, whatever the store held, since the header of
    a listing is read off the entries it lists. *)
Theorem clear_then_list_is_empty (s : state) :
  exists s',
    (clear_entries;; get_entries)%py s = (Ok empty_frame, s')
    /\ entries s' = []
    /\ rows empty_frame = [] /\ columns empty_frame = [].
Proof.
  eexists. split; [ apply clear_then_get | ]. repeat split.
Qed.


End StoreClaims.

(** C9, as the specification words it, fails on the sample session: the
    listing after [clear] has no header. *)
Lemma cleared_listing_has_no_header : ~ cleared_listing_keeps_header.
Proof.
  intros H.
  destruct (H Samples.session) as (df & s' & Hrun & _ & Hcols).
  - discriminate.
  - rewrite clear_then_get in Hrun. inversion Hrun; subst df.
    discriminate Hcols.
Qed.



(** ** Further properties of the two ingestion paths *)

Section Ingestion.

Context {rt : Runtime}.
Import Pandas.
Local Open Scope string_scope.

Lemma normalized_sources (rs : list (nat * dict)) (es : list entry) :
  normalized rs es -> Forall (fun e => source e = "csv_import") es.
Proof.
  induction 1 as [ | [i row] e rs es Hrow Hrest IH]; constructor; [ | exact IH].
  simpl in Hrow. unfold normalize in Hrow.
  destruct (_process_csv_row row blank_state) as [r s'] eqn:Hrun.
  simpl in Hrow. subst r. apply process_csv_row_ok in Hrun.
  destruct Hrun as (vp & vt & vl & vw & vd & H). decompose [and] H. assumption.
Qed.

(** X1.  A batch file whose rows are all normalized: [auto_entry] appends one
    entry per row, in row order, and returns the whole store; each new
    entry carries the estimator's value on its own dimensions and the
    provenance [csv_import]. *)
Theorem batch_import_appends_derived_records
        (csv_filepath text : string) (df : DataFrame) (es : list entry) (s : state) :
  files s csv_filepath = Some text -> parse_csv text = Some df ->
  normalized (iterrows df) es ->
  exists s',
    auto_entry csv_filepath s = (Ok (entries s ++ es)%list, s')
    /\ entries s' = (entries s ++ es)%list
    /\ List.length es = len df
    /\ Forall volume_derived es
    /\ Forall (fun e => source e = "csv_import") es.
Proof.
  intros Hf Hp Hes.
  destruct (auto_entry_all_rows _ _ _ _ s Hf Hp Hes) as (s' & Hrun & He & _).
  exists s'. split; [exact Hrun | ]. split; [exact He | ]. split.
  - apply Forall2_length in Hes. rewrite <- Hes.
    unfold iterrows, len. rewrite length_combine, length_seq, length_map. lia.
  - split; [exact (normalized_volume_derived _ _ Hes) | exact (normalized_sources _ _ Hes)].
Qed.

(** X2.  Whatever the operator types, [manual_entry] ends with an exception:
    it returns no entry, leaves the store as it was and never calls the
    estimator. *)
Theorem manual_entry_returns_no_record (s : state) :
  exists e s',
    manual_entry s = (Raise e, s')
    /\ entries s' = entries s
    /\ estimator_calls (calls s') = estimator_calls (calls s).
Proof. exact (manual_entry_never_returns s). Qed.

(** X3.  A row with the five required columns, a timestamp that parses and
    dimensions that convert to positive numbers is normalized: the
    identifier trimmed, the dimensions as converted, the estimator's value
    on them, the provenance [csv_import], after one validation and one
    estimation. *)
Theorem batch_row_is_normalized (row : dict) (s : state) (vp vt vl vw vd : pyval)
        (t : Timestamp) (l w d : float) :
  dict_get "patient_id" row = Some vp ->
  dict_get "measurement_time" row = Some vt ->
  to_datetime (PyStr.strip (py_str vt)) = Some t ->
  dict_get "length_cm" row = Some vl -> py_float vl = Ok l ->
  dict_get "width_cm" row = Some vw -> py_float vw = Ok w ->
  dict_get "depth_cm" row = Some vd -> py_float vd = Ok d ->
  (0 <? l)%float = true -> (0 <? w)%float = true -> (0 <? d)%float = true ->
  optional_cell row "voided_volume_ml" = None ->
  exists e,
    _process_csv_row row s
    = (Ok e, add_calls s [CallValidate l w d; CallCalculate l w d])
    /\ patient_id e = PyStr.strip (py_str vp) /\ timestamp e = t
    /\ length_cm e = l /\ width_cm e = w /\ depth_cm e = d
    /\ voided_volume_ml e = None
    /\ calculated_volume_ml e = _calculate_volume l w d
    /\ source e = "csv_import".
Proof.
  intros Hvp Hvt Ht Hvl Hl Hvw Hw Hvd Hd Hpl Hpw Hpd Hvoid.
  pose proof (validate_accepts_positive l w d Hpl Hpw Hpd) as Hval.
  eexists. split.
  - apply (process_csv_row_run row s vp vt vl vw vd t l w d None); try assumption.
    rewrite Hvoid. reflexivity.
  - repeat split.
Qed.

End Ingestion.

(** The sample file of two rows imported into the sample session. *)
Lemma batch_import_witness :
  exists s',
    auto_entry (rt := SampleRuntime.sample_runtime) "good.csv" Samples.session
    = (Ok (Samples.full_entry :: Samples.good_entries), s')
    /\ entries s' = Samples.full_entry :: Samples.good_entries
    /\ Forall volume_derived Samples.good_entries.
Proof.
  destruct (batch_import_appends_derived_records (rt := SampleRuntime.sample_runtime)
              "good.csv" Samples.good_text
              (Pandas.mkDataFrame
                 ["patient_id"; "measurement_time"; "length_cm"; "width_cm"; "depth_cm";
                  "context"]%string
                 [[PStr "P001"; PStr "2024-01-15 10:30"; PFloat 4; PFloat 3; PFloat 5;
                   Pandas.NaN];
                  [PStr "P002"; PStr "2024-01-15 10:30"; PFloat 2; PFloat 2; PFloat 2;
                   PStr " Pre_Void"]])
              Samples.good_entries Samples.session)
    as (s' & Hrun & He & _ & Hvol & _).
  - reflexivity.
  - vm_compute. reflexivity.
  - repeat constructor; vm_compute; reflexivity.
  - exists s'. repeat split; assumption.
Defined.

(** The sample row without optional columns. *)
Lemma batch_row_witness :
  exists e,
    _process_csv_row (rt := SampleRuntime.sample_runtime) Samples.bare_row (Samples.console [])
    = (Ok e, add_calls (Samples.console []) [CallValidate 4 3 5; CallCalculate 4 3 5])
    /\ patient_id e = "P001"%string
    /\ calculated_volume_ml e = _calculate_volume 4 3 5.
Proof.
  destruct (batch_row_is_normalized (rt := SampleRuntime.sample_runtime)
              Samples.bare_row (Samples.console [])
              (PStr " P001 ") (PStr "2024-01-15 10:30") (PFloat 4) (PFloat 3) (PFloat 5)
              Samples.sample_time 4%float 3%float 5%float)
    as (e & Hrun & Hid & _ & _ & _ & _ & _ & Hvol & _);
    try reflexivity.
  exists e. split; [exact Hrun | ]. split; [ | exact Hvol].
  rewrite Hid. vm_compute. reflexivity.
Defined.

(** ** The estimator on two measurements and on a range *)

Module EstimatorRange.

Import Binary64 Binary64Facts EstimatorOrder PyFloat.
Local Open Scope float_scope.

Lemma ord_nonneg_range (x : spec_float) :
  valid_binary x = true -> nonneg x = true ->
  (0 <= ord x <= 2047 * 2 ^ 52)%Z
  /\ (ord x = 0%Z -> x = S754_zero false)
  /\ (ord x = (2047 * 2 ^ 52)%Z -> x = S754_infinity false).
Proof.
  intros Hv Hn.
  destruct (nonneg_inv x Hn) as [-> | [-> | (m & e & ->)]]; cbn [ord].
  - repeat split; lia.
  - repeat split; lia.
  - pose proof (ord_finite_range false m e Hv) as H. cbn [ord] in H.
    repeat split; try lia.
Qed.

(** A product of non-negative numbers is not a number only when it is
    zero times infinity. *)
Lemma SFmul_nan_inv (x y : spec_float) :
  valid_binary x = true -> valid_binary y = true ->
  nonneg x = true -> nonneg y = true ->
  SFmul prec emax x y = S754_nan ->
  (x = S754_zero false /\ y = S754_infinity false)
  \/ (x = S754_infinity false /\ y = S754_zero false).
Proof.
  intros Hvx Hvy Hx Hy.
  destruct (nonneg_inv x Hx) as [-> | [-> | (mx & ex & ->)]];
    destruct (nonneg_inv y Hy) as [-> | [-> | (my & ey & ->)]];
    try (cbn [SFmul]; intros H; first [discriminate H | solve [auto]]).
  intros H. destruct (SFmul_finite mx my ex ey Hvx Hvy) as [Hn _].
  cbv zeta in Hn. rewrite H in Hn. discriminate Hn.
Qed.

Lemma mul_positive_not_nan (a b : float) :
  fnonneg a = true -> fnonneg b = true -> (0 < ford a)%Z -> (0 < ford b)%Z ->
  fnonneg (a * b) = true.
Proof.
  intros Ha Hb Hpa Hpb.
  destruct (nan_or_nonneg_mul a b (or_intror Ha) Hb) as [Hn | Hn]; [ | exact Hn].
  exfalso. apply is_nan_spec in Hn. rewrite mul_spec in Hn. unfold SF64mul in Hn.
  unfold fnonneg, ford in *.
  destruct (SFmul_nan_inv _ _ (Prim2SF_valid a) (Prim2SF_valid b) Ha Hb Hn)
    as [[E _] | [_ E]]; rewrite E in *; cbn [ord] in *; lia.
Qed.

(** Multiplication keeps the order of non-negative numbers in both
    factors at once, up to NaN. *)
Lemma not_above_mul (a a' b b' : float) :
  not_above a a' -> not_above b b' -> not_above (a * b) (a' * b').
Proof.
  intros [Ha | [Ha | (Ha & Ha' & Hoa)]] Hbb.
  - left. apply mul_nan_l. exact Ha.
  - right. left. apply mul_nan_l. exact Ha.
  - destruct Hbb as [Hb | [Hb | (Hb & Hb' & Hob)]].
    + left. apply mul_nan_r. exact Hb.
    + right. left. apply mul_nan_r. exact Hb.
    + destruct (is_nan (a * b)) eqn:E1; [left; exact E1 | ].
      destruct (is_nan (a' * b')) eqn:E2; [right; left; exact E2 | ].
      right. right.
      assert (Hn1 : fnonneg (a * b) = true)
        by (destruct (nan_or_nonneg_mul a b (or_intror Ha) Hb); congruence).
      assert (Hn2 : fnonneg (a' * b') = true)
        by (destruct (nan_or_nonneg_mul a' b' (or_intror Ha') Hb'); congruence).
      split; [exact Hn1 | ]. split; [exact Hn2 | ].
      destruct (is_nan (a * b')) eqn:E3.
      * (* the product in the middle is zero times infinity *)
        apply is_nan_spec in E3. apply is_nan_false in E1.
        unfold fnonneg, ford in *. rewrite !mul_spec in *. unfold SF64mul in *.
        pose proof (Prim2SF_valid a) as Hva. pose proof (Prim2SF_valid b) as Hvb.
        pose proof (Prim2SF_valid b') as Hvb'.
        destruct (ord_nonneg_range _ (Prim2SF_valid (a' * b')%float)) as ((Hlow & _) & _).
        { rewrite mul_spec. exact Hn2. }
        rewrite mul_spec in Hlow. unfold SF64mul in Hlow.
        destruct (SFmul_nan_inv _ _ Hva Hvb' Ha Hb' E3) as [[Ea Eb'] | [Ea Eb']].
        -- rewrite Ea in *.
           destruct (nonneg_inv _ Hb) as [Eb | [Eb | (m & e & Eb)]]; rewrite Eb in *.
           ++ cbn [SFmul ord xorb]. exact Hlow.
           ++ exfalso. apply E1. reflexivity.
           ++ cbn [SFmul ord xorb]. exact Hlow.
        -- exfalso. rewrite Eb' in Hob. cbn [ord] in Hob.
           destruct (ord_nonneg_range _ Hvb Hb) as ((Hb0 & _) & Hz & _).
           rewrite (Hz ltac:(lia)) in E1. rewrite Ea in E1. apply E1. reflexivity.
      * destruct (not_above_mul_l b b' a (or_intror (or_intror (conj Hb (conj Hb' Hob))))
                    (or_intror Ha)) as [H | [H | (_ & _ & H1)]]; try congruence.
        destruct (not_above_mul_r a a' b' (or_intror (or_intror (conj Ha (conj Ha' Hoa)))) Hb')
          as [H | [H | (_ & _ & H2)]]; try congruence.
        lia.
Qed.


Lemma not_above_refl (a : float) : fnonneg a = true -> not_above a a.
Proof. intros H. right. right. repeat split; try assumption. lia. Qed.

Lemma calculate_volume_not_above_jointly (l1 w1 d1 l2 w2 d2 : float) :
  (0 <? l1) = true -> (0 <? w1) = true -> (0 <? d1) = true ->
  (l1 <=? l2) = true -> (w1 <=? w2) = true -> (d1 <=? d2) = true ->
  not_above (_calculate_volume l1 w1 d1) (_calculate_volume l2 w2 d2).
Proof.
  intros Hl Hw Hd Hll Hww Hdd. unfold _calculate_volume.
  apply not_above_mul; [ | apply not_above_refl, fnonneg_thousand].
  apply not_above_mul; [ | apply not_above_div_two; assumption].
  apply not_above_mul; [ | apply not_above_div_two; assumption].
  apply not_above_mul; [ | apply not_above_div_two; assumption].
  apply not_above_refl, fnonneg_coefficient.
Qed.

(** X6.  For positive dimensions, a measurement that is at least as large in
    each of the three dimensions never gets a smaller volume: the volume
    of the smaller measurement is not above the other, and it is below or
    equal to it whenever both volumes are numbers. *)
Theorem calculate_volume_monotone_jointly
        (length width depth length' width' depth' : float) :
  (0 <? length) = true -> (0 <? width) = true -> (0 <? depth) = true ->
  (length <=? length') = true -> (width <=? width') = true -> (depth <=? depth') = true ->
  (_calculate_volume length' width' depth' <? _calculate_volume length width depth) = false
  /\ (is_nan (_calculate_volume length width depth) = false ->
      is_nan (_calculate_volume length' width' depth') = false ->
      (_calculate_volume length width depth <=? _calculate_volume length' width' depth')
      = true).
Proof.
  intros Hl Hw Hd Hll Hww Hdd.
  pose proof (calculate_volume_not_above_jointly _ _ _ _ _ _ Hl Hw Hd Hll Hww Hdd) as H.
  split; [apply not_above_ltb | apply not_above_leb]; exact H.
Qed.

Lemma ford_positive (a : float) : fnonneg a = true -> (0 < ford a)%Z -> (0 <? a) = true.
Proof.
  intros Ha Hp. rewrite ltb_spec. unfold SFltb, fnonneg, ford in *.
  change (Prim2SF 0) with (S754_zero false).
  rewrite (SFcompare_ord (S754_zero false) _ eq_refl (Prim2SF_valid a) eq_refl Ha).
  cbn [ord]. destruct (Z.compare_spec 0 (ord (Prim2SF a))); try reflexivity; lia.
Qed.

Lemma ford_finite (a : float) :
  fnonneg a = true -> (ford a < 2047 * 2 ^ 52)%Z -> (a <? infinity) = true.
Proof.
  intros Ha Hp. rewrite ltb_spec. unfold SFltb, fnonneg, ford in *.
  change (Prim2SF infinity) with (S754_infinity false).
  rewrite (SFcompare_ord _ (S754_infinity false) (Prim2SF_valid a) eq_refl Ha eq_refl).
  cbn [ord]. destruct (Z.compare_spec (ord (Prim2SF a)) (2047 * 2 ^ 52)); try reflexivity; lia.
Qed.

(** A product of two positive numbers is a number, and not below the
    product of smaller positive numbers. *)
Lemma mul_lower (a x b y : float) :
  fnonneg a = true -> fnonneg x = true -> fnonneg b = true -> fnonneg y = true ->
  (0 < ford a <= ford x)%Z -> (0 < ford b <= ford y)%Z ->
  fnonneg (x * y) = true /\ (ford (a * b) <= ford (x * y))%Z.
Proof.
  intros Ha Hx Hb Hy Hax Hby.
  assert (Hxy : fnonneg (x * y) = true) by (apply mul_positive_not_nan; try assumption; lia).
  assert (Hab : fnonneg (a * b) = true) by (apply mul_positive_not_nan; try assumption; lia).
  split; [exact Hxy | ].
  apply fnonneg_not_nan in Hxy, Hab.
  destruct (not_above_mul a x b y) as [H | [H | (_ & _ & H)]]; try congruence.
  - right. right. repeat split; try assumption. lia.
  - right. right. repeat split; try assumption. lia.
Qed.

(** X7.  For dimensions between 2^-300 and 2^300 the estimator's value is a
    finite positive number, between its values on the two cubes of side
    2^-300 and 2^300: no product on the way overflows, underflows to zero
    or is undefined. *)
Theorem calculate_volume_finite_in_range (length width depth : float) :
  (0x1p-300 <=? length) = true -> (length <=? 0x1p+300) = true ->
  (0x1p-300 <=? width) = true -> (width <=? 0x1p+300) = true ->
  (0x1p-300 <=? depth) = true -> (depth <=? 0x1p+300) = true ->
  is_nan (_calculate_volume length width depth) = false
  /\ (0 <? _calculate_volume length width depth) = true
  /\ (_calculate_volume length width depth <? infinity) = true
  /\ (_calculate_volume 0x1p-300 0x1p-300 0x1p-300 <=? _calculate_volume length width depth)
     = true
  /\ (_calculate_volume length width depth <=? _calculate_volume 0x1p+300 0x1p+300 0x1p+300)
     = true.
Proof.
  intros Hl1 Hl2 Hw1 Hw2 Hd1 Hd2.
  destruct (leb_ford 0x1p-300 _ eq_refl Hl1) as [Hnl Hol].
  destruct (leb_ford 0x1p-300 _ eq_refl Hw1) as [Hnw How].
  destruct (leb_ford 0x1p-300 _ eq_refl Hd1) as [Hnd Hod].
  assert (Hlo : fnonneg 0x1p-300 = true) by reflexivity.
  assert (Hpos : (0 < ford 0x1p-300)%Z) by (vm_compute; reflexivity).
  pose proof (ford_positive _ Hnl ltac:(lia)) as Hpl.
  pose proof (ford_positive _ Hnw ltac:(lia)) as Hpw.
  pose proof (ford_positive _ Hnd ltac:(lia)) as Hpd.
  destruct (div_two_mono _ _ Hlo Hnl Hol) as (Hh & Hl' & Hol').
  destruct (div_two_mono _ _ Hlo Hnw How) as (_ & Hw' & How').
  destruct (div_two_mono _ _ Hlo Hnd Hod) as (_ & Hd' & Hod').
  assert (Hhalf : (0 < ford (0x1p-300 / 2))%Z) by (vm_compute; reflexivity).
  destruct (mul_lower (4 / 3 * np_pi) (4 / 3 * np_pi) (0x1p-300 / 2) (length / 2))
    as [Hn1 Ho1]; try assumption; try exact fnonneg_coefficient.
  { split; [vm_compute; reflexivity | lia]. }
  { lia. }
  assert (Hp1 : (0 < ford (4 / 3 * np_pi * (0x1p-300 / 2)))%Z) by (vm_compute; reflexivity).
  destruct (mul_lower (4 / 3 * np_pi * (0x1p-300 / 2)) (4 / 3 * np_pi * (length / 2))
                      (0x1p-300 / 2) (width / 2))
    as [Hn2 Ho2]; try assumption; try reflexivity; try lia.
  assert (Hp2 : (0 < ford (4 / 3 * np_pi * (0x1p-300 / 2) * (0x1p-300 / 2)))%Z)
    by (vm_compute; reflexivity).
  destruct (mul_lower (4 / 3 * np_pi * (0x1p-300 / 2) * (0x1p-300 / 2))
                      (4 / 3 * np_pi * (length / 2) * (width / 2))
                      (0x1p-300 / 2) (depth / 2))
    as [Hn3 Ho3]; try assumption; try reflexivity; try lia.
  assert (Hp3 : (0 < ford (4 / 3 * np_pi * (0x1p-300 / 2) * (0x1p-300 / 2)
                           * (0x1p-300 / 2)))%Z)
    by (vm_compute; reflexivity).
  destruct (mul_lower (4 / 3 * np_pi * (0x1p-300 / 2) * (0x1p-300 / 2) * (0x1p-300 / 2))
                      (4 / 3 * np_pi * (length / 2) * (width / 2) * (depth / 2))
                      1000 1000)
    as [Hn4 Ho4]; try assumption; try reflexivity; try lia.
  { split; [vm_compute; reflexivity | lia]. }
  fold (_calculate_volume 0x1p-300 0x1p-300 0x1p-300) in Ho4.
  fold (_calculate_volume length width depth) in Hn4, Ho4.
  assert (Hplo : (0 < ford (_calculate_volume 0x1p-300 0x1p-300 0x1p-300))%Z)
    by (vm_compute; reflexivity).
  assert (Hphi : (ford (_calculate_volume 0x1p+300 0x1p+300 0x1p+300) < 2047 * 2 ^ 52)%Z)
    by (vm_compute; reflexivity).
  pose proof (fnonneg_not_nan _ Hn4) as Hnan.
  pose proof (calculate_volume_not_above_jointly _ _ _ _ _ _ Hpl Hpw Hpd Hl2 Hw2 Hd2) as Hup.
  assert (Hhi : (ford (_calculate_volume length width depth)
                 <= ford (_calculate_volume 0x1p+300 0x1p+300 0x1p+300))%Z).
  { destruct Hup as [H | [H | (_ & _ & H)]]; [congruence | | exact H].
    vm_compute in H. discriminate H. }
  split; [exact Hnan | ].
  split; [apply ford_positive; [exact Hn4 | lia] | ].
  split; [apply ford_finite; [exact Hn4 | lia] | ].
  split.
  - apply not_above_leb; [ | reflexivity | exact Hnan].
    right. right. split; [reflexivity | ]. split; [exact Hn4 | exact Ho4].
  - apply not_above_leb; [exact Hup | exact Hnan | reflexivity].
Qed.

Lemma div_nan_l (a z : float) : is_nan a = true -> is_nan (a / z) = true.
Proof. rewrite !is_nan_spec, div_spec. intros ->. reflexivity. Qed.

Lemma calculate_volume_nan (length width depth : float) :
  is_nan length = true \/ is_nan width = true \/ is_nan depth = true ->
  is_nan (_calculate_volume length width depth) = true.
Proof.
  intros H. unfold _calculate_volume. apply mul_nan_l.
  destruct H as [H | [H | H]].
  - apply mul_nan_l, mul_nan_l, mul_nan_r, div_nan_l, H.
  - apply mul_nan_l, mul_nan_r, div_nan_l, H.
  - apply mul_nan_r, div_nan_l, H.
Qed.

Lemma leb_zero_false_iff (x : float) :
  (x <=? 0) = false <-> (0 <? x) = true \/ is_nan x = true.
Proof.
  split.
  - intros H. destruct (is_nan x) eqn:E; [right; reflexivity | left].
    destruct (FloatFacts.leb_zero_or_positive x E) as [H' | H']; congruence.
  - intros [H | H].
    + apply FloatFacts.positive_not_leb_zero, H.
    + apply is_nan_spec in H. rewrite leb_spec, H. reflexivity.
Qed.

End EstimatorRange.

(** ** What the validator lets through *)

Section ValidatorGap.

Context {rt : Runtime}.
Import Binary64 Binary64Facts EstimatorRange.
Local Open Scope string_scope.

Lemma positive_or_nan_iff (x : float) : positive_or_nan x <-> (x <=? 0)%float = false.
Proof. unfold positive_or_nan. symmetry. apply leb_zero_false_iff. Qed.

Lemma not_non_positive_iff (length width depth : float) :
  ~ non_positive length width depth <-> positive_or_nan length /\ positive_or_nan width /\ positive_or_nan depth.
Proof.
  unfold non_positive. rewrite !positive_or_nan_iff.
  destruct (length <=? 0)%float, (width <=? 0)%float, (depth <=? 0)%float;
    split; intros H; try (repeat split; reflexivity);
    try (exfalso; apply H; auto; fail);
    try (destruct H as (H1 & H2 & H3); discriminate).
  intros [H' | [H' | H']]; discriminate.
Qed.

(** X4.  The validator accepts a triple exactly when each of the three
    dimensions is above zero or is a NaN: a NaN compares as not [<= 0],
    so it is not rejected. *)
Theorem validate_accepts_positive_or_nan (length width depth : float) :
  _validate_measurements length width depth = Ok tt
  <-> positive_or_nan length /\ positive_or_nan width /\ positive_or_nan depth.
Proof. rewrite validate_ok_iff. apply not_non_positive_iff. Qed.

(** X5.  A batch row in which a dimension converts to NaN, as the blank cell
    of a numeric column does, is not rejected: it is normalized into an
    entry whose volume is NaN. *)
Theorem nan_dimension_row_is_accepted
        (row : dict) (s : state) (vp vt vl vw vd : pyval)
        (t : Timestamp) (l w d : float) :
  dict_get "patient_id" row = Some vp ->
  dict_get "measurement_time" row = Some vt ->
  to_datetime (PyStr.strip (py_str vt)) = Some t ->
  dict_get "length_cm" row = Some vl -> py_float vl = Ok l ->
  dict_get "width_cm" row = Some vw -> py_float vw = Ok w ->
  dict_get "depth_cm" row = Some vd -> py_float vd = Ok d ->
  positive_or_nan l -> positive_or_nan w -> positive_or_nan d ->
  is_nan l = true \/ is_nan w = true \/ is_nan d = true ->
  optional_cell row "voided_volume_ml" = None ->
  exists e s',
    _process_csv_row row s = (Ok e, s')
    /\ length_cm e = l /\ width_cm e = w /\ depth_cm e = d
    /\ is_nan (calculated_volume_ml e) = true.
Proof.
  intros Hvp Hvt Ht Hvl Hl Hvw Hw Hvd Hd Hpl Hpw Hpd Hnan Hvoid.
  assert (Hval : _validate_measurements l w d = Ok tt)
    by (apply validate_ok_iff, not_non_positive_iff; auto).
  eexists. eexists. split.
  - apply (process_csv_row_run row s vp vt vl vw vd t l w d None); try assumption.
    rewrite Hvoid. reflexivity.
  - cbn [length_cm width_cm depth_cm calculated_volume_ml].
    repeat split. apply calculate_volume_nan. exact Hnan.
Qed.

End ValidatorGap.

(** ** The rows the batch normalizer accepts *)

Section NormalizerFacts.

Context {rt : Runtime}.
Import Pandas.
Local Open Scope string_scope.

(** X8.  The batch normalizer returns an entry for exactly the acceptable
    rows: the five required columns are present, the timestamp text is a
    date, the three dimensions convert to numbers that are above zero or
    NaN, and a filled voided-volume cell converts to a number. *)
Theorem normalize_succeeds_iff (row : dict) :
  (exists e, normalize row = Ok e) <-> acceptable row.
Proof.
  split.
  - intros [e He]. unfold normalize in He.
    destruct (_process_csv_row row blank_state) as [r s'] eqn:Hrun.
    simpl in He. subst r.
    destruct (process_csv_row_ok _ _ _ _ Hrun)
      as (vp & vt & vl & vw & vd & Hvp & Hvt & Hvl & Hvw & Hvd & _ & Ht & Hl & Hw & Hd
          & Hval & Hvoid & _).
    apply validate_ok_iff, not_non_positive_iff in Hval. destruct Hval as (Hpl & Hpw & Hpd).
    exists vp, vt, vl, vw, vd, (timestamp e), (length_cm e), (width_cm e), (depth_cm e).
    repeat (split; [assumption | ]).
    intros v Hv. rewrite Hv in Hvoid. destruct Hvoid as (f & Hf & _). exists f. exact Hf.
  - intros (vp & vt & vl & vw & vd & t & l & w & d & Hvp & Hvt & Ht & Hvl & Hl & Hvw & Hw
            & Hvd & Hd & Hpl & Hpw & Hpd & Hvoid).
    assert (Hval : _validate_measurements l w d = Ok tt)
      by (apply validate_ok_iff, not_non_positive_iff; auto).
    unfold normalize.
    destruct (optional_cell row "voided_volume_ml") as [v | ] eqn:Hcell.
    + destruct (Hvoid v eq_refl) as [f Hf].
      eexists.
      rewrite (process_csv_row_run row blank_state vp vt vl vw vd t l w d (Some f));
        try assumption; [reflexivity | ].
      rewrite Hcell. exists f. split; [exact Hf | reflexivity].
    + eexists.
      rewrite (process_csv_row_run row blank_state vp vt vl vw vd t l w d None);
        try assumption; [reflexivity | ].
      rewrite Hcell. reflexivity.
Qed.

(** X9.  The batch normalizer reads the eight recognised columns and nothing
    else: two rows that agree on them, whatever other columns they have
    and in whatever order, give the same outcome. *)
Theorem process_csv_row_reads_recognised_columns (r1 r2 : dict) :
  (forall k, In k recognised_columns -> dict_get k r1 = dict_get k r2) ->
  forall s, _process_csv_row r1 s = _process_csv_row r2 s.
Proof.
  intros H s. unfold _process_csv_row, getitem.
  rewrite !(H "patient_id") by (simpl; auto 10).
  rewrite !(H "measurement_time") by (simpl; auto 10).
  rewrite !(H "length_cm") by (simpl; auto 10).
  rewrite !(H "width_cm") by (simpl; auto 10).
  rewrite !(H "depth_cm") by (simpl; auto 10).
  rewrite !(H "voided_volume_ml") by (simpl; auto 10).
  rewrite !(H "context") by (simpl; auto 10).
  rewrite !(H "notes") by (simpl; auto 10).
  reflexivity.
Qed.

(** X10.  The batch normalizer has no effect on the store, the console or the
    files, and its outcome does not depend on them: appending is left to
    the caller. *)
Theorem process_csv_row_has_no_side_effect (row : dict) (s1 s2 : state) :
  fst (_process_csv_row row s1) = fst (_process_csv_row row s2)
  /\ entries (snd (_process_csv_row row s1)) = entries s1
  /\ stdin (snd (_process_csv_row row s1)) = stdin s1
  /\ stdout (snd (_process_csv_row row s1)) = stdout s1
  /\ files (snd (_process_csv_row row s1)) = files s1.
Proof.
  destruct (process_csv_row_normalize row) as (cs & H).
  rewrite (H s1), (H s2). repeat split.
Qed.

End NormalizerFacts.

(** ** What an import prints, and the file it cannot read *)

Section ImportFacts.

Context {rt : Runtime}.
Import Pandas.
Local Open Scope string_scope.

Lemma import_rows_trace (rs : list (nat * dict)) (es : list entry) :
  normalized rs es ->
  forall s, exists s',
    import_rows rs s = (Ok tt, s')
    /\ entries s' = (entries s ++ es)%list
    /\ stdout s'
       = (stdout s
          ++ map (fun ie => progress_line (fst ie) (snd ie)) (combine (map fst rs) es))%list
    /\ calls s' = (calls s ++ flat_map row_calls es)%list
    /\ stdin s' = stdin s /\ files s' = files s.
Proof.
  induction 1 as [ | [i row] e rs es Hrow Hrest IH]; intros s.
  - exists s. simpl. rewrite !app_nil_r. repeat split.
  - simpl in Hrow. unfold normalize in Hrow.
    destruct (_process_csv_row row s) as [r s1] eqn:Hrun.
    assert (Hr : r = Ok e).
    { destruct (process_csv_row_normalize row) as (cs & Hn).
      rewrite Hn in Hrun. unfold normalize in Hrun. rewrite (Hn blank_state) in Hrun.
      simpl in Hrun. inversion Hrun; subst. exact Hrow. }
    subst r.
    destruct (process_csv_row_ok _ _ _ _ Hrun) as (vp & vt & vl & vw & vd & Hall).
    decompose [and] Hall. clear Hall. subst s1.
    cbn [import_rows]. rewrite (bind_run_ok _ _ _ _ _ Hrun).
    unfold bind at 1. unfold append_entry at 1. unfold bind at 1. unfold print at 1.
    match goal with |- context [import_rows rs ?st] =>
      destruct (IH st) as (s' & Hs' & He & Ho & Hc & Hi & Hf) end.
    exists s'. rewrite Hs'. cbn [entries stdin stdout files calls] in He, Ho, Hc, Hi, Hf.
    rewrite He, Ho, Hc, Hi, Hf, <- !app_assoc. repeat split.
Qed.

Lemma iterrows_indices (df : DataFrame) : map fst (iterrows df) = seq 0 (len df).
Proof.
  unfold iterrows, len.
  assert (H : forall (A B : Type) (l : list A) (l' : list B),
             List.length l = List.length l' -> map fst (combine l l') = l).
  { induction l as [ | a l IH]; intros [ | b l'] Hlen; simpl in *; try discriminate;
      [reflexivity | f_equal; apply IH; lia]. }
  apply H. rewrite length_seq, length_map. reflexivity.
Qed.

(** X12.  What a successful import prints and calls: the line that tells how
    many rows were loaded, then one progress line per row, numbered from
    1 in row order, then the summary line; and for each row one call of
    the validator followed by one call of the estimator, on that row's
    dimensions. *)
Theorem auto_entry_trace (csv_filepath text : string) (df : DataFrame)
        (es : list entry) (s : state) :
  files s csv_filepath = Some text -> parse_csv text = Some df ->
  normalized (iterrows df) es ->
  exists s',
    auto_entry csv_filepath s = (Ok (entries s ++ es)%list, s')
    /\ stdout s'
       = (stdout s ++ [loaded_line (len df) csv_filepath]
          ++ map (fun ie => progress_line (fst ie) (snd ie)) (combine (seq 0 (len df)) es)
          ++ [summary_line (len df)])%list
    /\ calls s' = (calls s ++ flat_map row_calls es)%list.
Proof.
  intros Hf Hp Hes. unfold auto_entry, try_except_FileNotFoundError.
  rewrite (bind_run_ok _ _ _ _ _ (pd_read_csv_found _ _ _ _ Hf Hp)).
  unfold bind at 1. unfold print at 1.
  match goal with |- context [bind (import_rows _) _ ?st] =>
    destruct (import_rows_trace _ _ Hes st) as (s1 & Hrun & He & Ho & Hc & _) end.
  rewrite (bind_run_ok _ _ _ _ _ Hrun).
  unfold bind, print, self_entries.
  eexists. split; [ rewrite He; reflexivity | ].
  cbn [entries stdout calls] in *. rewrite Ho, Hc, iterrows_indices, <- !app_assoc.
  split; reflexivity.
Qed.

(** X13.  Importing the same file twice stores its rows twice: [auto_entry]
    does not look for entries it already holds, and the second call
    returns the whole store, the first import included. *)
Theorem auto_entry_twice_duplicates (csv_filepath text : string) (df : DataFrame)
        (es : list entry) (s : state) :
  files s csv_filepath = Some text -> parse_csv text = Some df ->
  normalized (iterrows df) es ->
  exists s',
    (auto_entry csv_filepath;; auto_entry csv_filepath)%py s
    = (Ok (entries s ++ es ++ es)%list, s')
    /\ entries s' = (entries s ++ es ++ es)%list.
Proof.
  intros Hf Hp Hes.
  destruct (auto_entry_all_rows _ _ _ _ s Hf Hp Hes) as (s1 & Hrun1 & He1 & Hf1).
  rewrite <- Hf1 in Hf.
  destruct (auto_entry_all_rows _ _ _ _ s1 Hf Hp Hes) as (s2 & Hrun2 & He2 & _).
  exists s2. rewrite (bind_run_ok _ _ _ _ _ Hrun1), Hrun2, He2, He1, <- app_assoc.
  split; reflexivity.
Qed.

Lemma saved_row_has_no_measurement_time (r : list pyval) :
  r <> [] ->
  normalize (series field_names r) = Raise (KeyError "measurement_time").
Proof.
  intros Hr. destruct r as [ | v r]; [contradiction | ].
  unfold normalize, _process_csv_row, getitem, series.
  assert (Hid : dict_get "patient_id" (combine field_names (v :: r)) = Some v) by reflexivity.
  assert (Hmt : dict_get "measurement_time" (combine field_names (v :: r)) = None).
  { apply TableFacts.dict_get_combine_fresh. intros Hin. simpl in Hin.
    repeat (destruct Hin as [Hin | Hin]; [discriminate Hin | ]). exact Hin. }
  rewrite Hid, Hmt. reflexivity.
Qed.

(** X14.  A table under the header that [save_to_csv] writes, the ten field
    names, cannot be imported: the timestamp is there under the label
    [timestamp], not [measurement_time], so [auto_entry] raises
    [KeyError] on the first row and imports nothing. *)
Theorem auto_entry_rejects_saved_header (csv_filepath text : string) (df : DataFrame)
        (s : state) :
  files s csv_filepath = Some text -> parse_csv text = Some df ->
  columns df = field_names -> well_formed df -> rows df <> [] ->
  exists s',
    auto_entry csv_filepath s = (Raise (KeyError "measurement_time"), s')
    /\ entries s' = entries s.
Proof.
  intros Hf Hp Hcols [_ Hlen] Hrows.
  destruct df as [cols [ | r rest]]; [contradiction | ].
  cbn [columns rows] in *. subst cols.
  assert (Hr : r <> []).
  { inversion Hlen as [ | ? ? Hr0 _]; subst. intros ->. discriminate Hr0. }
  destruct (auto_entry_failing_row csv_filepath text (mkDataFrame field_names (r :: rest)) s
              [] (tl (iterrows (mkDataFrame field_names (r :: rest))))
              0 (series field_names r) [] (KeyError "measurement_time") Hf Hp)
    as (s' & Hrun & He & _).
  - reflexivity.
  - constructor.
  - apply saved_row_has_no_measurement_time, Hr.
  - exists s'. split; [exact Hrun | ]. rewrite He. apply app_nil_r.
Qed.

End ImportFacts.

(** ** The store and the files across the methods *)

Section SessionFacts.

Context {rt : Runtime}.
Import Pandas.
Local Open Scope string_scope.

Lemma auto_entry_unreadable (path text : string) (s : state) :
  files s path = Some text -> parse_csv text = None ->
  auto_entry path s = (Raise ParserError, s).
Proof.
  intros Hf Hp.
  assert (Hread : pd_read_csv path s = (Raise ParserError, s))
    by (unfold pd_read_csv; rewrite Hf, Hp; reflexivity).
  unfold auto_entry, try_except_FileNotFoundError.
  rewrite (bind_run_raise _ _ _ _ _ Hread). reflexivity.
Qed.

Lemma save_to_csv_unreadable (filename text : string) (s : state) :
  files s filename = Some text -> parse_csv text = None ->
  save_to_csv filename s = (Raise ParserError, s).
Proof.
  intros Hf Hp. unfold save_to_csv, bind, self_entries, path_exists, pd_read_csv.
  rewrite Hf. cbv beta iota. rewrite Hf, Hp. reflexivity.
Qed.

Lemma auto_entry_state (path : string) (s : state) :
  exists es,
    entries (snd (auto_entry path s)) = (entries s ++ es)%list
    /\ files (snd (auto_entry path s)) = files s.
Proof.
  destruct (files s path) as [text | ] eqn:Hf.
  - destruct (parse_csv text) as [df | ] eqn:Hp.
    + destruct (rows_normalized_or_fail (iterrows df))
        as [(es & Hes) | (good & i & bad & rest & es & e & Hrows & Hgood & Hbad)].
      * destruct (auto_entry_all_rows _ _ _ _ s Hf Hp Hes) as (s' & Hrun & He & Hfs).
        exists es. rewrite Hrun. split; assumption.
      * destruct (auto_entry_failing_row _ _ _ s _ _ _ _ _ _ Hf Hp Hrows Hgood Hbad)
          as (s' & Hrun & He & Hfs).
        exists es. rewrite Hrun. split; assumption.
    + exists []. rewrite (auto_entry_unreadable _ _ _ Hf Hp), app_nil_r. split; reflexivity.
  - exists []. rewrite (auto_entry_missing_file _ _ Hf), app_nil_r. split; reflexivity.
Qed.

Lemma manual_entry_state (s : state) :
  entries (snd (manual_entry s)) = entries s /\ files (snd (manual_entry s)) = files s.
Proof.
  unfold manual_entry.
  destruct (manual_entry_prompts s) as [[v | e] s1] eqn:Hp;
    destruct (console_only_prompts _ _ _ Hp) as (He & _ & Hf).
  - rewrite (bind_run_ok _ _ _ _ _ Hp). unfold call_validate_measurements.
    destruct (_validate_measurements (l_length v) (l_width v) (l_depth v)) as [[] | e];
      split; assumption.
  - rewrite (bind_run_raise _ _ _ _ _ Hp). split; assumption.
Qed.

Lemma save_to_csv_state (filename : string) (s : state) :
  entries (snd (save_to_csv filename s)) = entries s
  /\ (forall p, p <> filename -> files (snd (save_to_csv filename s)) p = files s p).
Proof.
  destruct (files s filename) as [text | ] eqn:Hf.
  - destruct (parse_csv text) as [df | ] eqn:Hp.
    + rewrite (save_to_csv_existing _ _ _ _ Hf Hp). split; [reflexivity | ].
      intros p Hne. apply written_other, Hne.
    + rewrite (save_to_csv_unreadable _ _ _ Hf Hp). split; reflexivity.
  - rewrite (save_to_csv_fresh _ _ Hf). split; [reflexivity | ].
    intros p Hne. apply written_other, Hne.
Qed.

(** X16.  The store only grows until it is cleared: whatever their outcome,
    [manual_entry], [save_to_csv] and [get_entries] leave it as it was
    (a flush does not empty it), and [auto_entry] only adds entries after
    the ones already there. *)
Theorem store_is_append_only (s : state) (csv_filepath filename : string) :
  entries (snd (manual_entry s)) = entries s
  /\ (exists es, entries (snd (auto_entry csv_filepath s)) = (entries s ++ es)%list)
  /\ entries (snd (save_to_csv filename s)) = entries s
  /\ entries (snd (get_entries s)) = entries s.
Proof.
  split; [apply manual_entry_state | ].
  split; [destruct (auto_entry_state csv_filepath s) as (es & He & _); exists es; exact He | ].
  split; [apply save_to_csv_state | ].
  rewrite get_entries_run. reflexivity.
Qed.

(** X17.  Only [save_to_csv] writes, and only its destination: the two entry
    methods, the listing and the clearing leave every file as it was, so
    clearing the store does not touch what was flushed. *)
Theorem files_written_only_by_save (s : state) (csv_filepath filename : string) :
  files (snd (manual_entry s)) = files s
  /\ files (snd (auto_entry csv_filepath s)) = files s
  /\ files (snd (get_entries s)) = files s
  /\ files (snd (clear_entries s)) = files s
  /\ (forall p, p <> filename -> files (snd (save_to_csv filename s)) p = files s p).
Proof.
  split; [apply manual_entry_state | ].
  split; [destruct (auto_entry_state csv_filepath s) as (es & _ & Hf); exact Hf | ].
  split; [rewrite get_entries_run; reflexivity | ].
  split; [reflexivity | apply save_to_csv_state].
Qed.

(** X15.  [auto_entry] never lets a [FileNotFoundError] out: a missing file is
    reported on the console, and no other step of the import raises that
    exception. *)
Theorem auto_entry_never_raises_file_not_found (csv_filepath : string) (s : state) :
  match fst (auto_entry csv_filepath s) with
  | Ok _ => True
  | Raise e => is_file_not_found e = false
  end.
Proof.
  destruct (files s csv_filepath) as [text | ] eqn:Hf.
  - destruct (parse_csv text) as [df | ] eqn:Hp.
    + destruct (rows_normalized_or_fail (iterrows df))
        as [(es & Hes) | (good & i & bad & rest & es & e' & Hrows & Hgood & Hbad)].
      * destruct (auto_entry_all_rows _ _ _ _ s Hf Hp Hes) as (s1 & Hrun1 & _).
        rewrite Hrun1. exact I.
      * destruct (auto_entry_failing_row _ _ _ s _ _ _ _ _ _ Hf Hp Hrows Hgood Hbad)
          as (s1 & Hrun1 & _).
        rewrite Hrun1. exact (normalize_raises _ _ Hbad).
    + rewrite (auto_entry_unreadable _ _ _ Hf Hp). reflexivity.
  - rewrite (auto_entry_missing_file _ _ Hf). exact I.
Qed.

(** X18.  Flushing an empty store onto an existing file rewrites the table that
    was read, rows and header unchanged, and reports its row count. *)
Theorem save_to_csv_of_empty_store (filename text : string) (existing : DataFrame)
        (s : state) :
  entries s = [] ->
  files s filename = Some text -> parse_csv text = Some existing -> well_formed existing ->
  exists s',
    save_to_csv filename s = (Ok tt, s')
    /\ files s' filename = Some (to_csv existing)
    /\ stdout s'
       = (stdout s ++ [("Saved " ++ PyStr.str_of_nat (len existing) ++ " entries to "
                                 ++ filename)%string])%list.
Proof.
  intros He Hf Hp Hwf. eexists. split; [apply (save_to_csv_existing _ _ _ _ Hf Hp) | ].
  cbn [files stdout]. rewrite He, TableFacts.table_of_nil, (TableFacts.concat_empty_frame _ Hwf).
  split; [apply written_same | reflexivity].
Qed.

(** X19.  Flushing twice in a row writes the store twice: the flush does not
    empty the store, so the second call appends the same entries to what
    the first one wrote, as read back from the file. *)
Theorem save_to_csv_twice (filename : string) (s : state) (back : DataFrame) :
  files s filename = None ->
  parse_csv (to_csv (table_of (entries s))) = Some back ->
  exists s',
    (save_to_csv filename;; save_to_csv filename)%py s = (Ok tt, s')
    /\ entries s' = entries s
    /\ files s' filename = Some (to_csv (concat back (table_of (entries s))))
    /\ len (concat back (table_of (entries s))) = (len back + List.length (entries s))%nat
    /\ (well_formed back -> columns back = field_names ->
        concat back (table_of (entries s))
        = mkDataFrame field_names
            (upcast_rows (rows back) (map entry_values (entries s))
             ++ map entry_values (entries s))
        /\ (no_integer_cell (rows back) = true ->
            concat back (table_of (entries s))
            = mkDataFrame field_names (rows back ++ map entry_values (entries s)))).
Proof.
  intros Hf Hp.
  pose proof (save_to_csv_fresh _ _ Hf) as Hrun1.
  rewrite (bind_run_ok _ _ _ _ _ Hrun1).
  match goal with |- context [save_to_csv filename ?st] =>
    pose proof (save_to_csv_existing filename _ back st (written_same _ _ _) Hp) as Hrun2
  end.
  cbn [entries stdin stdout files calls] in Hrun2.
  eexists. split; [exact Hrun2 | ]. cbn [entries files].
  split; [reflexivity | ]. split; [apply written_same | ]. split.
  - rewrite TableFacts.len_concat, TableFacts.len_table_of. reflexivity.
  - intros Hwf Hcols.
    pose proof (TableFacts.concat_same_header back (entries s) Hwf Hcols) as Hsame.
    split; [exact Hsame | ].
    intros Hno. rewrite Hsame, (TableFacts.upcast_rows_no_integer _ _ Hno). reflexivity.
Qed.

(** X20.  The line a flush onto an existing file prints counts every row of
    the file it wrote, the rows that were there before and the store's
    entries, not the entries just added. *)
Theorem save_to_csv_reports_total_rows (filename text : string) (existing : DataFrame)
        (s : state) :
  files s filename = Some text -> parse_csv text = Some existing ->
  exists s',
    save_to_csv filename s = (Ok tt, s')
    /\ stdout s'
       = (stdout s
          ++ [("Saved " ++ PyStr.str_of_nat (len existing + List.length (entries s))
                        ++ " entries to " ++ filename)%string])%list.
Proof.
  intros Hf Hp. eexists. split; [apply (save_to_csv_existing _ _ _ _ Hf Hp) | ].
  cbn [stdout]. rewrite TableFacts.len_concat, TableFacts.len_table_of. reflexivity.
Qed.

Lemma iterrows_table_of (es : list entry) :
  map snd (iterrows (table_of es)) = map to_dict es.
Proof.
  destruct es as [ | e es]; [reflexivity | ].
  rewrite TableFacts.table_of_entries. unfold iterrows, len. cbn [columns rows].
  generalize (e :: es). generalize 0%nat. intros k l. revert k.
  induction l as [ | a l IH]; intros k; [reflexivity | ].
  cbn [map List.length seq combine snd]. rewrite IH. reflexivity.
Qed.

(** X21.  [get_entries] lists the store without changing it: one row per
    entry, in insertion order, under the ten field names when the store
    holds an entry; read row by row, the identifier and the volume of
    each row are those of the entry at the same position. *)
Theorem get_entries_lists_the_store (s : state) :
  exists df,
    get_entries s = (Ok df, s)
    /\ len df = List.length (entries s)
    /\ (entries s <> [] -> columns df = field_names)
    /\ map (fun ir => dict_get "patient_id" (snd ir)) (iterrows df)
       = map (fun e => Some (PStr (patient_id e))) (entries s)
    /\ map (fun ir => dict_get "calculated_volume_ml" (snd ir)) (iterrows df)
       = map (fun e => Some (PFloat (calculated_volume_ml e))) (entries s).
Proof.
  exists (table_of (entries s)). split; [apply get_entries_run | ].
  split; [apply TableFacts.len_table_of | ].
  split.
  - rewrite TableFacts.columns_table_of. destruct (entries s); [intros H; contradiction | ].
    reflexivity.
  - pose proof (iterrows_table_of (entries s)) as H.
    split.
    + rewrite <- (map_map snd (dict_get "patient_id")), H, map_map. reflexivity.
    + rewrite <- (map_map snd (dict_get "calculated_volume_ml")), H, map_map. reflexivity.
Qed.

End SessionFacts.

(** ** A complete interactive session *)

Section InteractiveFacts.

Context {rt : Runtime}.
Local Open Scope string_scope.

Lemma manual_entry_prompts_run (s : state) (a1 a2 a3 a4 a5 a6 a7 a8 : string)
      (rest : list string) (t : Timestamp) (l w d : float) (vv : option float) :
  stdin s = a1 :: a2 :: a3 :: a4 :: a5 :: a6 :: a7 :: a8 :: rest ->
  to_datetime (PyStr.strip a2) = Some t ->
  float_of_str a3 = Some l -> float_of_str a4 = Some w -> float_of_str a5 = Some d ->
  match a6 with
  | EmptyString => vv = None
  | _ => exists f, float_of_str a6 = Some f /\ vv = Some f
  end ->
  manual_entry_prompts s
  = (Ok (mkLocals (PyStr.strip a1) t l w d vv (PyStr.strip a7) (PyStr.strip a8)),
     mkState (entries s) rest (stdout s ++ manual_entry_questions) (files s) (calls s)).
Proof.
  intros Hin Ht Hl Hw Hd Hv. destruct s as [es inp out fs cs]. cbn [stdin] in Hin. subst inp.
  unfold manual_entry_prompts, bind, print, input, lift, ret, pd_to_datetime, float_str.
  cbn [entries stdin stdout files calls]. rewrite Ht, Hl, Hw, Hd.
  destruct a6 as [ | c a6].
  - subst vv. cbn [entries stdin stdout files calls].
    unfold manual_entry_questions. rewrite <- !app_assoc. reflexivity.
  - destruct Hv as (f & Hf & ->). rewrite Hf. cbn [entries stdin stdout files calls].
    unfold manual_entry_questions. rewrite <- !app_assoc. reflexivity.
Qed.

(** X22.  Eight answers with a timestamp that is a date, three dimensions that
    are numbers and a voided volume that is empty or a number: the method
    asks all its questions, validates the dimensions once, and then
    raises, the validator's error if a dimension is not positive and
    [NameError] on [calculated_volume] otherwise.  Nothing is stored and
    the estimator is not called. *)
Theorem manual_entry_valid_answers (s : state) (a1 a2 a3 a4 a5 a6 a7 a8 : string)
        (rest : list string) (t : Timestamp) (l w d : float) :
  stdin s = a1 :: a2 :: a3 :: a4 :: a5 :: a6 :: a7 :: a8 :: rest ->
  to_datetime (PyStr.strip a2) = Some t ->
  float_of_str a3 = Some l -> float_of_str a4 = Some w -> float_of_str a5 = Some d ->
  match a6 with
  | EmptyString => True
  | _ => exists f, float_of_str a6 = Some f
  end ->
  exists s',
    manual_entry s
    = (match _validate_measurements l w d with
       | Ok _ => Raise (NameError "calculated_volume")
       | Raise e => Raise e
       end, s')
    /\ entries s' = entries s
    /\ stdin s' = rest
    /\ stdout s' = (stdout s ++ manual_entry_questions)%list
    /\ calls s' = (calls s ++ [CallValidate l w d])%list.
Proof.
  intros Hin Ht Hl Hw Hd Hv.
  assert (Hvv : exists vv : option float,
             match a6 with
             | EmptyString => vv = None
             | _ => exists f, float_of_str a6 = Some f /\ vv = Some f
             end).
  { destruct a6 as [ | c a6]; [exists None; reflexivity | ].
    destruct Hv as [f Hf]. exists (Some f), f. split; [exact Hf | reflexivity]. }
  destruct Hvv as [vv Hvv].
  pose proof (manual_entry_prompts_run s a1 a2 a3 a4 a5 a6 a7 a8 rest t l w d vv
                Hin Ht Hl Hw Hd Hvv) as Hp.
  unfold manual_entry. rewrite (bind_run_ok _ _ _ _ _ Hp).
  cbn [l_length l_width l_depth]. unfold call_validate_measurements.
  destruct (_validate_measurements l w d) as [[] | e];
    eexists; (split; [reflexivity | ]); cbn [entries stdin stdout calls]; repeat split.
Qed.

End InteractiveFacts.

(** ** Missing columns *)

Section KeyErrors.

Context {rt : Runtime}.
Import Pandas.
Local Open Scope string_scope.

Lemma py_float_no_key_error (v : pyval) (k : string) : py_float v <> Raise (KeyError k).
Proof.
  destruct v as [ | f | z | x | t]; cbn [py_float]; try discriminate.
  - destruct (PyFloat.float_of_Z z); discriminate.
  - unfold float_str. destruct (float_of_str x); discriminate.
Qed.

Lemma validate_no_key_error (l w d : float) (k : string) :
  _validate_measurements l w d <> Raise (KeyError k).
Proof.
  unfold _validate_measurements.
  destruct (l <=? 0)%float; [discriminate | ].
  destruct (w <=? 0)%float; [discriminate | ].
  destruct (d <=? 0)%float; discriminate.
Qed.

Ltac key_error_step H :=
  match type of H with
  | context [getitem ?row ?c] =>
      unfold getitem in H at 1;
      let E := fresh "E" in
      destruct (dict_get c row) eqn:E;
      [ rewrite bind_lift_ok in H
      | rewrite bind_lift_raise in H; cbn [fst] in H; inversion H; subst;
        split; [simpl; auto 10 | exact E] ]
  end.

(** X11.  A [KeyError] of the batch normalizer names a required column that
    the row does not have: an optional column never causes one. *)
Theorem key_error_names_missing_required_column (row : dict) (k : string) :
  normalize row = Raise (KeyError k) ->
  In k required_columns /\ dict_get k row = None.
Proof.
  intros H. unfold normalize, _process_csv_row in H.
  key_error_step H. key_error_step H.
  unfold pd_to_datetime in H at 1.
  destruct (to_datetime _) in H;
    [rewrite bind_lift_ok in H | rewrite bind_lift_raise in H; discriminate H].
  key_error_step H.
  match type of H with context [lift (py_float ?v)] =>
    destruct (py_float v) as [l | e] eqn:El;
      [rewrite bind_lift_ok in H
      | rewrite bind_lift_raise in H; cbn [fst] in H; inversion H; subst;
        exfalso; exact (py_float_no_key_error _ _ El)] end.
  key_error_step H.
  match type of H with context [lift (py_float ?v)] =>
    destruct (py_float v) as [w | e] eqn:Ew;
      [rewrite bind_lift_ok in H
      | rewrite bind_lift_raise in H; cbn [fst] in H; inversion H; subst;
        exfalso; exact (py_float_no_key_error _ _ Ew)] end.
  key_error_step H.
  match type of H with context [lift (py_float ?v)] =>
    destruct (py_float v) as [d | e] eqn:Ed;
      [rewrite bind_lift_ok in H
      | rewrite bind_lift_raise in H; cbn [fst] in H; inversion H; subst;
        exfalso; exact (py_float_no_key_error _ _ Ed)] end.
  unfold call_validate_measurements, call_calculate_volume, bind, record_call, lift, ret in H.
  destruct (_validate_measurements l w d) as [[] | e] eqn:Ev.
  - destruct (dict_get "voided_volume_ml" row) as [v | ]; [ | discriminate H].
    destruct (notna v); [ | discriminate H].
    destruct (py_float v) as [f | e] eqn:Ef; [discriminate H | ].
    cbn [fst] in H. inversion H; subst. exfalso. exact (py_float_no_key_error _ _ Ef).
  - cbn [fst] in H. inversion H; subst. exfalso. exact (validate_no_key_error _ _ _ _ Ev).
Qed.

End KeyErrors.

(** ** The text fields of a batch entry, and the empty table *)

Module PyStrCase.

Import PyStr.

Lemma is_space_lower_char (c : ascii) : is_space (lower_char c) = is_space c.
Proof. destruct c as [[] [] [] [] [] [] [] []]; reflexivity. Qed.

Lemma lstrip_lower (s : string) : lstrip (lower s) = lower (lstrip s).
Proof.
  induction s as [ | c s IH]; [reflexivity | ].
  cbn [lower lstrip]. rewrite is_space_lower_char.
  destruct (is_space c); [exact IH | reflexivity].
Qed.

Lemma rstrip_lower (s : string) : rstrip (lower s) = lower (rstrip s).
Proof.
  induction s as [ | c s IH]; [reflexivity | ].
  cbn [lower rstrip]. rewrite IH.
  destruct (rstrip s) as [ | c' t]; cbn [lower].
  - rewrite is_space_lower_char. destruct (is_space c); reflexivity.
  - reflexivity.
Qed.

Lemma strip_lower (s : string) : strip (lower s) = lower (strip s).
Proof. unfold strip. rewrite lstrip_lower, rstrip_lower. reflexivity. Qed.

End PyStrCase.

Section BatchText.

Context {rt : Runtime}.
Import PyStr Pandas.
Local Open Scope string_scope.

(** X23.  The text fields of every entry the batch normalizer returns
    are in normal form: the identifier, the context and the notes have no
    white space at either end, and the context has no upper-case letter;
    trimming or lower-casing them again changes nothing. *)
Theorem batch_entry_text_is_normalized (row : dict) (s s' : state) (e : entry) :
  _process_csv_row row s = (Ok e, s') ->
  strip (patient_id e) = patient_id e
  /\ strip (context e) = context e
  /\ lower (context e) = context e
  /\ strip (notes e) = notes e.
Proof.
  intros Hrun.
  destruct (process_csv_row_ok _ _ _ _ Hrun)
    as (vp & vt & vl & vw & vd & _ & _ & _ & _ & _ & Hid & _ & _ & _ & _ & _ & _
        & Hctx & Hnotes & _).
  rewrite Hid, Hctx, Hnotes.
  split; [apply PyStrFacts.strip_idempotent | ].
  destruct (optional_cell row "context") as [v | ];
    destruct (optional_cell row "notes") as [v' | ];
    repeat split;
    try reflexivity;
    try apply PyStrFacts.strip_idempotent;
    try (rewrite PyStrCase.strip_lower, PyStrFacts.strip_idempotent; reflexivity);
    apply PyStrFacts.lower_unchanged, PyStrFacts.lower_no_upper.
Qed.

(** X24.  A file that holds a header and no row: [auto_entry] adds
    nothing, returns the store as it is and prints the two lines that
    count zero entries. *)
Theorem auto_entry_of_empty_table (csv_filepath text : string) (df : DataFrame) (s : state) :
  files s csv_filepath = Some text -> parse_csv text = Some df -> rows df = [] ->
  auto_entry csv_filepath s
  = (Ok (entries s),
     mkState (entries s) (stdin s)
             (stdout s ++ [loaded_line 0 csv_filepath; summary_line 0])
             (files s) (calls s)).
Proof.
  intros Hf Hp Hrows. unfold auto_entry, try_except_FileNotFoundError.
  rewrite (bind_run_ok _ _ _ _ _ (pd_read_csv_found _ _ _ _ Hf Hp)).
  unfold iterrows, len. rewrite Hrows.
  unfold bind, print, self_entries, loaded_line, summary_line.
  cbn [List.length seq map combine import_rows ret entries stdin stdout files calls].
  rewrite <- app_assoc. reflexivity.
Qed.

End BatchText.

(** ** Sample runs *)

(** The dimensions 4.0, 3.0, 5.0 against 6.0, 4.0, 5.0. *)
Lemma calculate_volume_monotone_jointly_witness :
  (_calculate_volume 6 4 5 <? _calculate_volume 4 3 5)%float = false
  /\ (_calculate_volume 4 3 5 <=? _calculate_volume 6 4 5)%float = true.
Proof.
  destruct (EstimatorRange.calculate_volume_monotone_jointly 4 3 5 6 4 5
              eq_refl eq_refl eq_refl eq_refl eq_refl eq_refl) as [H1 H2].
  split; [exact H1 | exact (H2 eq_refl eq_refl)].
Defined.

(** The dimensions 4.0, 3.0, 5.0 lie in the range. *)
Lemma calculate_volume_finite_in_range_witness :
  is_nan (_calculate_volume 4 3 5) = false
  /\ (0 <? _calculate_volume 4 3 5)%float = true
  /\ (_calculate_volume 4 3 5 <? infinity)%float = true.
Proof.
  destruct (EstimatorRange.calculate_volume_finite_in_range 4 3 5
              eq_refl eq_refl eq_refl eq_refl eq_refl eq_refl) as (H1 & H2 & H3 & _).
  split; [exact H1 | ]. split; [exact H2 | exact H3].
Defined.

(** A NaN length with positive width and depth is accepted. *)
Lemma validate_accepts_nan_witness :
  _validate_measurements (rt := SampleRuntime.sample_runtime) nan 3 5 = Ok tt.
Proof.
  apply (proj2 (validate_accepts_positive_or_nan (rt := SampleRuntime.sample_runtime) nan 3 5)).
  split; [right; reflexivity | ]. split; left; reflexivity.
Defined.

(** The sample row with a blank length cell. *)
Lemma nan_dimension_row_witness :
  exists e s',
    _process_csv_row (rt := SampleRuntime.sample_runtime) Samples.blank_length_row (Samples.console [])
    = (Ok e, s')
    /\ is_nan (calculated_volume_ml e) = true.
Proof.
  destruct (nan_dimension_row_is_accepted (rt := SampleRuntime.sample_runtime)
              Samples.blank_length_row (Samples.console [])
              (PStr "P005") (PStr "2024-01-15 10:30") Pandas.NaN (PFloat 3) (PFloat 5)
              Samples.sample_time nan 3%float 5%float)
    as (e & s' & Hrun & _ & _ & _ & Hnan);
    try reflexivity.
  - right. reflexivity.
  - left. reflexivity.
  - left. reflexivity.
  - left. reflexivity.
  - exists e, s'. split; [exact Hrun | exact Hnan].
Defined.

(** The sample row and the same row shuffled, with one more column. *)
Lemma process_csv_row_reads_recognised_columns_witness :
  _process_csv_row (rt := SampleRuntime.sample_runtime) Samples.bare_row (Samples.console [])
  = _process_csv_row (rt := SampleRuntime.sample_runtime) Samples.shuffled_row (Samples.console []).
Proof.
  apply (process_csv_row_reads_recognised_columns (rt := SampleRuntime.sample_runtime)).
  intros k Hk. simpl in Hk.
  repeat (destruct Hk as [<- | Hk]; [reflexivity | ]). contradiction.
Defined.

(** The sample file of two rows: four lines are printed. *)
Lemma auto_entry_trace_witness :
  exists s',
    auto_entry (rt := SampleRuntime.sample_runtime) "good.csv" Samples.session
    = (Ok (Samples.full_entry :: Samples.good_entries), s')
    /\ stdout s'
       = ["📁 Loaded 2 entries from good.csv";
          "  ✓ Added entry 1: 31415.9 ml";
          "  ✓ Added entry 2: 4188.8 ml";
          "✅ Successfully added 2 entries from CSV"]%string
    /\ calls s' = [CallValidate 4 3 5; CallCalculate 4 3 5;
                   CallValidate 2 2 2; CallCalculate 2 2 2].
Proof.
  destruct (auto_entry_trace (rt := SampleRuntime.sample_runtime)
              "good.csv" Samples.good_text
              (Pandas.mkDataFrame
                 ["patient_id"; "measurement_time"; "length_cm"; "width_cm"; "depth_cm";
                  "context"]%string
                 [[PStr "P001"; PStr "2024-01-15 10:30"; PFloat 4; PFloat 3; PFloat 5;
                   Pandas.NaN];
                  [PStr "P002"; PStr "2024-01-15 10:30"; PFloat 2; PFloat 2; PFloat 2;
                   PStr " Pre_Void"]])
              Samples.good_entries Samples.session)
    as (s' & Hrun & Hout & Hcalls).
  - reflexivity.
  - vm_compute. reflexivity.
  - repeat constructor; vm_compute; reflexivity.
  - exists s'. split; [exact Hrun | ]. split.
    + rewrite Hout. vm_compute. reflexivity.
    + rewrite Hcalls. reflexivity.
Defined.

(** The sample file of two rows, imported twice into the sample session. *)
Lemma auto_entry_twice_witness :
  exists s',
    (auto_entry (rt := SampleRuntime.sample_runtime) "good.csv";;
     auto_entry (rt := SampleRuntime.sample_runtime) "good.csv")%py Samples.session
    = (Ok (Samples.full_entry :: Samples.good_entries ++ Samples.good_entries)%list, s')
    /\ List.length (entries s') = 5%nat.
Proof.
  destruct (auto_entry_twice_duplicates (rt := SampleRuntime.sample_runtime)
              "good.csv" Samples.good_text
              (Pandas.mkDataFrame
                 ["patient_id"; "measurement_time"; "length_cm"; "width_cm"; "depth_cm";
                  "context"]%string
                 [[PStr "P001"; PStr "2024-01-15 10:30"; PFloat 4; PFloat 3; PFloat 5;
                   Pandas.NaN];
                  [PStr "P002"; PStr "2024-01-15 10:30"; PFloat 2; PFloat 2; PFloat 2;
                   PStr " Pre_Void"]])
              Samples.good_entries Samples.session)
    as (s' & Hrun & He).
  - reflexivity.
  - vm_compute. reflexivity.
  - repeat constructor; vm_compute; reflexivity.
  - exists s'. split; [exact Hrun | ]. rewrite He. reflexivity.
Defined.

(** The file written by an earlier flush cannot be imported. *)
Lemma auto_entry_rejects_saved_header_witness :
  exists s',
    auto_entry (rt := SampleRuntime.sample_runtime) "saved.csv" Samples.session
    = (Raise (KeyError "measurement_time"), s')
    /\ entries s' = [Samples.full_entry].
Proof.
  apply (auto_entry_rejects_saved_header (rt := SampleRuntime.sample_runtime)
           "saved.csv" Samples.saved_text Samples.saved_table Samples.session).
  - reflexivity.
  - vm_compute. reflexivity.
  - reflexivity.
  - apply well_formedb_sound. vm_compute. reflexivity.
  - discriminate.
Defined.

(** The cleared sample session flushed onto the file of an earlier flush. *)
Lemma save_to_csv_of_empty_store_witness :
  exists s',
    save_to_csv (rt := SampleRuntime.sample_runtime) "saved.csv" Samples.cleared_session = (Ok tt, s')
    /\ files s' "saved.csv"%string = Some (SampleRuntime.sample_to_csv Samples.saved_table)
    /\ stdout s' = ["Saved 1 entries to saved.csv"%string].
Proof.
  destruct (save_to_csv_of_empty_store (rt := SampleRuntime.sample_runtime)
              "saved.csv" Samples.saved_text Samples.saved_table Samples.cleared_session)
    as (s' & Hrun & Hf & Hout).
  - reflexivity.
  - reflexivity.
  - vm_compute. reflexivity.
  - apply well_formedb_sound. vm_compute. reflexivity.
  - exists s'. split; [exact Hrun | ]. split; [exact Hf | ].
    rewrite Hout. vm_compute. reflexivity.
Defined.

(** The table read back from a fresh flush of the sample session. *)
Lemma save_to_csv_twice_witness :
  exists s' out,
    (save_to_csv (rt := SampleRuntime.sample_runtime) "new.csv";;
     save_to_csv (rt := SampleRuntime.sample_runtime) "new.csv")%py Samples.session
    = (Ok tt, s')
    /\ entries s' = [Samples.full_entry]
    /\ files s' "new.csv"%string = Some (SampleRuntime.sample_to_csv out)
    /\ Pandas.len out = 2%nat.
Proof.
  destruct (save_to_csv_twice (rt := SampleRuntime.sample_runtime)
              "new.csv" Samples.session
              (Pandas.mkDataFrame field_names
                 [[PStr "P002"; PStr "2024-01-15 10:30:00"; PFloat 2; PFloat 2; PFloat 2;
                   PFloat 120.5; PStr "pre_void"; Pandas.NaN;
                   PFloat (_calculate_volume 2 2 2); PStr "csv_import"]]))
    as (s' & Hrun & He & Hf & Hlen & _).
  - reflexivity.
  - vm_compute. reflexivity.
  - exists s'. eexists. split; [exact Hrun | ]. split; [exact He | ].
    split; [exact Hf | exact Hlen].
Defined.

(** The eight sample answers. *)
Lemma manual_entry_valid_answers_witness :
  exists s',
    manual_entry (rt := SampleRuntime.sample_runtime) (Samples.console Samples.typed_lines)
    = (Raise (NameError "calculated_volume"), s')
    /\ entries s' = []
    /\ stdin s' = []
    /\ calls s' = [CallValidate 4 3 5].
Proof.
  destruct (manual_entry_valid_answers (rt := SampleRuntime.sample_runtime)
              (Samples.console Samples.typed_lines)
              "P001 " "2024-01-15 10:30" "4.0" "3.0" "5.0" "" " Pre_Void " "" []
              Samples.sample_time 4%float 3%float 5%float)
    as (s' & Hrun & He & Hi & _ & Hc); try reflexivity.
  exists s'. split; [exact Hrun | ]. split; [exact He | ]. split; [exact Hi | exact Hc].
Defined.

(** The sample session, with one entry, flushed onto the file that
    holds one row. *)
Lemma save_to_csv_reports_total_rows_witness :
  exists s',
    save_to_csv (rt := SampleRuntime.sample_runtime) "saved.csv" Samples.session = (Ok tt, s')
    /\ stdout s' = ["Saved 2 entries to saved.csv"%string].
Proof.
  destruct (save_to_csv_reports_total_rows (rt := SampleRuntime.sample_runtime)
              "saved.csv" Samples.saved_text Samples.saved_table Samples.session)
    as (s' & Hrun & Hout).
  - reflexivity.
  - vm_compute. reflexivity.
  - exists s'. split; [exact Hrun | ]. rewrite Hout. vm_compute. reflexivity.
Defined.

(** The sample row without its depth. *)
Lemma key_error_witness :
  normalize (rt := SampleRuntime.sample_runtime) Samples.short_row
  = Raise (KeyError "depth_cm")
  /\ In "depth_cm"%string required_columns
  /\ dict_get "depth_cm" Samples.short_row = None.
Proof.
  assert (H : normalize (rt := SampleRuntime.sample_runtime) Samples.short_row
              = Raise (KeyError "depth_cm")) by (vm_compute; reflexivity).
  split; [exact H | ].
  exact (key_error_names_missing_required_column (rt := SampleRuntime.sample_runtime)
           Samples.short_row "depth_cm" H).
Defined.

(** The sample row with a context in mixed case and white space. *)
Lemma batch_entry_text_witness :
  PyStr.strip (patient_id Samples.full_entry) = patient_id Samples.full_entry
  /\ PyStr.strip (context Samples.full_entry) = context Samples.full_entry
  /\ PyStr.lower (context Samples.full_entry) = context Samples.full_entry
  /\ PyStr.strip (notes Samples.full_entry) = notes Samples.full_entry.
Proof.
  apply (batch_entry_text_is_normalized (rt := SampleRuntime.sample_runtime)
           Samples.full_row (Samples.console [])
           (add_calls (Samples.console []) [CallValidate 2 2 2; CallCalculate 2 2 2])).
  vm_compute. reflexivity.
Defined.

(** A file with a header line only. *)
Lemma auto_entry_of_empty_table_witness :
  auto_entry (rt := SampleRuntime.sample_runtime) "header.csv" Samples.header_session
  = (Ok [Samples.full_entry],
     mkState [Samples.full_entry] []
             ["📁 Loaded 0 entries from header.csv"%string;
              "✅ Successfully added 0 entries from CSV"%string]
             (files Samples.header_session) []).
Proof.
  rewrite (auto_entry_of_empty_table (rt := SampleRuntime.sample_runtime)
             "header.csv" Samples.header_text
             (Pandas.mkDataFrame
                ["patient_id"; "measurement_time"; "length_cm"; "width_cm"; "depth_cm"]%string
                [])
             Samples.header_session).
  - vm_compute. reflexivity.
  - reflexivity.
  - vm_compute. reflexivity.
  - reflexivity.
Defined.
